(** * Chart-specification generators: a shallow embedding and its properties

    The development follows the two Python sources of the repository:

    - [generate_vega_lite_spec_enhanced.py] (module [Enhanced]): builds a
      Vega-Lite document from a description and a JSON data sample;
    - [process_structured_data.py] (module [Processor]): parses, analyses and
      summarises or charts structured data.

    Python values are embedded as the inductive type [value]; a function that
    can raise returns a [result].  Library functions of Python that are not
    part of the repository ([json.loads], [str] on non-string objects, the
    iteration order of [set], the float that [sum] accumulates) are Section
    variables, so every theorem holds for any behaviour of them; [json.loads]
    returns an object or raises, and only [json.JSONDecodeError] and
    [TypeError] are caught by the two programs.  The returned JSON text is
    [json.dumps doc]; the embedding returns the document [doc] itself.

    Numbers: an [int] is a [Z]; a [float] is an IEEE 754 binary64 number, a
    [spec_float] of the Standard Library with 53 bits of precision, with
    its signed zeros, infinities and NaN.  Subtraction, multiplication and
    true division round to nearest, ties to even; the conversion of an
    [int] and the true division of two [int]s raise [OverflowError] outside
    the range of a float; comparisons between numbers are exact.

    Strings are sequences of code points below 256 (the 8-bit characters of
    [string]), with the space, case and digit classes that Python gives
    them.  Two of these characters, the micro sign and y with diaeresis,
    have their title-case form above 255; [title] leaves them in place. *)

From Stdlib Require Import String Ascii List ZArith QArith Bool Lia Lqa.
From Stdlib Require Import SpecFloat.
Import ListNotations.
Local Open Scope string_scope.
Local Open Scope list_scope.

(* ================================================================== *)
(** * Python values, exceptions and string methods                      *)
(* ================================================================== *)

Module Py.

(** Exceptions that the modelled code, or [json.loads], can raise. *)
Inductive exn : Type :=
| AttributeError
| KeyError
| TypeError
| IndexError
| OverflowError
| ZeroDivisionError
| JSONDecodeError
| RecursionError
| ValueError.

(** Outcome of a call: a value, or an exception that propagates. *)
Inductive result (A : Type) : Type :=
| Ok (a : A)
| Raise (e : exn).

Arguments Ok {A} a.
Arguments Raise {A} e.

Definition bind {A B : Type} (r : result A) (k : A -> result B) : result B :=
  match r with
  | Ok a => k a
  | Raise e => Raise e
  end.

Notation "x <- r ;; k" := (bind r (fun x => k))
  (at level 61, r at next level, right associativity).

(** [try: r except: d] with a handler that catches everything. *)
Definition try_except {A : Type} (r : result A) (d : A) : A :=
  match r with
  | Ok a => a
  | Raise _ => d
  end.

Fixpoint mapM {A B : Type} (f : A -> result B) (l : list A) : result (list B) :=
  match l with
  | [] => Ok []
  | x :: xs =>
      bind (f x) (fun y => bind (mapM f xs) (fun ys => Ok (y :: ys)))
  end.

(** A [for] loop whose body can raise. *)
Fixpoint foldM {A B : Type} (f : A -> B -> result A) (l : list B) (a : A)
  : result A :=
  match l with
  | [] => Ok a
  | x :: r => bind (f a x) (foldM f r)
  end.

(** The handler [except (json.JSONDecodeError, TypeError):] catches these
    two exceptions and no other. *)
Definition decode_error (e : exn) : bool :=
  match e with
  | JSONDecodeError | TypeError => true
  | _ => false
  end.

(** Python objects that occur in the two programs.  A [dict] keeps its
    insertion order; its keys are objects too ([dict(zip(columns, row))] can
    produce keys that are not strings). *)
#[warnings="-register-all"]
Inductive value : Type :=
| VNone
| VBool (b : bool)
| VInt (z : Z)
| VFloat (f : spec_float)
| VStr (s : string)
| VList (l : list value)
| VDict (d : list (value * value)).

(** ** Characters and strings *)

Definition code (c : ascii) : nat := nat_of_ascii c.

Definition between (lo hi n : nat) : bool := (lo <=? n)%nat && (n <=? hi)%nat.

(** [str.isspace] on one character: the ASCII spaces and separators,
    U+0085 and U+00A0. *)
Definition is_space (c : ascii) : bool :=
  between 9 13 (code c) || between 28 32 (code c) ||
  (code c =? 133)%nat || (code c =? 160)%nat.

(** [\d] of [re] on a [str] pattern: below 256 the decimal digits are the
    ASCII ones. *)
Definition is_digit (c : ascii) : bool := between 48 57 (code c).

(** Characters with a lower-case mapping: A-Z, and U+00C0-U+00DE except the
    multiplication sign. *)
Definition is_upper (c : ascii) : bool :=
  between 65 90 (code c) ||
  (between 192 222 (code c) && negb (code c =? 215)%nat).

(** Characters whose title-case mapping is one character below 256: a-z,
    and U+00E0-U+00FE except the division sign. *)
Definition is_lower (c : ascii) : bool :=
  between 97 122 (code c) ||
  (between 224 254 (code c) && negb (code c =? 247)%nat).

(** The other cased characters below 256: the ordinal indicators, the micro
    sign, sharp s and y with diaeresis. *)
Definition is_cased_other (c : ascii) : bool :=
  (code c =? 170)%nat || (code c =? 181)%nat || (code c =? 186)%nat ||
  (code c =? 223)%nat || (code c =? 255)%nat.

Definition is_cased (c : ascii) : bool :=
  is_upper c || is_lower c || is_cased_other c.

Definition char_lower (c : ascii) : ascii :=
  if is_upper c then ascii_of_nat (code c + 32) else c.

Definition char_upper (c : ascii) : ascii :=
  if is_lower c then ascii_of_nat (code c - 32) else c.

Fixpoint string_map (f : ascii -> ascii) (s : string) : string :=
  match s with
  | EmptyString => EmptyString
  | String c r => String (f c) (string_map f r)
  end.

Fixpoint string_forall (p : ascii -> bool) (s : string) : bool :=
  match s with
  | EmptyString => true
  | String c r => p c && string_forall p r
  end.

(** [s.lower()] *)
Definition lower (s : string) : string := string_map char_lower s.

(** [not s or not s.strip()]: the string is empty or only whitespace. *)
Definition blank (s : string) : bool := string_forall is_space s.

(** [needle in hay] for strings. *)
Fixpoint contains (needle hay : string) : bool :=
  String.prefix needle hay ||
  match hay with
  | EmptyString => false
  | String _ r => contains needle r
  end.

(** [any(keyword in s for keyword in keywords)] *)
Definition any_in (keywords : list string) (s : string) : bool :=
  existsb (fun keyword => contains keyword s) keywords.

(** [hay.count(needle)] for a non-empty [needle]: occurrences that do not
    overlap, from the left.  [skip] is the number of characters still
    covered by the last occurrence. *)
Fixpoint count_from (needle hay : string) (skip : nat) : nat :=
  match hay with
  | EmptyString => 0
  | String _ r =>
      match skip with
      | S k => count_from needle r k
      | O =>
          if String.prefix needle hay
          then S (count_from needle r (String.length needle - 1))
          else count_from needle r 0
      end
  end.

Definition count (needle hay : string) : nat := count_from needle hay 0.

(** [s.replace("_", " ")] *)
Definition replace_underscore (s : string) : string :=
  string_map (fun c => if Ascii.eqb c "_" then " "%char else c) s.

(** The title-case mapping of one character.  Sharp s becomes [Ss].  The
    micro sign and y with diaeresis map to U+039C and U+0178, which are not
    below 256: these two are left as they are. *)
Definition char_title (c : ascii) : string :=
  if (code c =? 223)%nat then "Ss"
  else String (char_upper c) EmptyString.

(** [s.title()]: a cased character that follows a cased character is
    lower-cased, any other character is title-cased. *)
Fixpoint title_from (previous_is_cased : bool) (s : string) : string :=
  match s with
  | EmptyString => EmptyString
  | String c r =>
      ((if previous_is_cased then String (char_lower c) EmptyString
        else char_title c) ++ title_from (is_cased c) r)%string
  end.

Definition title (s : string) : string := title_from false s.

(** [field.replace("_", " ").title()] *)
Definition humanize (s : string) : string := title (replace_underscore s).

(** [s.split(":", 1)[1]] *)
Fixpoint after_colon (s : string) : result string :=
  match s with
  | EmptyString => Raise IndexError
  | String c r => if Ascii.eqb c ":" then Ok r else after_colon r
  end.

(** The first [n] characters exist and are digits. *)
Fixpoint digits (n : nat) (s : string) : option string :=
  match n with
  | O => Some s
  | S k =>
      match s with
      | EmptyString => None
      | String c r => if is_digit c then digits k r else None
      end
  end.

Definition dash (s : string) : option string :=
  match s with
  | String c r => if Ascii.eqb c "-" then Some r else None
  | EmptyString => None
  end.

Definition matched {A : Type} (o : option A) : bool :=
  match o with Some _ => true | None => false end.

Definition and_then {A B : Type} (o : option A) (k : A -> option B) : option B :=
  match o with Some a => k a | None => None end.

(** [re.match(r'^\d{4}', s)] is a match. *)
Definition re_year (s : string) : bool := matched (digits 4 s).

(** [re.match(r'^\d{4}-\d{2}-\d{2}', s)] is a match. *)
Definition re_iso_date (s : string) : bool :=
  matched (and_then (digits 4 s) (fun r1 =>
           and_then (dash r1) (fun r2 =>
           and_then (digits 2 r2) (fun r3 =>
           and_then (dash r3) (fun r4 => digits 2 r4))))).

(** One optional group [(-\d{2})?]: it consumes when it can and never makes
    the match fail. *)
Definition optional_dash_digits (s : string) : string :=
  match and_then (dash s) (digits 2) with
  | Some r => r
  | None => s
  end.

(** [re.match(r'^\d{4}(-\d{2})?(-\d{2})?', s)] is a match. *)
Definition re_date_like (s : string) : bool :=
  matched (and_then (digits 4 s) (fun r =>
           Some (optional_dash_digits (optional_dash_digits r)))).

(** ** Numbers and truth values *)

(** The integer that an [int] or a [bool] is ([bool] is a subclass of
    [int]: [True] is 1). *)
Definition int_of (v : value) : option Z :=
  match v with
  | VBool b => Some (if b then 1 else 0)%Z
  | VInt z => Some z
  | _ => None
  end.

(** [isinstance(v, (int, float))] *)
Definition is_int_or_float (v : value) : bool :=
  match v with
  | VBool _ | VInt _ | VFloat _ => true
  | _ => false
  end.

(** *** Floats *)

Definition float_prec : Z := 53.
Definition float_emax : Z := 1024.

(** The literals [0.5] and [0.7]. *)
Definition float_half : spec_float := S754_finite false 4503599627370496 (-53).
Definition float_0_7 : spec_float := S754_finite false 6305039478318694 (-53).

(** [float(z)] for an [int]: the nearest float, and [OverflowError] ("int
    too large to convert to float") when there is none in range. *)
Definition float_of_int (z : Z) : result spec_float :=
  match binary_normalize float_prec float_emax z 0 false with
  | S754_infinity _ => Raise OverflowError
  | f => Ok f
  end.

(** An operand of a float operation: a float as it is, an [int] converted. *)
Definition to_float (v : value) : result spec_float :=
  match v with
  | VFloat f => Ok f
  | _ =>
      match int_of v with
      | Some z => float_of_int z
      | None => Raise TypeError
      end
  end.

(** [x == 0] for a number. *)
Definition is_zero (v : value) : bool :=
  match v with
  | VFloat (S754_zero _) => true
  | VFloat _ => false
  | _ => match int_of v with Some z => (z =? 0)%Z | None => false end
  end.

(** An [int] as an operand of the exact division below: the integer
    itself, with exponent 0 and as many bits as it has. *)
Definition unrounded (z : Z) : spec_float :=
  match z with
  | Z0 => S754_zero false
  | Zpos m => S754_finite false m 0
  | Zneg m => S754_finite true m 0
  end.

(** [a / b] for two [int]s: the float nearest to the exact quotient,
    [OverflowError] ("integer division result too large for a float") when
    it is out of range. *)
Definition int_truediv (a b : Z) : result value :=
  if (b =? 0)%Z then Raise ZeroDivisionError
  else
    match SFdiv float_prec float_emax (unrounded a) (unrounded b) with
    | S754_infinity _ => Raise OverflowError
    | q => Ok (VFloat q)
    end.

(** [a / b] for two numbers. *)
Definition py_truediv (a b : value) : result value :=
  match int_of a, int_of b with
  | Some x, Some y => int_truediv x y
  | _, _ =>
      x <- to_float a ;;
      y <- to_float b ;;
      if is_zero b then Raise ZeroDivisionError
      else Ok (VFloat (SFdiv float_prec float_emax x y))
  end.

(** [a - b] for two numbers. *)
Definition py_sub (a b : value) : result value :=
  match int_of a, int_of b with
  | Some x, Some y => Ok (VInt (x - y))
  | _, _ =>
      x <- to_float a ;;
      y <- to_float b ;;
      Ok (VFloat (SFsub float_prec float_emax x y))
  end.

(** [a * b] for two numbers. *)
Definition py_mul (a b : value) : result value :=
  match int_of a, int_of b with
  | Some x, Some y => Ok (VInt (x * y))
  | _, _ =>
      x <- to_float a ;;
      y <- to_float b ;;
      Ok (VFloat (SFmul float_prec float_emax x y))
  end.

(** *** Comparisons

    Python compares an [int] with a [float] exactly.  [exact] is the
    number that an object stands for: a rational, an infinity, or NaN. *)
Inductive xnum : Type :=
| XNaN
| XNegInf
| XFin (q : Q)
| XPosInf.

Definition float_value (f : spec_float) : xnum :=
  match f with
  | S754_zero _ => XFin 0
  | S754_infinity s => if s then XNegInf else XPosInf
  | S754_nan => XNaN
  | S754_finite s m e =>
      XFin (inject_Z (if s then Zneg m else Zpos m) * Qpower 2 e)
  end.

Definition exact (v : value) : xnum :=
  match v with
  | VFloat f => float_value f
  | _ => match int_of v with Some z => XFin (inject_Z z) | None => XNaN end
  end.

Definition Qltb (x y : Q) : bool := negb (Qle_bool y x).

Definition x_ltb (a b : xnum) : bool :=
  match a, b with
  | XNaN, _ | _, XNaN => false
  | XNegInf, XNegInf => false
  | XNegInf, _ => true
  | _, XNegInf => false
  | XPosInf, _ => false
  | _, XPosInf => true
  | XFin p, XFin q => Qltb p q
  end.

Definition x_eqb (a b : xnum) : bool :=
  match a, b with
  | XNegInf, XNegInf | XPosInf, XPosInf => true
  | XFin p, XFin q => Qeq_bool p q
  | _, _ => false
  end.

(** [a < b], [a > b], [a <= b], [a == b] and [a != b] for two numbers;
    every comparison with NaN is false, except [!=]. *)
Definition py_ltb (a b : value) : bool := x_ltb (exact a) (exact b).
Definition py_gtb (a b : value) : bool := py_ltb b a.
Definition py_eqb (a b : value) : bool := x_eqb (exact a) (exact b).
Definition py_leb (a b : value) : bool := py_ltb a b || py_eqb a b.
Definition py_neb (a b : value) : bool := negb (py_eqb a b).

(** [min(values)] and [max(values)] of a non-empty list of numbers: the
    first extreme element is kept. *)
Definition py_min (x : value) (xs : list value) : value :=
  fold_left (fun m y => if py_ltb y m then y else m) xs x.

Definition py_max (x : value) (xs : list value) : value :=
  fold_left (fun m y => if py_gtb y m then y else m) xs x.

(** [isinstance(v, (int, float)) and not isinstance(v, bool)] *)
Definition is_number (v : value) : bool :=
  match v with
  | VInt _ | VFloat _ => true
  | _ => false
  end.

Definition is_str (v : value) : bool :=
  match v with VStr _ => true | _ => false end.

Definition is_dict (v : value) : bool :=
  match v with VDict _ => true | _ => false end.

(** Truth value of an object, as [not v] and [if v] use it. *)
Definition truthy (v : value) : bool :=
  match v with
  | VNone => false
  | VBool b => b
  | VInt z => negb (z =? 0)%Z
  | VFloat f => negb (is_zero (VFloat f))
  | VStr s => negb (s =? EmptyString)
  | VList l => match l with [] => false | _ => true end
  | VDict d => match d with [] => false | _ => true end
  end.

(** ** Dictionaries *)

(** Equality of two hashable keys: strings by content, numbers (with
    booleans) by value, [None] with itself. *)
Definition key_eqb (a b : value) : bool :=
  match a, b with
  | VStr s, VStr t => s =? t
  | VNone, VNone => true
  | _, _ => is_int_or_float a && is_int_or_float b && py_eqb a b
  end.

Definition hashable (v : value) : bool :=
  match v with
  | VList _ | VDict _ => false
  | _ => true
  end.

Fixpoint dict_get (k : value) (d : list (value * value)) : option value :=
  match d with
  | [] => None
  | (k', v) :: r => if key_eqb k k' then Some v else dict_get k r
  end.

(** [d[k] = v]: an existing key keeps its place, a new key goes last. *)
Fixpoint dict_set (k v : value) (d : list (value * value)) : list (value * value) :=
  match d with
  | [] => [(k, v)]
  | (k', v') :: r =>
      if key_eqb k k' then (k', v) :: r else (k', v') :: dict_set k v r
  end.

Definition dict_has (k : value) (d : list (value * value)) : bool :=
  matched (dict_get k d).

(** [{**base, k1: v1, ...}] *)
Definition dict_update (base extra : list (value * value)) : list (value * value) :=
  fold_left (fun d kv => dict_set (fst kv) (snd kv) d) extra base.

(** [doc[k]] read back from a returned document. *)
Definition field_of (k : string) (doc : value) : option value :=
  match doc with
  | VDict d => dict_get (VStr k) d
  | _ => None
  end.

(** [row[field]] with a string subscript. *)
Definition getitem (row : value) (field : string) : result value :=
  match row with
  | VDict d =>
      match dict_get (VStr field) d with
      | Some v => Ok v
      | None => Raise KeyError
      end
  | _ => Raise TypeError
  end.

(** [field in row] for a string [field]. *)
Definition py_in (field : string) (row : value) : result bool :=
  match row with
  | VDict d => Ok (dict_has (VStr field) d)
  | VList l => Ok (existsb (key_eqb (VStr field)) l)
  | VStr s => Ok (contains field s)
  | _ => Raise TypeError
  end.

(** [data_values[0][field]] *)
Definition first_row_item (data_values : list value) (field : string) : result value :=
  match data_values with
  | [] => Raise IndexError
  | row :: _ => getitem row field
  end.

(** A key used as a field name: a method call on it ([.lower()],
    [.replace()]) raises [AttributeError] unless it is a string. *)
Definition as_field (k : value) : result string :=
  match k with
  | VStr s => Ok s
  | _ => Raise AttributeError
  end.

(** [a or b] where [a] is a field name or [None]. *)
Definition name_truthy (a : option string) : bool :=
  match a with
  | Some s => negb (s =? EmptyString)
  | None => false
  end.

(** [a == b] where [a] is a field name or [None] and [b] a field name. *)
Definition name_eqb (a : option string) (b : string) : bool :=
  match a with
  | Some s => s =? b
  | None => false
  end.

(** [str(v)] for an object that is a string (the programs below apply it
    to other objects only through the [repr_value] parameter). *)
Definition text (v : value) : string :=
  match v with VStr s => s | _ => EmptyString end.

Definition opt_str (a : option string) : value :=
  match a with Some s => VStr s | None => VNone end.

End Py.

Export Py.

Notation "k ~> v" := (VStr k, v) (at level 55, no associativity).

(* ================================================================== *)
(** * generate_vega_lite_spec_enhanced.py                               *)
(* ================================================================== *)

Module Enhanced.

(** ** Field roles: [detect_field_types] *)

Definition time_keywords : list string :=
  ["year"; "date"; "time"; "month"; "day"; "quarter"; "week"].

Definition category_keywords : list string :=
  ["name"; "region"; "category"; "type"; "brand"; "segment";
   "product"; "customer"; "location"; "country"; "state"; "city"].

Definition value_keywords : list string :=
  ["sales"; "revenue"; "volume"; "amount"; "value"; "price";
   "qty"; "quantity"; "usd"; "count"; "total"; "sum"; "avg"; "mean"].

(** The triple [(time_field, category_field, value_fields)]. *)
Record roles : Type := mk_roles {
  time_field : option string;
  category_field : option string;
  value_fields : list string
}.

Definition no_roles : roles := mk_roles None None [].

Definition with_time (st : roles) (f : string) : roles :=
  mk_roles (Some f) (category_field st) (value_fields st).

Definition with_category (st : roles) (f : string) : roles :=
  mk_roles (time_field st) (Some f) (value_fields st).

Definition with_values (st : roles) (vs : list string) : roles :=
  mk_roles (time_field st) (category_field st) vs.

(** The sampling [try] block: [(sample_value, is_numeric, is_string)]. *)
Definition take_sample (data_values : list value) (field : string)
  : value * bool * bool :=
  match first_row_item data_values field with
  | Ok v => (v, is_number v, is_str v)
  | Raise _ => (VNone, false, false)
  end.

(** The part of the loop body after the time-field test: value field,
    then category field. *)
Definition value_or_category (st : roles) (field field_lower : string)
    (is_numeric is_string : bool) : roles :=
  let has_value_keyword := any_in value_keywords field_lower in
  let has_time_keyword := any_in time_keywords field_lower in
  let has_id_keyword := contains "id" field_lower in
  if is_numeric &&
     (has_value_keyword || (negb has_time_keyword && negb has_id_keyword))
  then with_values st (value_fields st ++ [field])
  else if is_string then
    let has_category_keyword := any_in category_keywords field_lower in
    match category_field st with
    | None =>
        if has_category_keyword then with_category st field
        else with_category st field
    | Some _ => st
    end
  else st.

(** One iteration of [for field in fields]. *)
Definition classify_field (data_values : list value) (st : roles)
    (field : string) : roles :=
  let field_lower := lower field in
  let '(sample_value, is_numeric, is_string) := take_sample data_values field in
  if any_in time_keywords field_lower then
    if is_numeric || is_string then with_time st field
    else value_or_category st field field_lower is_numeric is_string
  else if is_string && truthy sample_value && re_year (text sample_value) then
    match time_field st with
    | None => with_time st field
    | Some _ => value_or_category st field field_lower is_numeric is_string
    end
  else value_or_category st field field_lower is_numeric is_string.

(** [isinstance(data_values[0][field], (int, float))] inside [try]. *)
Definition sample_is_int_or_float (data_values : list value) (field : string)
  : result bool :=
  v <- first_row_item data_values field ;; Ok (is_int_or_float v).

(** First field of [fields] whose first-record sample is an [int] or
    [float]; a sample that cannot be read is skipped. *)
Fixpoint first_numeric (data_values : list value) (fields : list string)
  : option string :=
  match fields with
  | [] => None
  | f :: r =>
      if try_except (sample_is_int_or_float data_values f) false
      then Some f
      else first_numeric data_values r
  end.

(** First field whose sample can be read and is not an [int] or [float]. *)
Fixpoint first_non_numeric (data_values : list value) (fields : list string)
  : option string :=
  match fields with
  | [] => None
  | f :: r =>
      if try_except (b <- sample_is_int_or_float data_values f ;; Ok (negb b)) false
      then Some f
      else first_non_numeric data_values r
  end.

(** [fields[0]] and [fields[-1]] *)
Definition first_field (fields : list string) : result string :=
  match fields with
  | [] => Raise IndexError
  | f :: _ => Ok f
  end.

Definition last_field (fields : list string) : result string :=
  first_field (rev fields).

(** The fallback for an empty [value_fields]. *)
Definition value_fallback (fields : list string) (data_values : list value)
    (st : roles) : result roles :=
  match value_fields st with
  | [] =>
      match first_numeric data_values (rev fields) with
      | Some f => Ok (with_values st [f])
      | None => f <- last_field fields ;; Ok (with_values st [f])
      end
  | _ :: _ => Ok st
  end.

(** The fallback when neither a category nor a time field was found. *)
Definition category_fallback (fields : list string) (data_values : list value)
    (st : roles) : result roles :=
  if negb (name_truthy (category_field st)) && negb (name_truthy (time_field st))
  then
    let st' :=
      match first_non_numeric data_values fields with
      | Some f => with_category st f
      | None => st
      end in
    if negb (name_truthy (category_field st'))
    then f <- first_field fields ;; Ok (with_category st' f)
    else Ok st'
  else Ok st.

Definition detect_field_types (fields : list string) (data_values : list value)
  : result roles :=
  let st := fold_left (classify_field data_values) fields no_roles in
  st1 <- value_fallback fields data_values st ;;
  category_fallback fields data_values st1.

(** ** Scale divergence: [have_different_scales] *)

(** One entry of [ranges]: [{'min': .., 'max': .., 'range': ..}]. *)
Record scale : Type := mk_scale {
  s_min : value;
  s_max : value;
  s_range : value
}.

(** [[row[field] for row in data_values
      if field in row and isinstance(row[field], (int, float))]] *)
Fixpoint numeric_values (field : string) (data_values : list value)
  : result (list value) :=
  match data_values with
  | [] => Ok []
  | row :: rest =>
      present <- py_in field row ;;
      if present then
        v <- getitem row field ;;
        if is_int_or_float v
        then vs <- numeric_values field rest ;; Ok (v :: vs)
        else numeric_values field rest
      else numeric_values field rest
  end.

(** [ranges[field] = entry] *)
Fixpoint range_set (field : string) (entry : scale) (ranges : list (string * scale))
  : list (string * scale) :=
  match ranges with
  | [] => [(field, entry)]
  | (f, e) :: r =>
      if field =? f then (f, entry) :: r else (f, e) :: range_set field entry r
  end.

(** The entry built from a non-empty list of values; the subtraction of
    an [int] and a [float] can raise [OverflowError]. *)
Definition scale_of (x : value) (xs : list value) : result scale :=
  let lo := py_min x xs in
  let hi := py_max x xs in
  range <- (if py_neb hi lo then py_sub hi lo else Ok hi) ;;
  Ok (mk_scale lo hi range).

(** The body of the [try] for one field: the entry to store, if any. *)
Definition range_of (data_values : list value) (field : string)
  : result (option scale) :=
  values <- numeric_values field data_values ;;
  match values with
  | x :: xs => entry <- scale_of x xs ;; Ok (Some entry)
  | [] => Ok None
  end.

(** One iteration of [for field in value_fields]; an exception inside the
    [try] leaves [ranges] unchanged. *)
Definition add_range (data_values : list value) (ranges : list (string * scale))
    (field : string) : list (string * scale) :=
  match range_of data_values field with
  | Ok (Some entry) => range_set field entry ranges
  | Ok None => ranges
  | Raise _ => ranges
  end.

Definition compute_ranges (value_fields : list string) (data_values : list value)
  : list (string * scale) :=
  fold_left (add_range data_values) value_fields [].

(** One comparison of [field1] with [field2]; the two divisions are
    outside every [try]. *)
Definition compare_pair (range1 : value) (max_ratio : value)
    (entry2 : string * scale) : result value :=
  let range2 := s_range (snd entry2) in
  if py_gtb range2 (VInt 0) then
    ratio <- py_truediv range1 range2 ;;
    inverse <- (if py_gtb ratio (VInt 0) then py_truediv (VInt 1) ratio
                else Ok (VInt 1)) ;;
    Ok (py_max max_ratio [ratio; inverse])
  else Ok max_ratio.

(** The two nested loops over [i < j]. *)
Fixpoint compare_scales (field_list : list (string * scale)) (max_ratio : value)
  : result value :=
  match field_list with
  | [] => Ok max_ratio
  | entry1 :: rest =>
      max_ratio <- foldM (compare_pair (s_range (snd entry1))) rest max_ratio ;;
      compare_scales rest max_ratio
  end.

Definition have_different_scales (value_fields : list string)
    (data_values : list value) : result (bool * list (string * scale)) :=
  if (length value_fields <? 2)%nat then Ok (false, [])
  else
    let ranges := compute_ranges value_fields data_values in
    if (length ranges <? 2)%nat then Ok (false, [])
    else
      max_ratio <- compare_scales ranges (VInt 1) ;;
      Ok (py_gtb max_ratio (VInt 100), ranges).

(** ** The generator: [generate_vega_lite_spec] *)

Definition schema_url : string := "https://vega.github.io/schema/vega-lite/v5.json".

(** The built-in sample data. *)
Definition default_rows : list value :=
  [VDict ["category" ~> VStr "A"; "value" ~> VInt 28];
   VDict ["category" ~> VStr "B"; "value" ~> VInt 55];
   VDict ["category" ~> VStr "C"; "value" ~> VInt 43]].

Definition default_row : value :=
  VDict ["category" ~> VStr "A"; "value" ~> VInt 28].

Definition default_fields : list string := ["category"; "value"].

Definition keys_of (v : value) : list value :=
  match v with
  | VDict d => map fst d
  | _ => []
  end.

(** "Get field names": the block that fixes [data_values] and [fields].
    The keys become field names here; a key that is not a string would
    make the first [field.lower()] of [detect_field_types] raise
    [AttributeError], which is the outcome recorded by [as_field]. *)
Definition field_names (data_values : list value)
  : result (list value * list string) :=
  match data_values with
  | [] => Ok (data_values, default_fields)
  | first_item :: _ =>
      if negb (truthy first_item) || negb (is_dict first_item) ||
         (length (keys_of first_item) <? 2)%nat
      then Ok ([default_row], default_fields)
      else fields <- mapM as_field (keys_of first_item) ;; Ok (data_values, fields)
  end.

Definition view_config : value :=
  VDict ["view" ~> VDict ["stroke" ~> VNone]].

Definition base_spec (chart_description : string) (data_values : list value)
  : list (value * value) :=
  ["$schema" ~> VStr schema_url;
   "description" ~> VStr chart_description;
   "data" ~> VDict ["values" ~> VList data_values];
   "width" ~> VInt 500;
   "height" ~> VInt 300].

(** ["nominal" if category_field == x_field else "ordinal"] *)
Definition axis_type (category_field : option string) (x_field : string) : value :=
  VStr (if name_eqb category_field x_field then "nominal" else "ordinal").

(** [a or k] for a field name or [None] [a]. *)
Definition or_else (a : option string) (k : result string) : result string :=
  match a with
  | Some f => if name_truthy a then Ok f else k
  | None => k
  end.

(** The [x_type] of the line chart. *)
Definition line_x_type (st : roles) (data_values : list value) (x_field : string)
  : string :=
  if name_eqb (time_field st) x_field then
    try_except
      (sample_value <- first_row_item data_values x_field ;;
       Ok (if is_int_or_float sample_value then "ordinal"
           else if is_str sample_value && re_iso_date (text sample_value)
                then "temporal"
                else "ordinal"))
      "ordinal"
  else "ordinal".

Definition line_chart (chart_description : string) (data_values : list value)
    (fields : list string) (st : roles) (primary_value_field : string)
  : result value :=
  x_field0 <- or_else (time_field st)
                (or_else (category_field st) (first_field fields)) ;;
  let y_field := primary_value_field in
  let multi := name_truthy (time_field st) && name_truthy (category_field st) in
  let x_field :=
    match multi, time_field st with
    | true, Some t => t
    | _, _ => x_field0
    end in
  let color_field := if multi then category_field st else None in
  let x_type := line_x_type st data_values x_field in
  let encoding :=
    ["x" ~> VDict ["field" ~> VStr x_field; "type" ~> VStr x_type;
                   "title" ~> VStr (humanize x_field)];
     "y" ~> VDict ["field" ~> VStr y_field; "type" ~> VStr "quantitative";
                   "title" ~> VStr (humanize y_field)]] in
  let encoding :=
    match color_field with
    | Some c =>
        if name_truthy color_field
        then dict_set (VStr "color")
               (VDict ["field" ~> VStr c; "type" ~> VStr "nominal";
                       "title" ~> VStr (humanize c)]) encoding
        else encoding
    | None => encoding
    end in
  Ok (VDict (dict_update (base_spec chart_description data_values)
       ["mark" ~> VDict ["type" ~> VStr "line"; "point" ~> VBool true;
                         "tooltip" ~> VBool true];
        "encoding" ~> VDict encoding;
        "config" ~> view_config])).

Definition bar_mark : value :=
  VDict ["type" ~> VStr "bar"; "tooltip" ~> VBool true].

Definition label_axis : value := VDict ["labelAngle" ~> VInt (-45)].

Definition year_comparison_chart (chart_description : string)
    (data_values : list value) (st : roles) (x_field primary_metric t : string)
  : value :=
  VDict (dict_update (base_spec chart_description data_values)
    ["mark" ~> bar_mark;
     "encoding" ~> VDict
       ["x" ~> VDict ["field" ~> VStr x_field;
                      "type" ~> axis_type (category_field st) x_field;
                      "axis" ~> label_axis];
        "y" ~> VDict ["field" ~> VStr primary_metric;
                      "type" ~> VStr "quantitative";
                      "title" ~> VStr (humanize primary_metric)];
        "color" ~> VDict ["field" ~> VStr t; "type" ~> VStr "ordinal";
                          "title" ~> VStr (humanize t)];
        "xOffset" ~> VDict ["field" ~> VStr t]];
     "config" ~> view_config]).

Definition dual_axis_chart (chart_description : string)
    (data_values : list value) (st : roles) (x_field v0 v1 : string) : value :=
  VDict
    ["$schema" ~> VStr schema_url;
     "description" ~> VStr chart_description;
     "data" ~> VDict ["values" ~> VList data_values];
     "width" ~> VInt 500;
     "height" ~> VInt 300;
     "layer" ~> VList
       [VDict
          ["mark" ~> VDict ["type" ~> VStr "bar"; "opacity" ~> VFloat float_0_7;
                            "color" ~> VStr "#4c78a8"; "tooltip" ~> VBool true];
           "encoding" ~> VDict
             ["x" ~> VDict ["field" ~> VStr x_field;
                            "type" ~> axis_type (category_field st) x_field;
                            "axis" ~> label_axis;
                            "title" ~> VStr (humanize x_field)];
              "y" ~> VDict ["field" ~> VStr v0; "type" ~> VStr "quantitative";
                            "title" ~> VStr (humanize v0);
                            "axis" ~> VDict ["titleColor" ~> VStr "#4c78a8"]]]];
        VDict
          ["mark" ~> VDict ["type" ~> VStr "line"; "color" ~> VStr "#e45756";
                            "point" ~> VDict ["filled" ~> VBool true;
                                              "size" ~> VInt 80];
                            "strokeWidth" ~> VInt 3; "tooltip" ~> VBool true];
           "encoding" ~> VDict
             ["x" ~> VDict ["field" ~> VStr x_field;
                            "type" ~> axis_type (category_field st) x_field];
              "y" ~> VDict ["field" ~> VStr v1; "type" ~> VStr "quantitative";
                            "title" ~> VStr (humanize v1);
                            "axis" ~> VDict ["titleColor" ~> VStr "#e45756";
                                             "orient" ~> VStr "right"]]]]];
     "resolve" ~> VDict ["scale" ~> VDict ["y" ~> VStr "independent"]];
     "config" ~> view_config].

Definition subplot (st : roles) (x_field value_field : string) : value :=
  VDict
    ["title" ~> VDict ["text" ~> VStr (humanize value_field);
                       "fontSize" ~> VInt 14];
     "width" ~> VInt 500;
     "height" ~> VInt 200;
     "mark" ~> bar_mark;
     "encoding" ~> VDict
       ["x" ~> VDict ["field" ~> VStr x_field;
                      "type" ~> axis_type (category_field st) x_field;
                      "axis" ~> label_axis;
                      "title" ~> VStr (humanize x_field)];
        "y" ~> VDict ["field" ~> VStr value_field;
                      "type" ~> VStr "quantitative"; "title" ~> VNone];
        "color" ~> VDict ["value" ~> VStr "#4c78a8"]]].

Definition subplots_chart (chart_description : string)
    (data_values : list value) (st : roles) (x_field : string) : value :=
  VDict
    ["$schema" ~> VStr schema_url;
     "description" ~> VStr chart_description;
     "data" ~> VDict ["values" ~> VList data_values];
     "vconcat" ~> VList (map (subplot st x_field) (value_fields st));
     "resolve" ~> VDict ["scale" ~> VDict ["y" ~> VStr "independent"]];
     "config" ~> view_config].

(** One record of [transformed_data]:
    [{x_field: row[x_field], "metric": .., "value": row[value_field]}]. *)
Definition transformed_row (x_field : string) (row : value) (value_field : string)
  : result value :=
  x <- getitem row x_field ;;
  let metric := VStr (humanize value_field) in
  v <- getitem row value_field ;;
  Ok (VDict (dict_update [] [x_field ~> x; "metric" ~> metric; "value" ~> v])).

Definition transformed_data (x_field : string) (value_fields : list string)
    (data_values : list value) : result (list value) :=
  groups <- mapM (fun row => mapM (transformed_row x_field row) value_fields)
                 data_values ;;
  Ok (concat groups).

Definition grouped_bars_chart (chart_description : string)
    (data_values : list value) (st : roles) (x_field : string) : result value :=
  rows <- transformed_data x_field (value_fields st) data_values ;;
  Ok (VDict (dict_update (base_spec chart_description data_values)
    ["data" ~> VDict ["values" ~> VList rows];
     "mark" ~> bar_mark;
     "encoding" ~> VDict
       ["x" ~> VDict ["field" ~> VStr x_field;
                      "type" ~> axis_type (category_field st) x_field;
                      "axis" ~> label_axis];
        "y" ~> VDict ["field" ~> VStr "value"; "type" ~> VStr "quantitative";
                      "title" ~> VStr "Value"];
        "color" ~> VDict ["field" ~> VStr "metric"; "type" ~> VStr "nominal";
                          "title" ~> VStr "Metric"];
        "xOffset" ~> VDict ["field" ~> VStr "metric"]];
     "config" ~> view_config])).

Definition single_bar_chart (chart_description : string)
    (data_values : list value) (st : roles) (x_field y_field : string) : value :=
  VDict (dict_update (base_spec chart_description data_values)
    ["mark" ~> bar_mark;
     "encoding" ~> VDict
       ["x" ~> VDict ["field" ~> VStr x_field;
                      "type" ~> axis_type (category_field st) x_field;
                      "axis" ~> label_axis];
        "y" ~> VDict ["field" ~> VStr y_field; "type" ~> VStr "quantitative"]];
     "config" ~> view_config]).

Definition scatter_chart (chart_description : string)
    (data_values : list value) (fields : list string) : value :=
  let x_field := match fields with f0 :: _ :: _ => f0 | _ => "x" end in
  let y_field := match fields with _ :: f1 :: _ => f1 | _ => "y" end in
  VDict (dict_update (base_spec chart_description data_values)
    ["mark" ~> VDict ["type" ~> VStr "point"; "tooltip" ~> VBool true];
     "encoding" ~> VDict
       ["x" ~> VDict ["field" ~> VStr x_field; "type" ~> VStr "quantitative"];
        "y" ~> VDict ["field" ~> VStr y_field; "type" ~> VStr "quantitative"]];
     "config" ~> view_config]).

Definition pie_chart (chart_description : string)
    (data_values : list value) (category theta_field : string) : value :=
  VDict (dict_update (base_spec chart_description data_values)
    ["mark" ~> VDict ["type" ~> VStr "arc"; "tooltip" ~> VBool true];
     "encoding" ~> VDict
       ["theta" ~> VDict ["field" ~> VStr theta_field;
                          "type" ~> VStr "quantitative"];
        "color" ~> VDict ["field" ~> VStr category; "type" ~> VStr "nominal"]]]).

Definition default_bar_chart (chart_description : string)
    (data_values : list value) (x_field y_field : string) : value :=
  VDict (dict_update (base_spec chart_description data_values)
    ["mark" ~> bar_mark;
     "encoding" ~> VDict
       ["x" ~> VDict ["field" ~> VStr x_field; "type" ~> VStr "nominal";
                      "axis" ~> label_axis];
        "y" ~> VDict ["field" ~> VStr y_field; "type" ~> VStr "quantitative"]];
     "config" ~> view_config]).

(** The [elif] branch of the bar family. *)
Definition bar_family (chart_description description_lower : string)
    (data_values : list value) (fields : list string) (st : roles)
    (primary_value_field : string) (different_scales : bool) : result value :=
  x_field <- or_else (category_field st)
               (or_else (time_field st) (first_field fields)) ;;
  let is_year_comparison :=
    name_truthy (time_field st) &&
    (contains "compare" description_lower || contains "vs" description_lower ||
     contains "versus" description_lower ||
     (2 <=? count "year" description_lower)%nat) in
  match is_year_comparison, time_field st with
  | true, Some t =>
      primary_metric <-
        match value_fields st with
        | v :: _ => Ok v
        | [] => last_field fields
        end ;;
      Ok (year_comparison_chart chart_description data_values st
            x_field primary_metric t)
  | _, _ =>
      let wants_multi_metric :=
        (1 <? length (value_fields st))%nat &&
        any_in ["grouped"; "two bars"; "both"; "multiple"; "including"; "compare"]
               description_lower in
      if wants_multi_metric then
        match different_scales, value_fields st with
        | true, [v0; v1] =>
            Ok (dual_axis_chart chart_description data_values st x_field v0 v1)
        | _, _ =>
            if different_scales || (2 <? length (value_fields st))%nat
            then Ok (subplots_chart chart_description data_values st x_field)
            else grouped_bars_chart chart_description data_values st x_field
        end
      else
        Ok (single_bar_chart chart_description data_values st x_field
              primary_value_field)
  end.

(** The chain of chart families that follows the classification. *)
Definition select_chart (chart_description : string) (data_values : list value)
    (fields : list string) (st : roles) : result value :=
  primary_value_field <-
    match value_fields st with
    | v :: _ => Ok v
    | [] => last_field fields
    end ;;
  let description_lower := lower chart_description in
  scales <- have_different_scales (value_fields st) data_values ;;
  let different_scales := fst scales in
  if any_in ["line"; "trend"; "time series"] description_lower then
    line_chart chart_description data_values fields st primary_value_field
  else if any_in ["bar"; "column"; "histogram"] description_lower then
    bar_family chart_description description_lower data_values fields st
      primary_value_field different_scales
  else if any_in ["scatter"; "point"] description_lower then
    Ok (scatter_chart chart_description data_values fields)
  else if any_in ["pie"; "donut"] description_lower then
    category <- or_else (category_field st) (first_field fields) ;;
    Ok (pie_chart chart_description data_values category primary_value_field)
  else
    x_field <- or_else (category_field st) (first_field fields) ;;
    Ok (default_bar_chart chart_description data_values x_field
          primary_value_field).

Section Generator.

(** [json.loads]: the decoded object, or the exception raised. *)
Variable json_loads : string -> result value.

(** "Parse data with fallback" and "Default sample data if none provided".
    An exception of [json.loads] that the handler does not catch
    propagates. *)
Definition parse_data_values (data_sample : string) : result (list value) :=
  data_values <-
    (if negb (blank data_sample) then
       match json_loads data_sample with
       | Ok (VList (x :: xs)) => Ok (x :: xs)
       | Ok _ => Ok []
       | Raise e => if decode_error e then Ok [] else Raise e
       end
     else Ok []) ;;
  match data_values with
  | [] => Ok default_rows
  | _ :: _ => Ok data_values
  end.

(** The data and the field names that reach the classifier. *)
Definition prepare (data_sample : string) : result (list value * list string) :=
  data_values <- parse_data_values data_sample ;;
  let data_values :=
    match data_values with
    | [] => [default_row]
    | _ :: _ => data_values
    end in
  field_names data_values.

Definition generate_vega_lite_spec (chart_description data_sample : string)
  : result value :=
  if blank chart_description then
    Ok (VDict ["error" ~> VStr "chart_description cannot be empty";
               "status" ~> VStr "failed"])
  else
    prepared <- prepare data_sample ;;
    st <- detect_field_types (snd prepared) (fst prepared) ;;
    select_chart chart_description (fst prepared) (snd prepared) st.

End Generator.

End Enhanced.

(* ================================================================== *)
(** * process_structured_data.py                                        *)
(* ================================================================== *)

Module Processor.

(** ** Helpers of [parse_input_data] *)

Fixpoint chars (s : string) : list value :=
  match s with
  | EmptyString => []
  | String c r => VStr (String c EmptyString) :: chars r
  end.

(** The elements that iterating over an object yields; [None] when the
    object is not iterable ([TypeError]). *)
Definition iter_value (v : value) : option (list value) :=
  match v with
  | VList l => Some l
  | VStr s => Some (chars s)
  | VDict d => Some (map fst d)
  | _ => None
  end.

(** [dict(pairs)]; [None] when a key is not hashable ([TypeError]). *)
Fixpoint dict_of_pairs (pairs : list (value * value)) (d : list (value * value))
  : option (list (value * value)) :=
  match pairs with
  | [] => Some d
  | (k, v) :: r =>
      if hashable k then dict_of_pairs r (dict_set k v d) else None
  end.

(** [dict(zip(columns, row))] *)
Definition zip_row (columns row : value) : option value :=
  and_then (iter_value columns) (fun cs =>
  and_then (iter_value row) (fun xs =>
  and_then (dict_of_pairs (combine cs xs) []) (fun d => Some (VDict d)))).

Fixpoint map_option {A B : Type} (f : A -> option B) (l : list A) : option (list B) :=
  match l with
  | [] => Some []
  | x :: xs =>
      and_then (f x) (fun y => and_then (map_option f xs) (fun ys => Some (y :: ys)))
  end.

(** [[dict(zip(columns, row)) for row in rows]] *)
Definition sql_rows (columns rows : value) : option (list value) :=
  and_then (iter_value rows) (map_option (zip_row columns)).

(** ** [analyze_data_structure] *)

Definition date_keywords : list string :=
  ["year"; "date"; "time"; "month"; "day"; "quarter"].

Definition category_keywords : list string :=
  ["name"; "region"; "category"; "type"; "brand"; "segment"; "id"].

(** The dictionary returned by [analyze_data_structure].  [has_numeric]
    is [None] in the dictionary built for empty data, which has no such
    key. *)
Record analysis : Type := mk_analysis {
  row_count : nat;
  fields : list string;
  numeric_fields : list string;
  text_fields : list string;
  date_fields : list string;
  category_fields : list string;
  has_time_series : bool;
  has_categories : bool;
  has_numeric : option bool;
  recommended_viz : option string
}.

Definition empty_analysis : analysis :=
  mk_analysis 0 [] [] [] [] [] false false None None.

(** The four lists filled by the loop over the fields. *)
Record field_lists : Type := mk_lists {
  l_numeric : list string;
  l_text : list string;
  l_date : list string;
  l_category : list string
}.

Definition name_in (f : string) (l : list string) : bool :=
  existsb (String.eqb f) l.

Definition add_date (st : field_lists) (f : string) : field_lists :=
  mk_lists (l_numeric st) (l_text st) (l_date st ++ [f]) (l_category st).

Definition add_category (st : field_lists) (f : string) : field_lists :=
  mk_lists (l_numeric st) (l_text st) (l_date st) (l_category st ++ [f]).

Definition add_numeric (st : field_lists) (f : string) : field_lists :=
  mk_lists (l_numeric st ++ [f]) (l_text st) (l_date st) (l_category st).

Definition add_text (st : field_lists) (f : string) : field_lists :=
  mk_lists (l_numeric st) (l_text st ++ [f]) (l_date st) (l_category st).

(** [row.get(field, '')] *)
Definition row_get (row : value) (field : string) : result value :=
  match row with
  | VDict d =>
      match dict_get (VStr field) d with
      | Some v => Ok v
      | None => Ok (VStr EmptyString)
      end
  | _ => Raise AttributeError
  end.

(** Number of distinct strings: [len(set(..))]. *)
Definition count_distinct (l : list string) : nat :=
  length (nodup string_dec l).

(** [recommended_viz] from the three flags. *)
Definition recommend (has_time_series has_categories has_numeric : bool)
    (rows numeric_count : nat) : option string :=
  if has_time_series && has_numeric then Some "line"
  else if has_categories && has_numeric && (rows <=? 20)%nat then Some "bar"
  else if has_numeric && (2 <=? numeric_count)%nat then Some "scatter"
  else if has_categories && has_numeric then Some "bar"
  else None.

Definition str_list (l : list string) : value := VList (map VStr l).

Definition nat_value (n : nat) : value := VInt (Z.of_nat n).

(** The analysis dictionary as it is written to the output. *)
Definition analysis_doc (a : analysis) : value :=
  VDict
    (["row_count" ~> nat_value (row_count a);
      "fields" ~> str_list (fields a);
      "numeric_fields" ~> str_list (numeric_fields a);
      "text_fields" ~> str_list (text_fields a);
      "date_fields" ~> str_list (date_fields a);
      "category_fields" ~> str_list (category_fields a);
      "has_time_series" ~> VBool (has_time_series a);
      "has_categories" ~> VBool (has_categories a)] ++
     match has_numeric a with
     | Some b => ["has_numeric" ~> VBool b]
     | None => []
     end ++
     ["recommended_viz" ~> opt_str (recommended_viz a)]).

(** [l[0]] and [l[1]] *)
Definition item0 (l : list string) : result string :=
  match l with
  | x :: _ => Ok x
  | [] => Raise IndexError
  end.

Definition item1 (l : list string) : result string :=
  match l with
  | _ :: x :: _ => Ok x
  | _ => Raise IndexError
  end.

(** A method call such as [x_field.replace(..)] on a field name or
    [None]. *)
Definition method_on (a : option string) : result string :=
  match a with
  | Some f => Ok f
  | None => Raise AttributeError
  end.

Section Processing.

(** [json.loads]: the decoded object, or the exception raised. *)
Variable json_loads : string -> result value.

(** [str(v)] for an object that is not a string. *)
Variable repr_value : value -> string.

(** [list(set(values))]: the elements in the order of the set. *)
Variable set_list : list string -> list string.

(** The float that [sum] returns for a sequence of float addends, the
    first of which is the converted sum of the leading [int]s.  (CPython
    adds them from left to right up to version 3.11 and compensates the
    rounding errors from 3.12 on.) *)
Variable float_sum : list spec_float -> spec_float.

Definition py_str (v : value) : string :=
  match v with
  | VStr s => s
  | _ => repr_value v
  end.

(** An exception of [json.loads] that the handler does not catch
    propagates; a [TypeError] of the comprehension is caught. *)
Definition parse_input_data (data_sample : string) : result (list value) :=
  if blank data_sample then Ok []
  else
    match json_loads data_sample with
    | Raise e => if decode_error e then Ok [] else Raise e
    | Ok parsed =>
        match parsed with
        | VDict d =>
            if dict_has (VStr "columns") d && dict_has (VStr "rows") d then
              match and_then (dict_get (VStr "columns") d) (fun columns =>
                    and_then (dict_get (VStr "rows") d) (fun rows =>
                    sql_rows columns rows)) with
              | Some records => Ok records
              | None => Ok []
              end
            else Ok [parsed]
        | VList l => Ok l
        | _ => Ok []
        end
    end.

(** [len(set(str(row.get(field, '')) for row in data))] *)
Definition unique_values (data : list value) (field : string) : result nat :=
  texts <- mapM (fun row => v <- row_get row field ;; Ok (py_str v)) data ;;
  Ok (count_distinct texts).

(** [unique_values <= max(10, len(data) * 0.5)] *)
Definition few_values (data : list value) (field : string) : result bool :=
  n <- unique_values data field ;;
  half <- py_mul (nat_value (length data)) (VFloat float_half) ;;
  Ok (py_leb (nat_value n) (py_max (VInt 10) [half])).

(** The [try] block of the loop: classification by the sampled value.
    Lists that were extended before an exception stay extended. *)
Definition by_sample (data : list value) (st : field_lists) (field : string)
  : field_lists :=
  match first_row_item data field with
  | Raise _ => st
  | Ok sample_value =>
      if is_number sample_value then add_numeric st field
      else if is_str sample_value then
        if re_date_like (py_str sample_value) then
          if negb (name_in field (l_date st)) then add_date st field else st
        else
          let st := add_text st field in
          match few_values data field with
          | Raise _ => st
          | Ok few =>
              if few then
                if negb (name_in field (l_category st))
                then add_category st field else st
              else st
          end
      else st
  end.

(** One iteration of [for field in fields]. *)
Definition analyze_field (data : list value) (st : field_lists) (field : string)
  : field_lists :=
  let field_lower := lower field in
  let st :=
    if any_in date_keywords field_lower then add_date st field
    else if any_in category_keywords field_lower then add_category st field
    else st in
  by_sample data st field.

(** [fields = list(first_item.keys())]; the keys become field names here:
    a [first_item] without [keys], or a key without [lower], raises
    [AttributeError] before anything else is observable. *)
Definition analyze_data_structure (data : list value) : result analysis :=
  match data with
  | [] => Ok empty_analysis
  | first_item :: _ =>
      match first_item with
      | VDict d =>
          fields <- mapM as_field (map fst d) ;;
          let st := fold_left (analyze_field data) fields (mk_lists [] [] [] []) in
          let has_time_series := (0 <? length (l_date st))%nat in
          let has_categories := (0 <? length (l_category st))%nat in
          let has_numeric := (0 <? length (l_numeric st))%nat in
          Ok (mk_analysis (length data) fields (l_numeric st) (l_text st)
                (l_date st) (l_category st) has_time_series has_categories
                (Some has_numeric)
                (recommend has_time_series has_categories has_numeric
                   (length data) (length (l_numeric st))))
      | _ => Raise AttributeError
      end
  end.

(** ** [generate_summary_stats] *)

(** [[row[field] for row in data
      if field in row and isinstance(row[field], (int, float))]] *)
Fixpoint numeric_objects (field : string) (data : list value)
  : result (list value) :=
  match data with
  | [] => Ok []
  | row :: rest =>
      present <- py_in field row ;;
      if present then
        v <- getitem row field ;;
        if is_int_or_float v
        then vs <- numeric_objects field rest ;; Ok (v :: vs)
        else numeric_objects field rest
      else numeric_objects field rest
  end.

(** [sum(values)] of numbers: the leading [int]s (and [bool]s) are added
    exactly; from the first [float] on, the sum so far and every addend
    are floats, and a conversion can raise [OverflowError]. *)
Fixpoint sum_from (total : Z) (values : list value) : result value :=
  match values with
  | [] => Ok (VInt total)
  | v :: rest =>
      match int_of v with
      | Some z => sum_from (total + z) rest
      | None =>
          start <- float_of_int total ;;
          addends <- mapM to_float values ;;
          Ok (VFloat (float_sum (start :: addends)))
      end
  end.

Definition py_sum (values : list value) : result value := sum_from 0 values.

(** [sum(values) / len(values)] *)
Definition average (values : list value) : result value :=
  total <- py_sum values ;;
  py_truediv total (nat_value (length values)).

Definition numeric_stats (x : value) (xs : list value) : result value :=
  let values := x :: xs in
  avg <- average values ;;
  Ok (VDict
        ["type" ~> VStr "numeric";
         "min" ~> py_min x xs;
         "max" ~> py_max x xs;
         "avg" ~> avg;
         "count" ~> nat_value (length values)]).

Definition add_numeric_stats (data : list value)
    (field_stats : list (value * value)) (field : string)
  : result (list (value * value)) :=
  values <- numeric_objects field data ;;
  match values with
  | x :: xs =>
      entry <- numeric_stats x xs ;;
      Ok (dict_set (VStr field) entry field_stats)
  | [] => Ok field_stats
  end.

(** [[str(row[field]) for row in data if field in row]] *)
Fixpoint category_values (field : string) (data : list value)
  : result (list string) :=
  match data with
  | [] => Ok []
  | row :: rest =>
      present <- py_in field row ;;
      if present then
        v <- getitem row field ;;
        vs <- category_values field rest ;;
        Ok (py_str v :: vs)
      else category_values field rest
  end.

Definition add_category_stats (data : list value)
    (field_stats : list (value * value)) (field : string)
  : result (list (value * value)) :=
  values <- category_values field data ;;
  let unique := set_list values in
  Ok (dict_set (VStr field)
        (VDict ["type" ~> VStr "categorical";
                "unique_count" ~> nat_value (length unique);
                "values" ~> str_list (firstn 10 unique);
                "count" ~> nat_value (length values)])
        field_stats).

Definition generate_summary_stats (data : list value) (a : analysis)
  : result value :=
  field_stats <- foldM (add_numeric_stats data) (numeric_fields a) [] ;;
  field_stats <- foldM (add_category_stats data) (category_fields a) field_stats ;;
  Ok (VDict ["row_count" ~> nat_value (row_count a);
             "column_count" ~> nat_value (length (fields a));
             "numeric_columns" ~> nat_value (length (numeric_fields a));
             "text_columns" ~> nat_value (length (text_fields a));
             "field_stats" ~> VDict field_stats]).

(** ** The inner [generate_vega_lite_spec] *)

Definition base_spec (data : list value) : list (value * value) :=
  ["$schema" ~> VStr Enhanced.schema_url;
   "data" ~> VDict ["values" ~> VList data];
   "width" ~> VInt 500;
   "height" ~> VInt 300].

(** The axis bindings [(x_field, y_field, color_field)]; [None] is
    Python's [None]. *)
Definition bindings (a : analysis)
  : option string * option string * option string :=
  let x_field :=
    match date_fields a, category_fields a, fields a with
    | d :: _, _, _ => Some d
    | [], c :: _, _ => Some c
    | [], [], f :: _ => Some f
    | [], [], [] => None
    end in
  let y_field :=
    match numeric_fields a, fields a with
    | n :: _, _ => Some n
    | [], _ :: f1 :: _ => Some f1
    | [], _ => None
    end in
  match date_fields a, category_fields a with
  | d :: _, c :: _ => (Some d, y_field, Some c)
  | _, _ => (x_field, y_field, None)
  end.

Definition generate_vega_lite_spec (data : list value) (a : analysis)
    (chart_type : string) : result value :=
  match data, fields a with
  | [], _ | _, [] => Ok (VDict ["error" ~> VStr "No data to visualize"])
  | _ :: _, _ :: _ =>
      let '(x_field, y_field, color_field) := bindings a in
      if chart_type =? "line" then
        let x_type :=
          match date_fields a with _ :: _ => "temporal" | [] => "ordinal" end in
        x <- method_on x_field ;;
        y <- method_on y_field ;;
        let encoding :=
          ["x" ~> VDict ["field" ~> VStr x; "type" ~> VStr x_type;
                         "title" ~> VStr (humanize x)];
           "y" ~> VDict ["field" ~> VStr y; "type" ~> VStr "quantitative";
                         "title" ~> VStr (humanize y)]] in
        let encoding :=
          match color_field with
          | Some c =>
              if name_truthy color_field
              then dict_set (VStr "color")
                     (VDict ["field" ~> VStr c; "type" ~> VStr "nominal";
                             "title" ~> VStr (humanize c)]) encoding
              else encoding
          | None => encoding
          end in
        Ok (VDict (dict_update (base_spec data)
              ["mark" ~> VDict ["type" ~> VStr "line"; "point" ~> VBool true;
                                "tooltip" ~> VBool true];
               "encoding" ~> VDict encoding]))
      else if chart_type =? "bar" then
        Ok (VDict (dict_update (base_spec data)
              ["mark" ~> Enhanced.bar_mark;
               "encoding" ~> VDict
                 ["x" ~> VDict ["field" ~> opt_str x_field;
                                "type" ~> VStr "nominal";
                                "axis" ~> Enhanced.label_axis];
                  "y" ~> VDict ["field" ~> opt_str y_field;
                                "type" ~> VStr "quantitative"]]]))
      else if chart_type =? "scatter" then
        x_num <- match numeric_fields a with
                 | n :: _ => Ok n
                 | [] => item0 (fields a)
                 end ;;
        y_num <- match numeric_fields a with
                 | _ :: n :: _ => Ok n
                 | _ => match fields a with
                        | _ :: _ :: _ => item1 (fields a)
                        | _ => item0 (fields a)
                        end
                 end ;;
        Ok (VDict (dict_update (base_spec data)
              ["mark" ~> VDict ["type" ~> VStr "point"; "tooltip" ~> VBool true];
               "encoding" ~> VDict
                 ["x" ~> VDict ["field" ~> VStr x_num;
                                "type" ~> VStr "quantitative"];
                  "y" ~> VDict ["field" ~> VStr y_num;
                                "type" ~> VStr "quantitative"]]]))
      else if chart_type =? "pie" then
        cat_field <- match category_fields a with
                     | c :: _ => Ok c
                     | [] => item0 (fields a)
                     end ;;
        val_field <- match numeric_fields a with
                     | n :: _ => Ok n
                     | [] => match fields a with
                             | _ :: _ :: _ => item1 (fields a)
                             | _ => item0 (fields a)
                             end
                     end ;;
        Ok (VDict (dict_update (base_spec data)
              ["mark" ~> VDict ["type" ~> VStr "arc"; "tooltip" ~> VBool true];
               "encoding" ~> VDict
                 ["theta" ~> VDict ["field" ~> VStr val_field;
                                    "type" ~> VStr "quantitative"];
                  "color" ~> VDict ["field" ~> VStr cat_field;
                                    "type" ~> VStr "nominal"]]]))
      else
        Ok (VDict (dict_update (base_spec data)
              ["mark" ~> Enhanced.bar_mark;
               "encoding" ~> VDict
                 ["x" ~> VDict ["field" ~> opt_str x_field;
                                "type" ~> VStr "nominal"];
                  "y" ~> VDict ["field" ~> opt_str y_field;
                                "type" ~> VStr "quantitative"]]]))
  end.

(** ** Main processing logic: [process_structured_data] *)

Definition empty_error : value :=
  VDict ["error" ~> VStr "data_sample cannot be empty";
         "status" ~> VStr "failed"].

Definition parse_error : value :=
  VDict ["error" ~> VStr "Could not parse data_sample";
         "status" ~> VStr "failed";
         "hint" ~> VStr "Expected JSON array of objects or SQL result format"].

Definition summary_hint : string :=
  "No clear visualization pattern detected. Use processing_instruction='chart:bar' or 'chart:line' to force a specific chart type.".

Definition process_structured_data (data_sample processing_instruction : string)
  : result value :=
  if blank data_sample then Ok empty_error
  else
    parsed <- parse_input_data data_sample ;;
    match parsed with
    | [] => Ok parse_error
    | (_ :: _) as data =>
        a <- analyze_data_structure data ;;
        let instruction_lower := lower processing_instruction in
        if String.prefix "chart:" instruction_lower then
          chart_type <- after_colon instruction_lower ;;
          spec <- generate_vega_lite_spec data a chart_type ;;
          Ok (VDict ["status" ~> VStr "success";
                     "type" ~> VStr "visualization";
                     "format" ~> VStr "vega-lite";
                     "chart_type" ~> VStr chart_type;
                     "data_analysis" ~> analysis_doc a;
                     "output" ~> spec])
        else if instruction_lower =? "summarize" then
          stats <- generate_summary_stats data a ;;
          Ok (VDict ["status" ~> VStr "success";
                     "type" ~> VStr "summary";
                     "data_preview" ~> VList (firstn 5 data);
                     "analysis" ~> analysis_doc a;
                     "statistics" ~> stats])
        else if instruction_lower =? "format" then
          Ok (VDict ["status" ~> VStr "success";
                     "type" ~> VStr "formatted_data";
                     "data" ~> VList data;
                     "analysis" ~> analysis_doc a;
                     "row_count" ~> nat_value (length data);
                     "columns" ~> str_list (fields a)])
        else
          let wants_chart :=
            name_truthy (recommended_viz a) &&
            ((instruction_lower =? "auto") || (instruction_lower =? "visualize")) in
          match wants_chart, recommended_viz a with
          | true, Some viz =>
              spec <- generate_vega_lite_spec data a viz ;;
              stats <- generate_summary_stats data a ;;
              Ok (VDict ["status" ~> VStr "success";
                         "type" ~> VStr "auto_visualization";
                         "format" ~> VStr "vega-lite";
                         "chart_type" ~> VStr viz;
                         "data_analysis" ~> analysis_doc a;
                         "statistics" ~> stats;
                         "output" ~> spec])
          | _, _ =>
              stats <- generate_summary_stats data a ;;
              Ok (VDict ["status" ~> VStr "success";
                         "type" ~> VStr "summary";
                         "data_preview" ~> VList (firstn 10 data);
                         "analysis" ~> analysis_doc a;
                         "statistics" ~> stats;
                         "hint" ~> VStr summary_hint])
          end
    end.

End Processing.

End Processor.

(* ================================================================== *)
(** * Sample inputs and the vocabulary of the statements                *)
(* ================================================================== *)

Module Samples.

(** A decoder that yields [v] for every text, one that rejects every
    text, and one that raises [e] on every text. *)
Definition decode_as (v : value) : string -> result value := fun _ => Ok v.
Definition decode_fails : string -> result value := fun _ => Raise JSONDecodeError.
Definition decode_raises (e : exn) : string -> result value := fun _ => Raise e.

Definition plain_repr : value -> string := fun _ => "object".
Definition first_seen (l : list string) : list string := nodup string_dec l.

(** The floats added from left to right. *)
Definition plain_sum (addends : list spec_float) : spec_float :=
  match addends with
  | [] => S754_zero false
  | start :: rest => fold_left (SFadd float_prec float_emax) rest start
  end.

(** A JSON string literal: [s] between two quotation marks. *)
Definition quoted (s : string) : string :=
  String (ascii_of_nat 34) (s ++ String (ascii_of_nat 34) EmptyString)%string.

(** A JSON member [key: v] whose value text is [v]. *)
Definition member (key v : string) : string := (quoted key ++ ": " ++ v)%string.

(** [[{"region": "North", "sales_usd": 100000, "volume": 10},
      {"region": "South", "sales_usd": 500000, "volume": 20}]] *)
Definition vodka_rows : list value :=
  [VDict ["region" ~> VStr "North"; "sales_usd" ~> VInt 100000;
          "volume" ~> VInt 10];
   VDict ["region" ~> VStr "South"; "sales_usd" ~> VInt 500000;
          "volume" ~> VInt 20]].

Definition vodka_text : string :=
  ("[{" ++ member "region" (quoted "North") ++ ", " ++
   member "sales_usd" "100000" ++ ", " ++ member "volume" "10" ++ "}, {" ++
   member "region" (quoted "South") ++ ", " ++
   member "sales_usd" "500000" ++ ", " ++ member "volume" "20" ++ "}]")%string.

Definition vodka_description : string :=
  "compare vodka sales USD vs volume by region".

(** [[{"region": "N", "sales": 10, "profit": 3}, {"region": "S", "sales": 12}]] *)
Definition ragged_rows : list value :=
  [VDict ["region" ~> VStr "N"; "sales" ~> VInt 10; "profit" ~> VInt 3];
   VDict ["region" ~> VStr "S"; "sales" ~> VInt 12]].

Definition ragged_text : string :=
  ("[{" ++ member "region" (quoted "N") ++ ", " ++ member "sales" "10" ++ ", " ++
   member "profit" "3" ++ "}, {" ++ member "region" (quoted "S") ++ ", " ++
   member "sales" "12" ++ "}]")%string.

Definition ragged_description : string := "grouped bar of sales and profit".

(** [[{"year": 2020, "month": 1, "sales": 5}]] *)
Definition calendar_rows : list value :=
  [VDict ["year" ~> VInt 2020; "month" ~> VInt 1; "sales" ~> VInt 5]].

(** [[{"id": 7, "label": "a"}]] *)
Definition id_rows : list value :=
  [VDict ["id" ~> VInt 7; "label" ~> VStr "a"]].

Definition id_text : string :=
  ("[{" ++ member "id" "7" ++ ", " ++ member "label" (quoted "a") ++ "}]")%string.



(** [[{"x": 1}]]: a valid record with one field. *)
Definition one_field_rows : list value := [VDict ["x" ~> VInt 1]].

Definition one_field_text : string := ("[{" ++ member "x" "1" ++ "}]")%string.

(** [[{"a": 0, "b": 0}, {"a": 100, "b": 50000}]] and
    [[{"a": 0, "b": 0}, {"a": 100, "b": 150}]] *)
Definition wide_rows : list value :=
  [VDict ["a" ~> VInt 0; "b" ~> VInt 0];
   VDict ["a" ~> VInt 100; "b" ~> VInt 50000]].

Definition close_rows : list value :=
  [VDict ["a" ~> VInt 0; "b" ~> VInt 0];
   VDict ["a" ~> VInt 100; "b" ~> VInt 150]].

(** [[{"period": "2023 H1", "label": "2024 plan", "amount": 3}]] *)
Definition period_rows : list value :=
  [VDict ["period" ~> VStr "2023 H1"; "label" ~> VStr "2024 plan";
          "amount" ~> VInt 3]].

(** [[{"a": 1}, 5]]: the second element is not a record. *)
Definition mixed_rows : list value := [VDict ["a" ~> VInt 1]; VInt 5].


(** [{"columns": ["Category", "Value"], "rows": [["A", 100], ["B", 150]]}] *)
Definition sql_columns : list string := ["Category"; "Value"].

Definition sql_rows_sample : list (list value) :=
  [[VStr "A"; VInt 100]; [VStr "B"; VInt 150]].

Definition sql_object : list (value * value) :=
  ["columns" ~> VList (map VStr sql_columns);
   "rows" ~> VList (map VList sql_rows_sample)].

Definition sql_text : string :=
  ("{" ++ member "columns" ("[" ++ quoted "Category" ++ ", " ++ quoted "Value" ++ "]")
   ++ ", " ++
   member "rows" ("[[" ++ quoted "A" ++ ", 100], [" ++ quoted "B" ++ ", 150]]")
   ++ "}")%string.

(** The analysis of [id_rows]: the field id is numeric by its sample and a
    category by its name. *)
Definition id_analysis : Processor.analysis :=
  Processor.mk_analysis 1 ["id"; "label"] ["id"] ["label"] [] ["id"; "label"]
    false true (Some true) (Some "bar").

(** An analysis with one text field and no numeric field. *)
Definition lone_analysis : Processor.analysis :=
  Processor.mk_analysis 1 ["label"] [] ["label"] [] ["label"]
    false true (Some false) None.

Definition mixed_analysis : Processor.analysis :=
  Processor.mk_analysis 2 ["a"] ["a"] [] [] [] false false (Some true) None.

(** [[{"label": "a"}]] *)
Definition lone_rows : list value := [VDict ["label" ~> VStr "a"]].

(** The statistics of [id_rows], and the reshaping of [vodka_rows] for the
    grouped bars. *)
Definition id_stats : value :=
  try_except
    (Processor.generate_summary_stats plain_repr first_seen plain_sum id_rows
       id_analysis)
    VNone.

Definition vodka_long : list value :=
  try_except (Enhanced.transformed_data "region" ["sales_usd"; "volume"] vodka_rows)
    [].

Definition bar_compare_description : string :=
  "bar chart: compare sales USD vs volume by region".

(** [[{"a": 0, "b": 0}, {"a": 1000000000000000001, "b": 10000000000000000}]]:
    the range of a is more than 100 times the range of b, by one part in
    10 ** 18. *)
Definition edge_rows : list value :=
  [VDict ["a" ~> VInt 0; "b" ~> VInt 0];
   VDict ["a" ~> VInt 1000000000000000001; "b" ~> VInt 10000000000000000]].

(** [[{"region": "N", "a": 0, "b": 1}, {"region": "S", "a": 10 ** 400, "b": 2}]] *)
Definition huge_rows : list value :=
  [VDict ["region" ~> VStr "N"; "a" ~> VInt 0; "b" ~> VInt 1];
   VDict ["region" ~> VStr "S"; "a" ~> VInt (10 ^ 400); "b" ~> VInt 2]].

(** [[{"a": 0.0, "b": 0}, {"a": 0.29, "b": 29}]] *)
Definition order_rows : list value :=
  [VDict ["a" ~> VFloat (S754_zero false); "b" ~> VInt 0];
   VDict ["a" ~> VFloat (S754_finite false 5224175567749775 (-54));
          "b" ~> VInt 29]].




(** [[{"city": "Oslo", "n": 3}, {"city": "Rome", "n": 5.5}]] *)
Definition city_rows : list value :=
  [VDict ["city" ~> VStr "Oslo"; "n" ~> VInt 3];
   VDict ["city" ~> VStr "Rome";
          "n" ~> VFloat (S754_finite false 6192449487634432 (-50))]].

Definition city_analysis : Processor.analysis :=
  Processor.mk_analysis 2 ["city"; "n"] ["n"] ["city"] [] ["city"]
    false true (Some true) (Some "bar").

(** The numeric values of n in [city_rows], and the statistics of
    [city_rows]. *)
Definition city_numbers : list value :=
  [VInt 3; VFloat (S754_finite false 6192449487634432 (-50))].

Definition city_stats : value :=
  try_except
    (Processor.generate_summary_stats plain_repr first_seen plain_sum city_rows
       city_analysis)
    VNone.

End Samples.

Export Samples.

Module Vocabulary.

Import Enhanced.

(** [doc["data"]["values"]] of a returned document. *)
Definition embedded_data (doc : value) : option value :=
  and_then (field_of "data" doc) (field_of "values").

(** What [json.loads] can return: every key of every object is a string. *)
Fixpoint json_value (v : value) : bool :=
  match v with
  | VList l => forallb json_value l
  | VDict d => forallb (fun kv => is_str (fst kv) && json_value (snd kv)) d
  | _ => true
  end.


(** The sample of [field] in the first record can be read and is an [int]
    or a [float] ([bool] included, as [isinstance] has it). *)
Definition numeric_sample (data_values : list value) (field : string) : Prop :=
  exists v, first_row_item data_values field = Ok v /\ is_int_or_float v = true.

(** The test that the loop makes on a pair of ranges, the first and the
    second in the order of [ranges]: the second range is positive, and the
    float [q = range1 / range2] exceeds 100, or [q] is positive and the
    float [1 / q] exceeds 100. *)
Definition quotient_exceeds (range1 range2 : value) : Prop :=
  py_gtb range2 (VInt 0) = true /\
  exists q, py_truediv range1 range2 = Ok q /\
    (py_gtb q (VInt 100) = true \/
     (py_gtb q (VInt 0) = true /\
      exists q', py_truediv (VInt 1) q = Ok q' /\ py_gtb q' (VInt 100) = true)).

(** Two entries of [ranges], at positions [i < j], pass that test. *)
Definition divergent_pair (ranges : list (string * scale)) : Prop :=
  exists i j e1 e2, (i < j)%nat /\
    nth_error ranges i = Some e1 /\ nth_error ranges j = Some e2 /\
    quotient_exceeds (s_range (snd e1)) (s_range (snd e2)).

(** The number [z] written as an [int] or as a [float]. *)
Definition numeral (z : Z) (v : value) : Prop :=
  v = VInt z \/ v = VFloat (binary_normalize float_prec float_emax z 0 false).

(** The entry of [ranges] that one measure contributes, if any. *)
Definition range_entry (data_values : list value) (field : string)
  : list (string * scale) :=
  match range_of data_values field with
  | Ok (Some entry) => [(field, entry)]
  | _ => []
  end.

(** An object that is an [int], a [bool] or a [float]. *)
Definition number (v : value) : Prop := is_int_or_float v = true.

(** An object that is a number and not NaN. *)
Definition ordered (v : value) : bool :=
  is_int_or_float v &&
  match exact v with XNaN => false | _ => true end.

(** The sample of [field] in the first record is a non-empty string that
    starts with four digits. *)
Definition year_like (data_values : list value) (field : string) : bool :=
  match first_row_item data_values field with
  | Ok (VStr s) => negb (s =? EmptyString) && re_year s
  | _ => false
  end.

(** Every role names a field of the field list. *)
Definition roles_within (fields : list string) (st : roles) : Prop :=
  (forall t, time_field st = Some t -> In t fields) /\
  (forall c, category_field st = Some c -> In c fields) /\
  (forall v, In v (value_fields st) -> In v fields).

(** The two tests of the bar family, as the source names them. *)
Definition is_year_comparison (description_lower : string) (st : roles) : bool :=
  name_truthy (time_field st) &&
  (contains "compare" description_lower || contains "vs" description_lower ||
   contains "versus" description_lower ||
   (2 <=? count "year" description_lower)%nat).

Definition wants_multi_metric (description_lower : string) (st : roles) : bool :=
  (1 <? length (value_fields st))%nat &&
  any_in ["grouped"; "two bars"; "both"; "multiple"; "including"; "compare"]
         description_lower.

(** The situation in which the dual-axis chart is built: a bar word and no
    line word in the description, no year comparison, a multi-metric word,
    exactly two measures, and diverging scales. *)
Definition dual_axis_case (chart_description : string) (data_values : list value)
    (st : roles) : bool :=
  let description_lower := lower chart_description in
  negb (any_in ["line"; "trend"; "time series"] description_lower) &&
  any_in ["bar"; "column"; "histogram"] description_lower &&
  negb (is_year_comparison description_lower st) &&
  wants_multi_metric description_lower st &&
  match have_different_scales (value_fields st) data_values with
  | Ok (different_scales, _) => different_scales
  | Raise _ => false
  end &&
  (length (value_fields st) =? 2)%nat.


(** The sample of [field] in the first record can be read and satisfies
    [p]. *)
Definition sampled (p : value -> bool) (data : list value) (field : string)
  : bool :=
  match first_row_item data field with
  | Ok v => p v
  | Raise _ => false
  end.

(** A string that the date pattern matches, and one that it does not. *)
Definition date_text (v : value) : bool :=
  match v with VStr s => re_date_like s | _ => false end.

Definition plain_text (v : value) : bool :=
  match v with VStr s => negb (re_date_like s) | _ => false end.

(** The field name contains a date keyword of [analyze_data_structure]. *)
Definition date_by_name (f : string) : bool :=
  any_in Processor.date_keywords (lower f).

(** An object on which [field in row] raises [TypeError]. *)
Definition scalar (v : value) : bool :=
  match v with
  | VNone | VBool _ | VInt _ | VFloat _ => true
  | _ => false
  end.

(** A decoded object from which [parse_input_data] takes no row: an
    object that is neither a list nor a dict, or a dict with "columns" and
    "rows" whose comprehension raises [TypeError] or yields no row. *)
Definition unparsed (v : value) : bool :=
  match v with
  | VList _ => false
  | VDict d =>
      if dict_has (VStr "columns") d && dict_has (VStr "rows") d then
        match and_then (dict_get (VStr "columns") d) (fun columns =>
              and_then (dict_get (VStr "rows") d) (fun rows =>
              Processor.sql_rows columns rows)) with
        | Some (_ :: _) => false
        | _ => true
        end
      else false
  | _ => true
  end.

(** [entry] is the numeric entry of a field with the values [x :: xs]. *)
Definition numeric_entry (x : value) (xs : list value) (entry : option value)
  : Prop :=
  exists avg,
    entry = Some (VDict ["type" ~> VStr "numeric";
                         "min" ~> py_min x xs;
                         "max" ~> py_max x xs;
                         "avg" ~> avg;
                         "count" ~> Processor.nat_value (length (x :: xs))]).

(** The one situation in which the inner chart builder finds no y field
    for a line chart: no numeric field and a single field. *)
Definition no_y_for_line (a : Processor.analysis) (chart_type : string) : bool :=
  (chart_type =? "line") &&
  (length (Processor.numeric_fields a) =? 0)%nat &&
  (length (Processor.fields a) =? 1)%nat.

(** [stats["field_stats"][field]] *)
Definition stats_entry (field : string) (stats : value) : option value :=
  and_then (field_of "field_stats" stats) (field_of field).

End Vocabulary.

Export Vocabulary.

(* ================================================================== *)
(** * Shared lemmas                                                     *)
(* ================================================================== *)

Lemma bind_ok {A B : Type} (r : result A) (k : A -> result B) (b : B) :
  bind r k = Ok b -> exists a, r = Ok a /\ k a = Ok b.
Proof.
  destruct r as [a | e]; simpl; intros H.
  - exists a. split; [reflexivity | exact H].
  - discriminate H.
Qed.

(** Case analysis on a computation that is known to return. *)
Ltac invert_ok :=
  repeat match goal with
  | H : bind _ _ = Ok _ |- _ =>
      let a := fresh "a" in let Ha := fresh "Ha" in
      apply bind_ok in H; destruct H as [a [Ha H]]
  | H : Ok _ = Ok _ |- _ => inversion H; subst; clear H
  | H : Raise _ = Ok _ |- _ => discriminate H
  | H : (if ?b then _ else _) = Ok _ |- _ => destruct b eqn:?
  | H : match ?x with _ => _ end = Ok _ |- _ => destruct x eqn:?
  end.

Lemma mapM_length {A B : Type} (f : A -> result B) (l : list A) (l' : list B) :
  mapM f l = Ok l' -> length l' = length l.
Proof.
  revert l'. induction l as [ | x r IH]; simpl; intros l' H.
  - inversion H. reflexivity.
  - invert_ok. simpl. f_equal. apply IH. assumption.
Qed.


(** ** Numbers *)

(** ** The scale divergence detector *)

Lemma Qltb_lt (x y : Q) : Qltb x y = true <-> (x < y)%Q.
Proof.
  unfold Qltb. rewrite negb_true_iff. split.
  - intros H. apply Qnot_le_lt. intros Hle.
    apply Qle_bool_iff in Hle. congruence.
  - intros H. destruct (Qle_bool y x) eqn:E; [ | reflexivity].
    apply Qle_bool_iff in E. lra.
Qed.

Lemma Qltb_ge (x y : Q) : Qltb x y = false <-> (y <= x)%Q.
Proof. unfold Qltb. rewrite negb_false_iff. apply Qle_bool_iff. Qed.

Ltac x_cases :=
  repeat match goal with
  | H : Qltb _ _ = true |- _ => apply Qltb_lt in H
  | H : Qltb _ _ = false |- _ => apply Qltb_ge in H
  | |- Qltb _ _ = true => apply Qltb_lt
  | |- Qltb _ _ = false => apply Qltb_ge
  end.

(** The larger of two numbers, as one step of [max] keeps it. *)
Lemma x_max_gt (m a c : xnum) :
  m <> XNaN ->
  (if x_ltb m a then a else m) <> XNaN /\
  (x_ltb c (if x_ltb m a then a else m) = true <->
   x_ltb c m = true \/ x_ltb c a = true).
Proof.
  intros Hm.
  destruct m as [ | | p | ]; [congruence | | | ];
    destruct a as [ | | q | ]; simpl; try (split; [discriminate | ]);
    try (destruct c as [ | | r | ]; simpl; intuition discriminate).
  destruct (Qltb p q) eqn:E; (split; [discriminate | ]);
    destruct c as [ | | r | ]; simpl; try (intuition discriminate).
  - split; [auto | ]. intros [H | H]; [ | exact H]. x_cases. lra.
  - split; [auto | ]. intros [H | H]; [exact H | ]. x_cases. lra.
Qed.

Lemma step_max (m a c : value) :
  exact m <> XNaN ->
  exact (if py_gtb a m then a else m) <> XNaN /\
  (py_gtb (if py_gtb a m then a else m) c = true <->
   py_gtb m c = true \/ py_gtb a c = true).
Proof.
  intros Hm. unfold py_gtb, py_ltb.
  destruct (x_max_gt (exact m) (exact a) (exact c) Hm) as [H1 H2].
  destruct (x_ltb (exact m) (exact a)); auto.
Qed.

Lemma exact_int (z : Z) : exact (VInt z) <> XNaN.
Proof. discriminate. Qed.

Lemma foldM_ok {A B : Type} (f : A -> B -> result A) (x : B) (r : list B)
    (a b : A) :
  foldM f (x :: r) a = Ok b -> exists a', f a x = Ok a' /\ foldM f r a' = Ok b.
Proof. simpl. apply bind_ok. Qed.

(** *** Only [OverflowError] can escape *)

Lemma fold_pick_in (p : value -> value -> bool) (x : value) (xs : list value) :
  In (fold_left (fun m y => if p y m then y else m) xs x) (x :: xs).
Proof.
  revert x. induction xs as [ | z r IH]; intros x; simpl; [auto | ].
  destruct (IH (if p z x then z else x)) as [H | H]; [ | auto].
  rewrite <- H. destruct (p z x); auto.
Qed.

Lemma py_max_in (x : value) (xs : list value) : In (py_max x xs) (x :: xs).
Proof. apply (fold_pick_in py_gtb). Qed.

Lemma py_min_in (x : value) (xs : list value) : In (py_min x xs) (x :: xs).
Proof. apply (fold_pick_in py_ltb). Qed.

Lemma float_of_int_outcome (z : Z) :
  (exists f, float_of_int z = Ok f) \/ float_of_int z = Raise OverflowError.
Proof.
  unfold float_of_int.
  destruct (binary_normalize float_prec float_emax z 0 false); eauto.
Qed.

Lemma to_float_outcome (v : value) :
  is_int_or_float v = true ->
  (exists f, to_float v = Ok f) \/ to_float v = Raise OverflowError.
Proof.
  destruct v; try discriminate; intros _; simpl;
    [apply float_of_int_outcome | apply float_of_int_outcome | eauto].
Qed.

Lemma py_sub_outcome (a b : value) :
  is_int_or_float a = true -> is_int_or_float b = true ->
  (exists v, py_sub a b = Ok v /\ is_int_or_float v = true) \/
  py_sub a b = Raise OverflowError.
Proof.
  intros Ha Hb. unfold py_sub.
  destruct (int_of a) as [x | ] eqn:Ea; [destruct (int_of b) as [y | ] eqn:Eb | ];
    [left; eexists; split; reflexivity | | ];
    (destruct (to_float_outcome a Ha) as [[fa Hfa] | Hfa]; rewrite Hfa;
     [ | right; reflexivity]);
    (destruct (to_float_outcome b Hb) as [[fb Hfb] | Hfb]; rewrite Hfb;
     [ | right; reflexivity]);
    left; eexists; split; reflexivity.
Qed.

Lemma positive_int (z : Z) : py_gtb (VInt z) (VInt 0) = true -> (0 < z)%Z.
Proof.
  unfold py_gtb, py_ltb. simpl. intros H. apply Qltb_lt in H.
  rewrite <- Zlt_Qlt in H. exact H.
Qed.

Lemma positive_not_zero (b : value) :
  py_gtb b (VInt 0) = true -> is_zero b = false.
Proof.
  unfold py_gtb, py_ltb. destruct b; simpl; try discriminate.
  - destruct b; [reflexivity | discriminate].
  - intros H. apply Qltb_lt in H. rewrite <- Zlt_Qlt in H.
    apply Z.eqb_neq. lia.
  - destruct f; simpl; try reflexivity. discriminate.
Qed.

Lemma int_of_positive (b : value) (y : Z) :
  int_of b = Some y -> py_gtb b (VInt 0) = true -> (y =? 0)%Z = false.
Proof.
  intros Hy Hb. apply positive_not_zero in Hb.
  destruct b; try discriminate Hy; simpl in *.
  - destruct b; inversion Hy; subst; [reflexivity | discriminate Hb].
  - inversion Hy; subst. exact Hb.
Qed.

(** A division by a positive number returns a float or raises
    [OverflowError]. *)
Lemma py_truediv_outcome (a b : value) :
  is_int_or_float a = true -> is_int_or_float b = true ->
  is_zero b = false ->
  (exists q, py_truediv a b = Ok (VFloat q)) \/
  py_truediv a b = Raise OverflowError.
Proof.
  intros Ha Hb Hz. unfold py_truediv.
  assert (Hfl : (exists q, (x <- to_float a ;; y <- to_float b ;;
                            if is_zero b then Raise ZeroDivisionError
                            else Ok (VFloat (SFdiv float_prec float_emax x y)))
                           = Ok (VFloat q)) \/
                (x <- to_float a ;; y <- to_float b ;;
                 if is_zero b then Raise ZeroDivisionError
                 else Ok (VFloat (SFdiv float_prec float_emax x y)))
                = Raise OverflowError).
  { destruct (to_float_outcome a Ha) as [[fa Hfa] | Hfa]; rewrite Hfa;
      [ | right; reflexivity].
    destruct (to_float_outcome b Hb) as [[fb Hfb] | Hfb]; rewrite Hfb;
      [ | right; reflexivity].
    simpl. rewrite Hz. left. eauto. }
  destruct (int_of a) as [x | ] eqn:Ea; [ | exact Hfl].
  destruct (int_of b) as [y | ] eqn:Eb; [ | exact Hfl].
  unfold int_truediv.
  assert (Hy : (y =? 0)%Z = false).
  { destruct b; try discriminate Eb; simpl in *.
    - destruct b; inversion Eb; subst; [reflexivity | discriminate Hz].
    - inversion Eb; subst. exact Hz. }
  rewrite Hy.
  destruct (SFdiv float_prec float_emax (unrounded x) (unrounded y)); eauto.
Qed.

Lemma foldM_outcome {A B : Type} (f : A -> B -> result A) (e : exn)
    (l : list B) :
  (forall a x, In x l -> (exists a', f a x = Ok a') \/ f a x = Raise e) ->
  forall a, (exists a', foldM f l a = Ok a') \/ foldM f l a = Raise e.
Proof.
  induction l as [ | x r IH]; intros Hf a; simpl; [eauto | ].
  destruct (Hf a x (or_introl eq_refl)) as [[a' Ha] | Ha]; rewrite Ha;
    [ | right; reflexivity].
  simpl. apply IH. intros a0 y Hy. apply Hf. right. exact Hy.
Qed.

Lemma Q_leb (p q : Q) : Qltb p q || Qeq_bool p q = true <-> (p <= q)%Q.
Proof.
  rewrite orb_true_iff, Qltb_lt, Qeq_bool_iff. split.
  - intros [H | H]; lra.
  - intros H. destruct (Qlt_le_dec p q) as [H1 | H1]; [left; exact H1 | ].
    right. lra.
Qed.

(** [a <= b] on numbers that are not NaN is a total preorder. *)
Lemma x_le_total (a b : xnum) :
  a <> XNaN -> b <> XNaN ->
  x_ltb a b = false -> x_ltb b a || x_eqb b a = true.
Proof.
  destruct a as [ | | p | ], b as [ | | q | ]; simpl; try congruence;
    try reflexivity.
  intros _ _ H. apply Q_leb. x_cases. exact H.
Qed.

Lemma x_le_refl (a : xnum) : a <> XNaN -> x_ltb a a || x_eqb a a = true.
Proof.
  destruct a as [ | | p | ]; simpl; try congruence; try reflexivity.
  intros _. apply Q_leb. lra.
Qed.

Lemma x_le_trans (a b c : xnum) :
  x_ltb a b || x_eqb a b = true -> x_ltb b c || x_eqb b c = true ->
  x_ltb a c || x_eqb a c = true.
Proof.
  destruct a as [ | | p | ], b as [ | | q | ], c as [ | | r | ]; simpl;
    try congruence; try reflexivity.
  rewrite !Q_leb. lra.
Qed.

Lemma x_lt_le (a b : xnum) :
  x_ltb a b = true -> x_ltb a b || x_eqb a b = true.
Proof. intros H. rewrite H. reflexivity. Qed.

Lemma ordered_exact (v : value) : ordered v = true -> exact v <> XNaN.
Proof.
  unfold ordered. intros H. apply andb_true_iff in H. destruct H as [_ H].
  destruct (exact v); [discriminate H | discriminate | discriminate | discriminate].
Qed.

Lemma ordered_number (v : value) : ordered v = true -> number v.
Proof.
  unfold ordered, number. intros H. apply andb_true_iff in H. tauto.
Qed.

(** [min] and [max] of numbers without NaN are elements that bound all
    the elements. *)
Lemma py_min_spec (x : value) (xs : list value) :
  Forall (fun v => ordered v = true) (x :: xs) ->
  In (py_min x xs) (x :: xs) /\
  forall y, In y (x :: xs) -> py_leb (py_min x xs) y = true.
Proof.
  revert x. induction xs as [ | z r IH]; intros x Hall.
  - simpl. split; [auto | ]. intros y [<- | []].
    inversion Hall; subst. apply x_le_refl, ordered_exact. assumption.
  - inversion Hall as [ | ? ? Hx Hr]; subst.
    inversion Hr as [ | ? ? Hz Hr']; subst.
    unfold py_min. simpl fold_left. fold (py_min (if py_ltb z x then z else x) r).
    assert (Hpick : ordered (if py_ltb z x then z else x) = true)
      by (destruct (py_ltb z x); assumption).
    destruct (IH _ (Forall_cons _ Hpick Hr')) as [Hin Hlb].
    split.
    + destruct Hin as [Hin | Hin]; [ | right; right; exact Hin].
      rewrite <- Hin. destruct (py_ltb z x); simpl; auto.
    + intros y [<- | [<- | Hy]].
      * eapply x_le_trans; [apply (Hlb _ (or_introl eq_refl)) | ].
        destruct (py_ltb z x) eqn:E.
        -- apply x_lt_le. exact E.
        -- apply x_le_refl, ordered_exact. exact Hx.
      * eapply x_le_trans; [apply (Hlb _ (or_introl eq_refl)) | ].
        destruct (py_ltb z x) eqn:E.
        -- apply x_le_refl, ordered_exact. exact Hz.
        -- apply x_le_total; [apply ordered_exact; exact Hz
                             | apply ordered_exact; exact Hx | exact E].
      * apply Hlb. right. exact Hy.
Qed.

Lemma py_max_spec (x : value) (xs : list value) :
  Forall (fun v => ordered v = true) (x :: xs) ->
  In (py_max x xs) (x :: xs) /\
  forall y, In y (x :: xs) -> py_leb y (py_max x xs) = true.
Proof.
  revert x. induction xs as [ | z r IH]; intros x Hall.
  - simpl. split; [auto | ]. intros y [<- | []].
    inversion Hall; subst. apply x_le_refl, ordered_exact. assumption.
  - inversion Hall as [ | ? ? Hx Hr]; subst.
    inversion Hr as [ | ? ? Hz Hr']; subst.
    unfold py_max. simpl fold_left. fold (py_max (if py_gtb z x then z else x) r).
    assert (Hpick : ordered (if py_gtb z x then z else x) = true)
      by (destruct (py_gtb z x); assumption).
    destruct (IH _ (Forall_cons _ Hpick Hr')) as [Hin Hub].
    split.
    + destruct Hin as [Hin | Hin]; [ | right; right; exact Hin].
      rewrite <- Hin. destruct (py_gtb z x); simpl; auto.
    + intros y [<- | [<- | Hy]].
      * eapply x_le_trans; [ | apply (Hub _ (or_introl eq_refl))].
        destruct (py_gtb z x) eqn:E.
        -- apply x_lt_le. exact E.
        -- apply x_le_refl, ordered_exact. exact Hx.
      * eapply x_le_trans; [ | apply (Hub _ (or_introl eq_refl))].
        destruct (py_gtb z x) eqn:E.
        -- apply x_le_refl, ordered_exact. exact Hz.
        -- apply x_le_total; [apply ordered_exact; exact Hx
                             | apply ordered_exact; exact Hz | exact E].
      * apply Hub. right. exact Hy.
Qed.

(* ================================================================== *)
(** * Properties of generate_vega_lite_spec_enhanced.py                 *)
(* ================================================================== *)

Module EnhancedFacts.

Import Enhanced.

(** ** The field role classifier *)

Lemma take_sample_ok (data_values : list value) (field : string) (v : value) :
  first_row_item data_values field = Ok v ->
  take_sample data_values field = (v, is_number v, is_str v).
Proof. intros H. unfold take_sample. rewrite H. reflexivity. Qed.

(** C4: the claim says that the first field with a temporal keyword keeps
    the Temporal role.  In the code the keyword branch assigns [time_field]
    without testing that it is still [None] (the year-pattern branch and
    the category branch do test), so every keyword field with a numeric or
    string sample takes the role, whatever was assigned before: on the
    fields year, month, sales the role ends on month. *)
Theorem later_time_keyword_replaces :
  (forall data_values st field v,
      any_in time_keywords (lower field) = true ->
      first_row_item data_values field = Ok v ->
      is_number v || is_str v = true ->
      time_field (classify_field data_values st field) = Some field) /\
  detect_field_types ["year"; "month"; "sales"] calendar_rows =
    Ok (mk_roles (Some "month") None ["sales"]).
Proof.
  split.
  - intros data_values st field v Hkw Hv Hty.
    unfold classify_field. rewrite (take_sample_ok _ _ _ Hv), Hkw, Hty.
    reflexivity.
  - vm_compute. reflexivity.
Qed.

Lemma later_time_keyword_replaces_witness :
  time_field (classify_field calendar_rows (with_time no_roles "year") "month")
  = Some "month".
Proof.
  apply (proj1 later_time_keyword_replaces) with (v := VInt 1); reflexivity.
Defined.

Lemma numeric_sample_iff (dv : list value) (f : string) :
  try_except (sample_is_int_or_float dv f) false = true <-> numeric_sample dv f.
Proof.
  unfold sample_is_int_or_float, numeric_sample.
  destruct (first_row_item dv f) as [v | e]; simpl.
  - split; [intros H; exists v; auto | intros [w [Hw H]]; congruence].
  - split; [discriminate | intros [w [Hw _]]; discriminate].
Qed.

(** The scan stops at the first field with a numeric sample. *)
Lemma first_numeric_some (dv : list value) (l : list string) (f : string) :
  first_numeric dv l = Some f ->
  exists l1 l2, l = l1 ++ f :: l2 /\ numeric_sample dv f /\
                forall g, In g l1 -> ~ numeric_sample dv g.
Proof.
  induction l as [ | x r IH]; simpl; [discriminate | ].
  destruct (try_except (sample_is_int_or_float dv x) false) eqn:E.
  - intros H. inversion H; subst. exists [], r.
    apply numeric_sample_iff in E. repeat split; auto; intros g [].
  - intros H. destruct (IH H) as [l1 [l2 [Hl [Hf Hno]]]].
    exists (x :: l1), l2. subst. repeat split; auto.
    intros g [Hg | Hg]; [subst | auto].
    rewrite <- numeric_sample_iff. congruence.
Qed.

Lemma first_numeric_none (dv : list value) (l : list string) :
  first_numeric dv l = None -> forall g, In g l -> ~ numeric_sample dv g.
Proof.
  induction l as [ | x r IH]; simpl; [intros _ g [] | ].
  destruct (try_except (sample_is_int_or_float dv x) false) eqn:E; [discriminate | ].
  intros H g [Hg | Hg]; [subst | auto].
  rewrite <- numeric_sample_iff. congruence.
Qed.

Lemma field_names_nonempty (dv dv' : list value) (fields : list string) :
  field_names dv = Ok (dv', fields) -> fields <> [].
Proof.
  unfold field_names. intros H.
  destruct dv as [ | x r]; [inversion H; discriminate | ].
  destruct (negb (truthy x) || negb (is_dict x) ||
            (length (keys_of x) <? 2)%nat) eqn:E.
  - inversion H. discriminate.
  - invert_ok. apply mapM_length in Ha.
    apply orb_false_iff in E. destruct E as [_ E]. apply Nat.ltb_ge in E.
    intros ->. simpl in Ha. lia.
Qed.

Lemma category_fallback_values (fields : list string) (dv : list value)
    (st st' : roles) :
  category_fallback fields dv st = Ok st' -> value_fields st' = value_fields st.
Proof.
  unfold category_fallback. intros H.
  destruct (negb (name_truthy (category_field st)) &&
            negb (name_truthy (time_field st))).
  - destruct (first_non_numeric dv fields); invert_ok; reflexivity.
  - inversion H. reflexivity.
Qed.

Lemma category_fallback_ok (fields : list string) (dv : list value) (st : roles) :
  fields <> [] -> exists st', category_fallback fields dv st = Ok st'.
Proof.
  intros Hne. unfold category_fallback.
  destruct fields as [ | f r]; [congruence | ]. simpl first_field.
  destruct (negb _ && negb _); [ | eauto].
  match goal with |- context [if ?b then _ else _] => destruct b end;
    simpl; eauto.
Qed.

Lemma last_field_spec (fields : list string) :
  fields <> [] ->
  exists before f, fields = before ++ [f] /\ last_field fields = Ok f.
Proof.
  intros Hne. destruct (exists_last Hne) as [before [f Hf]].
  exists before, f. split; [exact Hf | ].
  unfold last_field. rewrite Hf, rev_app_distr. reflexivity.
Qed.

Lemma json_keys_are_fields (d : list (value * value)) :
  forallb (fun kv : value * value => is_str (fst kv) && json_value (snd kv)) d
  = true ->
  exists fields, mapM as_field (map fst d) = Ok fields.
Proof.
  induction d as [ | [k v] r IH]; simpl; intros H; [eauto | ].
  apply andb_true_iff in H. destruct H as [H1 H2].
  apply andb_true_iff in H1. destruct H1 as [Hk _].
  destruct (IH H2) as [fs Hfs]. rewrite Hfs.
  destruct k; try discriminate. simpl. eauto.
Qed.

(** Decoded JSON always reaches the classifier; the only other outcome is
    an exception of [json.loads] that the handler does not catch. *)
Lemma prepare_total (json_loads : string -> result value) (data_sample : string) :
  (forall v, json_loads data_sample = Ok v -> json_value v = true) ->
  (exists dv fields, prepare json_loads data_sample = Ok (dv, fields)) \/
  (exists e, blank data_sample = false /\ json_loads data_sample = Raise e /\
             decode_error e = false /\
             prepare json_loads data_sample = Raise e).
Proof.
  intros Hjson. unfold prepare, parse_data_values.
  assert (Hdef : exists dv fields, field_names default_rows = Ok (dv, fields))
    by (simpl; eauto).
  destruct (blank data_sample) eqn:Hb; [left; exact Hdef | ]. cbn [negb].
  destruct (json_loads data_sample) as [v | e] eqn:E.
  - left. specialize (Hjson v eq_refl).
    destruct v; try exact Hdef. destruct l as [ | x r]; [exact Hdef | ].
    simpl in Hjson. apply andb_true_iff in Hjson. destruct Hjson as [Hx _].
    cbn [bind]. unfold field_names.
    destruct (negb (truthy x) || negb (is_dict x) ||
              (length (keys_of x) <? 2)%nat); [eauto | ].
    destruct x; simpl keys_of; try (simpl; eauto; fail).
    simpl in Hx. destruct (json_keys_are_fields d Hx) as [fs Hfs].
    rewrite Hfs. simpl. eauto.
  - destruct (decode_error e) eqn:He; [left; exact Hdef | ].
    right. exists e. auto.
Qed.

Lemma prepare_fields (json_loads : string -> result value) (data_sample : string)
    (dv : list value) (fields : list string) :
  prepare json_loads data_sample = Ok (dv, fields) -> fields <> [].
Proof.
  unfold prepare. intros H. apply bind_ok in H. destruct H as [dv0 [_ H]].
  eapply field_names_nonempty; eauto.
Qed.

(** C8: for every dataset that reaches the classifier of
    [generate_vega_lite_spec], [detect_field_types] returns a non-empty
    list of measure fields.  When the main pass finds a measure the list is
    the one of the main pass; when it finds none, the list is the last
    field (in field order) whose first-record sample is an [int] or [float],
    and when there is no such field it is the last field name.  Decoded
    JSON (objects with string keys) always reaches the classifier: the
    only other outcome of the preparation is an exception of [json.loads]
    that the handler does not catch. *)
Theorem measures_never_empty :
  (forall json_loads data_sample,
      (forall v, json_loads data_sample = Ok v -> json_value v = true) ->
      (exists data_values fields,
          prepare json_loads data_sample = Ok (data_values, fields)) \/
      (exists e, blank data_sample = false /\
                 json_loads data_sample = Raise e /\
                 decode_error e = false /\
                 prepare json_loads data_sample = Raise e)) /\
  (forall json_loads data_sample data_values fields,
      prepare json_loads data_sample = Ok (data_values, fields) ->
      exists st,
        detect_field_types fields data_values = Ok st /\
        value_fields st <> [] /\
        let main := fold_left (classify_field data_values) fields no_roles in
        (value_fields main <> [] -> value_fields st = value_fields main) /\
        (value_fields main = [] ->
           (exists before f after,
               fields = before ++ f :: after /\
               numeric_sample data_values f /\
               (forall g, In g after -> ~ numeric_sample data_values g) /\
               value_fields st = [f]) \/
           ((forall g, In g fields -> ~ numeric_sample data_values g) /\
            exists before f, fields = before ++ [f] /\ value_fields st = [f]))).
Proof.
  split; [exact prepare_total | ].
  intros json_loads data_sample dv fields Hprep.
  assert (Hne : fields <> []) by (eapply prepare_fields; eauto).
  unfold detect_field_types.
  set (main := fold_left (classify_field dv) fields no_roles).
  unfold value_fallback.
  destruct (value_fields main) as [ | v vs] eqn:Emain.
  - destruct (first_numeric dv (rev fields)) as [f | ] eqn:Efn.
    + simpl. destruct (category_fallback_ok fields dv (with_values main [f]) Hne)
        as [st Hst].
      exists st. rewrite Hst.
      pose proof (category_fallback_values _ _ _ _ Hst) as Hv.
      simpl in Hv. split; [reflexivity | ]. split; [congruence | ].
      split; [congruence | ]. intros _. left.
      destruct (first_numeric_some _ _ _ Efn) as [l1 [l2 [Hl [Hf Hno]]]].
      exists (rev l2), f, (rev l1). repeat split; auto.
      * rewrite <- (rev_involutive fields), Hl, rev_app_distr. simpl.
        rewrite <- app_assoc. reflexivity.
      * intros g Hg. apply Hno. apply in_rev. exact Hg.
    + destruct (last_field_spec fields Hne) as [before [f [Hf Hlast]]].
      rewrite Hlast. simpl.
      destruct (category_fallback_ok fields dv (with_values main [f]) Hne)
        as [st Hst].
      exists st. rewrite Hst.
      pose proof (category_fallback_values _ _ _ _ Hst) as Hv.
      simpl in Hv. split; [reflexivity | ]. split; [congruence | ].
      split; [congruence | ]. intros _. right. split.
      * intros g Hg. eapply first_numeric_none; eauto. apply -> in_rev. exact Hg.
      * exists before, f. auto.
  - simpl. destruct (category_fallback_ok fields dv main Hne) as [st Hst].
    exists st. rewrite Hst.
    pose proof (category_fallback_values _ _ _ _ Hst) as Hv.
    split; [reflexivity | ]. split; [congruence | ].
    split; [congruence | ]. intros H. congruence.
Qed.

Lemma measures_never_empty_witness :
  exists st,
    detect_field_types ["id"; "label"] id_rows = Ok st /\ value_fields st = ["id"].
Proof.
  destruct (proj2 measures_never_empty (decode_as (VList id_rows)) id_text
              id_rows ["id"; "label"] eq_refl) as [st [Hst _]].
  exists st. split; [exact Hst | ].
  vm_compute in Hst. inversion Hst. reflexivity.
Defined.

Lemma compare_pair_gt (r1 m m' : value) (e2 : string * scale) :
  exact m <> XNaN ->
  compare_pair r1 m e2 = Ok m' ->
  exact m' <> XNaN /\
  (py_gtb m' (VInt 100) = true <->
   py_gtb m (VInt 100) = true \/ quotient_exceeds r1 (s_range (snd e2))).
Proof.
  intros Hm. unfold compare_pair, quotient_exceeds.
  set (r2 := s_range (snd e2)).
  destruct (py_gtb r2 (VInt 0)) eqn:E2.
  - intros H. apply bind_ok in H. destruct H as [q [Hq H]].
    apply bind_ok in H. destruct H as [inv [Hinv H]].
    inversion H; subst m'; clear H. unfold py_max. simpl fold_left.
    destruct (step_max m q (VInt 100) Hm) as [Hn1 H1].
    destruct (step_max (if py_gtb q m then q else m) inv (VInt 100) Hn1)
      as [Hn2 H2].
    split; [exact Hn2 | ]. rewrite H2, H1. rewrite Hq.
    destruct (py_gtb q (VInt 0)) eqn:Eq.
    + split.
      * intros [[H | H] | H]; [left; exact H | | ]; right;
          (split; [reflexivity | ]); exists q; (split; [reflexivity | ]).
        -- left. exact H.
        -- right. split; [exact Eq | ]. exists inv. auto.
      * intros [H | [_ [q0 [Hq0 [H | [_ [q' [Hq' H]]]]]]]].
        -- auto.
        -- inversion Hq0; subst. auto.
        -- inversion Hq0; subst. rewrite Hinv in Hq'. inversion Hq'; subst. auto.
    + inversion Hinv; subst inv. split.
      * intros [[H | H] | H]; [left; exact H | | discriminate H].
        right. split; [reflexivity | ]. exists q. auto.
      * intros [H | [_ [q0 [Hq0 [H | [H _]]]]]].
        -- auto.
        -- inversion Hq0; subst. auto.
        -- inversion Hq0; subst. congruence.
  - intros H. inversion H; subst m'. split; [exact Hm | ].
    split; [auto | ]. intros [H1 | [H1 _]]; [exact H1 | discriminate H1].
Qed.

Lemma inner_loop_gt (r1 : value) (rest : list (string * scale)) (m m' : value) :
  exact m <> XNaN ->
  foldM (compare_pair r1) rest m = Ok m' ->
  exact m' <> XNaN /\
  (py_gtb m' (VInt 100) = true <->
   py_gtb m (VInt 100) = true \/
   exists e2, In e2 rest /\ quotient_exceeds r1 (s_range (snd e2))).
Proof.
  revert m. induction rest as [ | e rest IH]; intros m Hm H.
  - inversion H; subst. split; [exact Hm | ].
    split; [auto | intros [H1 | [e2 [[] _]]]; exact H1].
  - apply foldM_ok in H. destruct H as [m1 [H1 H2]].
    destruct (compare_pair_gt _ _ _ _ Hm H1) as [Hn1 Hg1].
    destruct (IH m1 Hn1 H2) as [Hn2 Hg2].
    split; [exact Hn2 | ]. rewrite Hg2, Hg1. split.
    + intros [[H | H] | [e2 [Hin H]]]; [auto | | ].
      * right. exists e. split; [left; reflexivity | exact H].
      * right. exists e2. split; [right; exact Hin | exact H].
    + intros [H | [e2 [[He | Hin] H]]]; [auto | subst; auto | ].
      right. exists e2. auto.
Qed.

Lemma compare_scales_gt (l : list (string * scale)) (m m' : value) :
  exact m <> XNaN ->
  compare_scales l m = Ok m' ->
  (py_gtb m' (VInt 100) = true <->
   py_gtb m (VInt 100) = true \/ divergent_pair l).
Proof.
  revert m. induction l as [ | e1 rest IH]; intros m Hm H.
  - inversion H; subst. split; [auto | ].
    intros [H1 | [i [j [a [b [_ [H1 _]]]]]]]; [exact H1 | ].
    destruct i; discriminate H1.
  - simpl in H. apply bind_ok in H. destruct H as [m1 [H1 H2]].
    destruct (inner_loop_gt _ _ _ _ Hm H1) as [Hn1 Hg1].
    rewrite (IH m1 Hn1 H2), Hg1. split.
    + intros [[H | [e2 [Hin H]]] | [i [j [a [b [Hij [Hi [Hj H]]]]]]]].
      * auto.
      * right. apply In_nth_error in Hin. destruct Hin as [k Hk].
        exists 0%nat, (S k), e1, e2.
        split; [lia | split; [reflexivity | split; [exact Hk | exact H]]].
      * right. exists (S i), (S j), a, b.
        split; [lia | split; [exact Hi | split; [exact Hj | exact H]]].
    + intros [H | [i [j [a [b [Hij [Hi [Hj H]]]]]]]]; [auto | ].
      destruct j as [ | j]; [lia | ]. simpl in Hj.
      destruct i as [ | i]; simpl in Hi.
      * inversion Hi; subst. left. right. exists b. split; [ | exact H].
        eapply nth_error_In; eauto.
      * right. exists i, j, a, b.
        split; [lia | split; [exact Hi | split; [exact Hj | exact H]]].
Qed.

Lemma range_set_length (field : string) (entry : scale)
    (ranges : list (string * scale)) :
  (length (range_set field entry ranges) <= S (length ranges))%nat.
Proof.
  induction ranges as [ | [f e] r IH]; simpl; [lia | ].
  destruct (field =? f)%string; simpl; lia.
Qed.

Lemma add_range_length (dv : list value) (ranges : list (string * scale))
    (field : string) :
  (length (add_range dv ranges field) <= S (length ranges))%nat.
Proof.
  unfold add_range.
  destruct (range_of dv field) as [[entry | ] | e]; try lia.
  apply range_set_length.
Qed.

Lemma compute_ranges_length (vfs : list string) (dv : list value) :
  (length (compute_ranges vfs dv) <= length vfs)%nat.
Proof.
  unfold compute_ranges.
  assert (H : forall acc, (length (fold_left (add_range dv) vfs acc)
                           <= length vfs + length acc)%nat).
  { induction vfs as [ | f r IH]; intros acc; simpl; [lia | ].
    specialize (IH (add_range dv acc f)).
    pose proof (add_range_length dv acc f). lia. }
  specialize (H []). simpl in H. lia.
Qed.

Lemma divergent_pair_length (ranges : list (string * scale)) :
  divergent_pair ranges -> (2 <= length ranges)%nat.
Proof.
  intros [i [j [a [b [Hij [_ [Hj _]]]]]]].
  assert (j < length ranges)%nat by (apply nth_error_Some; congruence). lia.
Qed.

Lemma flag_iff (vfs : list string) (dv : list value) (flag : bool)
    (ranges : list (string * scale)) :
  have_different_scales vfs dv = Ok (flag, ranges) ->
  (flag = true <-> divergent_pair (compute_ranges vfs dv)).
Proof.
  unfold have_different_scales.
  pose proof (compute_ranges_length vfs dv) as Hlen.
  destruct (length vfs <? 2)%nat eqn:E1.
  - apply Nat.ltb_lt in E1. intros H. inversion H; subst.
    split; [discriminate | ].
    intros Hd. apply divergent_pair_length in Hd. lia.
  - destruct (length (compute_ranges vfs dv) <? 2)%nat eqn:E2.
    + apply Nat.ltb_lt in E2. intros H. inversion H; subst.
      split; [discriminate | ].
      intros Hd. apply divergent_pair_length in Hd. lia.
    + intros H. apply bind_ok in H. destruct H as [m [Hm H]].
      inversion H; subst.
      rewrite (compare_scales_gt _ _ _ (exact_int 1) Hm).
      split; [ | auto]. intros [H1 | H1]; [discriminate H1 | exact H1].
Qed.

(** *** Which measures have an entry *)

Lemma range_set_fresh (f : string) (e : scale) (ranges : list (string * scale)) :
  ~ In f (map fst ranges) -> range_set f e ranges = ranges ++ [(f, e)].
Proof.
  induction ranges as [ | [g s] r IH]; simpl; intros H; [reflexivity | ].
  destruct (f =? g) eqn:E.
  - apply String.eqb_eq in E. subst. exfalso. apply H. left. reflexivity.
  - rewrite IH by (intros Hin; apply H; right; exact Hin). reflexivity.
Qed.

Lemma range_entry_keys (dv : list value) (l : list string) (f : string) :
  In f (map fst (flat_map (range_entry dv) l)) -> In f l.
Proof.
  induction l as [ | g r IH]; simpl; [auto | ].
  rewrite map_app, in_app_iff. intros [H | H]; [ | right; auto].
  left. unfold range_entry in H.
  destruct (range_of dv g) as [[entry | ] | e]; simpl in H; try contradiction.
  destruct H as [H | []]. exact H.
Qed.

Lemma compute_ranges_nodup (vfs : list string) (dv : list value) :
  NoDup vfs -> compute_ranges vfs dv = flat_map (range_entry dv) vfs.
Proof.
  unfold compute_ranges.
  assert (H : forall l done, NoDup (done ++ l) ->
            fold_left (add_range dv) l (flat_map (range_entry dv) done) =
            flat_map (range_entry dv) (done ++ l)).
  { induction l as [ | f r IH]; intros done Hnd; simpl.
    - rewrite app_nil_r. reflexivity.
    - replace (done ++ f :: r) with ((done ++ [f]) ++ r) in *
        by (rewrite <- app_assoc; reflexivity).
      rewrite <- IH by exact Hnd. f_equal.
      rewrite flat_map_app. simpl. rewrite app_nil_r.
      unfold add_range, range_entry.
      destruct (range_of dv f) as [[entry | ] | e];
        try (rewrite app_nil_r; reflexivity).
      apply range_set_fresh. intros Hin. apply range_entry_keys in Hin.
      apply NoDup_app_remove_r in Hnd. apply NoDup_remove_2 in Hnd.
      apply Hnd. rewrite app_nil_r. exact Hin. }
  intros Hnd. apply (H vfs [] Hnd).
Qed.

(** Every entry of [ranges] comes from the values of its field. *)
Lemma range_set_in (f g : string) (e s : scale) (ranges : list (string * scale)) :
  In (g, s) (range_set f e ranges) -> (g, s) = (f, e) \/ In (g, s) ranges.
Proof.
  induction ranges as [ | [h t] r IH]; simpl.
  - intros [H | []]. left. symmetry. exact H.
  - destruct (f =? h) eqn:E; simpl.
    + apply String.eqb_eq in E. subst h.
      intros [H | H]; [left; symmetry; exact H | right; right; exact H].
    + intros [H | H]; [right; left; exact H | ].
      destruct (IH H) as [H1 | H1]; [left; exact H1 | right; right; exact H1].
Qed.

Lemma compute_ranges_in (vfs : list string) (dv : list value) (f : string)
    (s : scale) :
  In (f, s) (compute_ranges vfs dv) -> In f vfs /\ range_of dv f = Ok (Some s).
Proof.
  unfold compute_ranges.
  assert (H : forall l acc,
            In (f, s) (fold_left (add_range dv) l acc) ->
            In (f, s) acc \/ (In f l /\ range_of dv f = Ok (Some s))).
  { induction l as [ | g r IH]; intros acc Hin; simpl in Hin; [auto | ].
    destruct (IH _ Hin) as [H | [H1 H2]]; [ | right; split; [right | ]; auto].
    unfold add_range in H.
    destruct (range_of dv g) as [[entry | ] | e] eqn:E; auto.
    destruct (range_set_in _ _ _ _ _ H) as [H1 | H1]; [ | auto].
    inversion H1; subst. right. split; [left; reflexivity | exact E]. }
  intros Hin. destruct (H vfs [] Hin) as [[] | H1]. exact H1.
Qed.

Lemma range_of_spec (dv : list value) (f : string) (s : scale) :
  range_of dv f = Ok (Some s) ->
  exists x xs,
    numeric_values f dv = Ok (x :: xs) /\
    s_min s = py_min x xs /\ s_max s = py_max x xs /\
    (if py_neb (py_max x xs) (py_min x xs)
     then py_sub (py_max x xs) (py_min x xs) = Ok (s_range s)
     else s_range s = py_max x xs).
Proof.
  unfold range_of, scale_of. intros H.
  apply bind_ok in H. destruct H as [vs [Hvs H]].
  destruct vs as [ | x xs]; [discriminate H | ].
  apply bind_ok in H. destruct H as [entry [He H]].
  inversion H; subst entry; clear H.
  apply bind_ok in He. destruct He as [range [Hr He]].
  inversion He; subst s; clear He. simpl.
  exists x, xs. split; [exact Hvs | ]. split; [reflexivity | ].
  split; [reflexivity | ].
  destruct (py_neb (py_max x xs) (py_min x xs)); [exact Hr | ].
  inversion Hr. reflexivity.
Qed.

Lemma numeric_values_numbers (f : string) (dv : list value) (vs : list value) :
  numeric_values f dv = Ok vs -> Forall (fun v => is_int_or_float v = true) vs.
Proof.
  revert vs. induction dv as [ | row rest IH]; simpl; intros vs H.
  - inversion H. constructor.
  - apply bind_ok in H. destruct H as [present [Hp H]].
    destruct present; [ | auto].
    apply bind_ok in H. destruct H as [v [Hv H]].
    destruct (is_int_or_float v) eqn:E; [ | auto].
    apply bind_ok in H. destruct H as [vs' [Hvs H]].
    inversion H; subst. constructor; auto.
Qed.

Lemma scale_of_outcome (x : value) (xs : list value) :
  Forall number (x :: xs) ->
  (exists s, scale_of x xs = Ok s /\ number (s_range s)) \/
  scale_of x xs = Raise OverflowError.
Proof.
  intros Hall. rewrite Forall_forall in Hall. unfold scale_of.
  pose proof (Hall _ (py_max_in x xs)) as Hhi.
  pose proof (Hall _ (py_min_in x xs)) as Hlo.
  destruct (py_neb (py_max x xs) (py_min x xs)).
  - destruct (py_sub_outcome _ _ Hhi Hlo) as [[v [Hv Hn]] | Hv]; rewrite Hv;
      [left; eexists; split; [reflexivity | exact Hn] | right; reflexivity].
  - left. eexists. split; [reflexivity | exact Hhi].
Qed.

Lemma range_of_number (dv : list value) (f : string) (s : scale) :
  range_of dv f = Ok (Some s) -> number (s_range s).
Proof.
  unfold range_of. intros H.
  apply bind_ok in H. destruct H as [vs [Hvs H]].
  destruct vs as [ | x xs]; [discriminate H | ].
  apply numeric_values_numbers in Hvs.
  destruct (scale_of_outcome x xs Hvs) as [[s' [Hs Hn]] | Hs]; rewrite Hs in H;
    [ | discriminate H].
  inversion H; subst. exact Hn.
Qed.

Lemma compute_ranges_numbers (vfs : list string) (dv : list value) :
  Forall (fun entry => number (s_range (snd entry))) (compute_ranges vfs dv).
Proof.
  apply Forall_forall. intros [f s] Hin.
  apply compute_ranges_in in Hin. destruct Hin as [_ Hin].
  eapply range_of_number; eauto.
Qed.

Lemma compare_pair_outcome (r1 m : value) (e2 : string * scale) :
  number r1 -> number (s_range (snd e2)) ->
  (exists m', compare_pair r1 m e2 = Ok m') \/
  compare_pair r1 m e2 = Raise OverflowError.
Proof.
  intros H1 H2. unfold compare_pair.
  destruct (py_gtb (s_range (snd e2)) (VInt 0)) eqn:E2; [ | eauto].
  destruct (py_truediv_outcome _ _ H1 H2 (positive_not_zero _ E2))
    as [[q Hq] | Hq]; rewrite Hq; [ | right; reflexivity].
  cbn [bind].
  destruct (py_gtb (VFloat q) (VInt 0)) eqn:Eq; [ | left; eexists; reflexivity].
  destruct (py_truediv_outcome (VInt 1) (VFloat q) eq_refl eq_refl
              (positive_not_zero _ Eq)) as [[q' Hq'] | Hq']; rewrite Hq';
    [left; eexists; reflexivity | right; reflexivity].
Qed.

Lemma compare_scales_outcome (l : list (string * scale)) (m : value) :
  Forall (fun entry => number (s_range (snd entry))) l ->
  (exists m', compare_scales l m = Ok m') \/
  compare_scales l m = Raise OverflowError.
Proof.
  revert m. induction l as [ | e1 rest IH]; intros m Hall; simpl; [eauto | ].
  inversion Hall as [ | ? ? H1 Hrest]; subst.
  destruct (foldM_outcome (compare_pair (s_range (snd e1))) OverflowError rest)
    with (a := m) as [[m1 Hm1] | Hm1].
  { intros a x Hx. apply compare_pair_outcome; [exact H1 | ].
    rewrite Forall_forall in Hrest. apply Hrest. exact Hx. }
  - rewrite Hm1. simpl. apply IH. exact Hrest.
  - rewrite Hm1. right. reflexivity.
Qed.


(** *** The two examples of the claim *)

Ltac example_ranges :=
  let Hr := fresh "Hr" in let H := fresh "H" in let Hlen := fresh "Hlen" in
  intros Hr H; unfold have_different_scales;
  match goal with
  | |- context [compute_ranges ?vfs ?dv] =>
      pose proof (compute_ranges_length vfs dv) as Hlen
  end;
  rewrite Hr in *; simpl in Hlen; apply Nat.ltb_ge in Hlen; rewrite Hlen;
  match goal with
  | s1 : scale, s2 : scale |- _ => destruct s1, s2
  end;
  simpl in H; unfold numeral in H;
  destruct H as [[[-> | ->] [-> | ->]] | [[-> | ->] [-> | ->]]];
  vm_compute; reflexivity.

Lemma example_true (vfs : list string) (dv : list value)
    (f1 f2 : string) (s1 s2 : scale) :
  compute_ranges vfs dv = [(f1, s1); (f2, s2)] ->
  (numeral 100 (s_range s1) /\ numeral 50000 (s_range s2)) \/
  (numeral 50000 (s_range s1) /\ numeral 100 (s_range s2)) ->
  have_different_scales vfs dv = Ok (true, [(f1, s1); (f2, s2)]).
Proof. example_ranges. Qed.

Lemma example_false (vfs : list string) (dv : list value)
    (f1 f2 : string) (s1 s2 : scale) :
  compute_ranges vfs dv = [(f1, s1); (f2, s2)] ->
  (numeral 100 (s_range s1) /\ numeral 150 (s_range s2)) \/
  (numeral 150 (s_range s1) /\ numeral 100 (s_range s2)) ->
  have_different_scales vfs dv = Ok (false, [(f1, s1); (f2, s2)]).
Proof. example_ranges. Qed.

(** C5, as amended: when [have_different_scales] returns, its flag is true
    exactly when two of the measures with a computed range, taken as first
    and second in the order of [ranges], pass the test of the loop: the
    second range is positive and the float quotient of the first by the
    second exceeds 100, or is positive with a float reciprocal that exceeds
    100.  The quotients are rounded to binary64 as Python rounds them, so a
    ratio within a rounding error of 100 is not told from 100.  For
    distinct measure names, [ranges] has one entry for each measure that
    has at least one numeric value and whose range can be computed, in the
    order of the measures; each entry holds the minimum, the maximum, and
    as range their difference (the maximum itself when they are equal).
    With two measures of ranges 100 and 50000, as [int]s or as [float]s,
    the flag is true; with ranges 100 and 150 it is false. *)
Theorem scale_divergence_flag :
  (forall value_fields data_values flag ranges,
      have_different_scales value_fields data_values = Ok (flag, ranges) ->
      (flag = true <->
       divergent_pair (compute_ranges value_fields data_values))) /\
  (forall value_fields data_values,
      NoDup value_fields ->
      compute_ranges value_fields data_values =
      flat_map (range_entry data_values) value_fields) /\
  (forall value_fields data_values f s,
      In (f, s) (compute_ranges value_fields data_values) ->
      In f value_fields /\
      exists x xs,
        numeric_values f data_values = Ok (x :: xs) /\
        s_min s = py_min x xs /\ s_max s = py_max x xs /\
        (if py_neb (py_max x xs) (py_min x xs)
         then py_sub (py_max x xs) (py_min x xs) = Ok (s_range s)
         else s_range s = py_max x xs)) /\
  (forall value_fields data_values f1 f2 s1 s2,
      compute_ranges value_fields data_values = [(f1, s1); (f2, s2)] ->
      (numeral 100 (s_range s1) /\ numeral 50000 (s_range s2)) \/
      (numeral 50000 (s_range s1) /\ numeral 100 (s_range s2)) ->
      have_different_scales value_fields data_values =
        Ok (true, [(f1, s1); (f2, s2)])) /\
  (forall value_fields data_values f1 f2 s1 s2,
      compute_ranges value_fields data_values = [(f1, s1); (f2, s2)] ->
      (numeral 100 (s_range s1) /\ numeral 150 (s_range s2)) \/
      (numeral 150 (s_range s1) /\ numeral 100 (s_range s2)) ->
      have_different_scales value_fields data_values =
        Ok (false, [(f1, s1); (f2, s2)])).
Proof.
  split; [exact flag_iff | ]. split; [exact compute_ranges_nodup | ]. split.
  { intros vfs dv f s Hin.
    destruct (compute_ranges_in _ _ _ _ Hin) as [Hf Hs].
    split; [exact Hf | ]. apply range_of_spec. exact Hs. }
  split; [exact example_true | exact example_false].
Qed.

Lemma scale_divergence_flag_witness :
  have_different_scales ["a"; "b"] wide_rows =
    Ok (true, [("a", mk_scale (VInt 0) (VInt 100) (VInt 100));
               ("b", mk_scale (VInt 0) (VInt 50000) (VInt 50000))]) /\
  have_different_scales ["a"; "b"] close_rows =
    Ok (false, [("a", mk_scale (VInt 0) (VInt 100) (VInt 100));
                ("b", mk_scale (VInt 0) (VInt 150) (VInt 150))]).
Proof.
  split.
  - apply (proj1 (proj2 (proj2 (proj2 scale_divergence_flag)))
             ["a"; "b"] wide_rows);
      [reflexivity | left; split; left; reflexivity].
  - apply (proj2 (proj2 (proj2 (proj2 scale_divergence_flag)))
             ["a"; "b"] close_rows);
      [reflexivity | left; split; left; reflexivity].
Defined.

(** C5 as stated fails within a rounding error of 100: the range of a is
    more than 100 times the range of b, the float quotient is 100.0, and
    the flag is false. *)
Lemma rounded_quotient_hides_divergence :
  compute_ranges ["a"; "b"] edge_rows =
    [("a", mk_scale (VInt 0) (VInt 1000000000000000001)
             (VInt 1000000000000000001));
     ("b", mk_scale (VInt 0) (VInt 10000000000000000)
             (VInt 10000000000000000))] /\
  (100 * 10000000000000000 < 1000000000000000001)%Z /\
  py_truediv (VInt 1000000000000000001) (VInt 10000000000000000) =
    Ok (VFloat (S754_finite false 7036874417766400 (-46))) /\
  have_different_scales ["a"; "b"] edge_rows =
    Ok (false,
        [("a", mk_scale (VInt 0) (VInt 1000000000000000001)
                 (VInt 1000000000000000001));
         ("b", mk_scale (VInt 0) (VInt 10000000000000000)
                 (VInt 10000000000000000))]).
Proof. repeat split; vm_compute; reflexivity. Qed.

(** ** The generator *)

Lemma prepare_fallback (json_loads : string -> result value) (data_sample : string) :
  blank data_sample = true \/
  (exists e, json_loads data_sample = Raise e /\ decode_error e = true) \/
  json_loads data_sample = Ok (VList []) ->
  prepare json_loads data_sample = Ok (default_rows, default_fields).
Proof.
  unfold prepare, parse_data_values.
  intros [H | [[e [H He]] | H]]; rewrite H; [reflexivity | | ];
    destruct (negb (blank data_sample)); try rewrite He; reflexivity.
Qed.

(** An exception of [json.loads] that the handler does not catch
    propagates. *)
Lemma prepare_raises (json_loads : string -> result value) (data_sample : string)
    (e : exn) :
  blank data_sample = false ->
  json_loads data_sample = Raise e -> decode_error e = false ->
  prepare json_loads data_sample = Raise e.
Proof.
  intros Hb Hj He. unfold prepare, parse_data_values.
  rewrite Hb, Hj, He. reflexivity.
Qed.

Lemma prepare_replaced (json_loads : string -> result value)
    (data_sample : string) (x : value) (rest : list value) :
  blank data_sample = false ->
  json_loads data_sample = Ok (VList (x :: rest)) ->
  is_dict x = false \/ (length (keys_of x) < 2)%nat ->
  prepare json_loads data_sample = Ok ([default_row], default_fields).
Proof.
  intros Hb Hj Hx. unfold prepare, parse_data_values. rewrite Hb, Hj. simpl.
  assert (E : negb (truthy x) || negb (is_dict x) ||
              (length (keys_of x) <? 2)%nat = true).
  { destruct Hx as [Hx | Hx].
    - rewrite Hx. simpl. apply orb_true_iff. left. apply orb_true_r.
    - apply Nat.ltb_lt in Hx. rewrite Hx. apply orb_true_r. }
  rewrite E. reflexivity.
Qed.

Lemma detect_default (rest : list value) :
  detect_field_types default_fields (default_row :: rest) =
  Ok (mk_roles None (Some "category") ["value"]).
Proof. reflexivity. Qed.

(** With the built-in record first, every chart family embeds the data
    unchanged. *)
Lemma select_on_default_record (chart_description : string) (rest : list value) :
  exists doc,
    select_chart chart_description (default_row :: rest) default_fields
      (mk_roles None (Some "category") ["value"]) = Ok doc /\
    embedded_data doc = Some (VList (default_row :: rest)).
Proof.
  unfold select_chart. cbn [value_fields bind].
  destruct (any_in _ _); [eexists; split; reflexivity | ].
  destruct (any_in _ _); [eexists; split; reflexivity | ].
  destruct (any_in _ _); [eexists; split; reflexivity | ].
  destruct (any_in _ _); eexists; split; reflexivity.
Qed.

Lemma generate_on_default_record (json_loads : string -> result value)
    (chart_description data_sample : string) (rest : list value) :
  blank chart_description = false ->
  prepare json_loads data_sample = Ok (default_row :: rest, default_fields) ->
  exists doc,
    generate_vega_lite_spec json_loads chart_description data_sample = Ok doc /\
    embedded_data doc = Some (VList (default_row :: rest)).
Proof.
  intros Hb Hp. unfold generate_vega_lite_spec. rewrite Hb, Hp.
  cbn [bind fst snd]. rewrite detect_default. cbn [bind].
  apply select_on_default_record.
Qed.

(** C6, as amended: for every description that is neither empty nor only
    whitespace, and every data sample that is empty (or only whitespace),
    that [json.loads] rejects with [json.JSONDecodeError], or that decodes
    to an empty array, [generate_vega_lite_spec] returns a document whose
    embedded dataset is exactly the three-row fallback.  An exception of
    [json.loads] that the handler does not catch is raised to the caller:
    no document is returned and nothing is substituted. *)
Theorem fallback_dataset_embedded :
  forall json_loads chart_description data_sample,
    blank chart_description = false ->
    (blank data_sample = true \/
     (exists e, json_loads data_sample = Raise e /\ decode_error e = true) \/
     json_loads data_sample = Ok (VList []) ->
     exists doc,
       generate_vega_lite_spec json_loads chart_description data_sample = Ok doc /\
       embedded_data doc =
         Some (VList [VDict ["category" ~> VStr "A"; "value" ~> VInt 28];
                      VDict ["category" ~> VStr "B"; "value" ~> VInt 55];
                      VDict ["category" ~> VStr "C"; "value" ~> VInt 43]])) /\
    (forall e,
       blank data_sample = false ->
       json_loads data_sample = Raise e -> decode_error e = false ->
       generate_vega_lite_spec json_loads chart_description data_sample
       = Raise e).
Proof.
  intros json_loads chart_description data_sample Hb. split.
  - intros Hd. apply generate_on_default_record; [exact Hb | ].
    apply prepare_fallback. exact Hd.
  - intros e Hs Hj He. unfold generate_vega_lite_spec.
    rewrite Hb, (prepare_raises _ _ _ Hs Hj He). reflexivity.
Qed.

Lemma fallback_dataset_embedded_witness :
  exists doc,
    generate_vega_lite_spec (decode_as (VList [])) "sales by region" "[]" = Ok doc /\
    embedded_data doc = Some (VList default_rows).
Proof.
  apply (proj1 (fallback_dataset_embedded (decode_as (VList []))
                  "sales by region" "[]" eq_refl)).
  right. right. reflexivity.
Defined.

(** C6 as stated fails on a description that is not empty but only
    whitespace: the answer is the error document, which embeds no data. *)
Lemma whitespace_description_embeds_nothing :
  " " <> EmptyString /\
  generate_vega_lite_spec decode_fails " " EmptyString =
    Ok (VDict ["error" ~> VStr "chart_description cannot be empty";
               "status" ~> VStr "failed"]) /\
  embedded_data (VDict ["error" ~> VStr "chart_description cannot be empty";
                        "status" ~> VStr "failed"]) = None.
Proof. repeat split. discriminate. Qed.

(** C9: when the decoded data is a non-empty array whose first element is
    not a dictionary with at least two keys, the data that reaches the
    classifier is the single record [{"category": "A", "value": 28}] with
    the field list [["category", "value"]], and (for a description that
    passes validation) that record is the whole embedded dataset. *)
Theorem short_first_record_replaced :
  forall json_loads data_sample x rest,
    blank data_sample = false ->
    json_loads data_sample = Ok (VList (x :: rest)) ->
    is_dict x = false \/ (length (keys_of x) < 2)%nat ->
    prepare json_loads data_sample =
      Ok ([VDict ["category" ~> VStr "A"; "value" ~> VInt 28]],
          ["category"; "value"]) /\
    forall chart_description,
      blank chart_description = false ->
      exists doc,
        generate_vega_lite_spec json_loads chart_description data_sample = Ok doc /\
        embedded_data doc =
          Some (VList [VDict ["category" ~> VStr "A"; "value" ~> VInt 28]]).
Proof.
  intros json_loads data_sample x rest Hb Hj Hx.
  pose proof (prepare_replaced json_loads data_sample x rest Hb Hj Hx) as Hp.
  split; [exact Hp | ].
  intros chart_description Hd.
  exact (generate_on_default_record json_loads chart_description data_sample
           [] Hd Hp).
Qed.

Lemma short_first_record_replaced_witness :
  prepare (decode_as (VList one_field_rows)) one_field_text =
    Ok ([default_row], default_fields).
Proof.
  apply (proj1 (short_first_record_replaced (decode_as (VList one_field_rows))
                  one_field_text (VDict ["x" ~> VInt 1]) []
                  eq_refl eq_refl (or_intror (Nat.lt_succ_diag_r 1)))).
Defined.

(** C3: the claim expects the dual-axis layout for the description
    "compare vodka sales USD vs volume by region", and so does the
    docstring of the module.  The description contains none of the words
    line, trend, time series, bar, column, histogram, scatter, point, pie,
    donut, so the code takes the default branch: on the sample below, whose
    two ranges do diverge, the answer is the single bar chart of sales_usd
    by region, and for every data sample the returned document has no
    layers and no scale resolution. *)
Theorem vodka_query_gets_default_bar :
  (forall json_loads data_sample,
     blank data_sample = false ->
     json_loads data_sample = Ok (VList vodka_rows) ->
     (exists ranges,
         have_different_scales ["sales_usd"; "volume"] vodka_rows =
         Ok (true, ranges)) /\
     generate_vega_lite_spec json_loads vodka_description data_sample =
       Ok (default_bar_chart vodka_description vodka_rows "region" "sales_usd")) /\
  (forall json_loads data_sample doc,
     generate_vega_lite_spec json_loads vodka_description data_sample = Ok doc ->
     field_of "layer" doc = None /\ field_of "resolve" doc = None /\
     field_of "mark" doc = Some bar_mark).
Proof.
  split.
  - intros json_loads data_sample Hb Hj.
    split; [eexists; vm_compute; reflexivity | ].
    unfold generate_vega_lite_spec, prepare, parse_data_values.
    rewrite Hb, Hj. vm_compute. reflexivity.
  - intros json_loads data_sample doc H.
    unfold generate_vega_lite_spec in H.
    change (blank vodka_description) with false in H. cbv iota in H.
    apply bind_ok in H. destruct H as [[dv fields] [Hp H]].
    apply bind_ok in H. destruct H as [st [Hst H]].
    cbn [fst snd] in H. unfold select_chart in H.
    apply bind_ok in H. destruct H as [pv [Hpv H]].
    apply bind_ok in H. destruct H as [scales [Hsc H]].
    change (lower vodka_description)
      with "compare vodka sales usd vs volume by region" in H.
    change (any_in ["line"; "trend"; "time series"]
              "compare vodka sales usd vs volume by region") with false in H.
    change (any_in ["bar"; "column"; "histogram"]
              "compare vodka sales usd vs volume by region") with false in H.
    change (any_in ["scatter"; "point"]
              "compare vodka sales usd vs volume by region") with false in H.
    change (any_in ["pie"; "donut"]
              "compare vodka sales usd vs volume by region") with false in H.
    cbv iota in H. invert_ok; repeat split; reflexivity.
Qed.

Lemma vodka_query_gets_default_bar_witness :
  generate_vega_lite_spec (decode_as (VList vodka_rows)) vodka_description
    vodka_text =
  Ok (default_bar_chart vodka_description vodka_rows "region" "sales_usd").
Proof.
  apply (proj1 vodka_query_gets_default_bar (decode_as (VList vodka_rows))
           vodka_text); reflexivity.
Defined.

(** The top-level keys of the documents of each chart family. *)
Lemma line_chart_status (desc : string) (dv : list value) (fields : list string)
    (st : roles) (pv : string) (doc : value) :
  line_chart desc dv fields st pv = Ok doc -> field_of "status" doc = None.
Proof.
  unfold line_chart. intros H. invert_ok; reflexivity.
Qed.

Lemma bar_family_status (desc dl : string) (dv : list value)
    (fields : list string) (st : roles) (pv : string) (ds : bool) (doc : value) :
  bar_family desc dl dv fields st pv ds = Ok doc -> field_of "status" doc = None.
Proof.
  unfold bar_family, grouped_bars_chart. intros H. invert_ok; reflexivity.
Qed.

Lemma select_chart_status (desc : string) (dv : list value)
    (fields : list string) (st : roles) (doc : value) :
  select_chart desc dv fields st = Ok doc -> field_of "status" doc = None.
Proof.
  unfold select_chart. intros H.
  apply bind_ok in H. destruct H as [pv [Hpv H]].
  apply bind_ok in H. destruct H as [scales [Hsc H]].
  destruct (any_in _ _); [eapply line_chart_status; eauto | ].
  destruct (any_in _ _); [eapply bar_family_status; eauto | ].
  destruct (any_in _ _); [inversion H; reflexivity | ].
  destruct (any_in _ _); invert_ok; reflexivity.
Qed.

Lemma generate_status (json_loads : string -> result value)
    (desc data_sample : string) (doc : value) :
  generate_vega_lite_spec json_loads desc data_sample = Ok doc ->
  field_of "status" doc = if blank desc then Some (VStr "failed") else None.
Proof.
  unfold generate_vega_lite_spec. intros H.
  destruct (blank desc).
  - inversion H. reflexivity.
  - apply bind_ok in H. destruct H as [prepared [Hp H]].
    apply bind_ok in H. destruct H as [st [Hst H]].
    eapply select_chart_status; eauto.
Qed.

Lemma generate_ragged (json_loads : string -> result value) (data_sample : string) :
  blank data_sample = false ->
  json_loads data_sample = Ok (VList ragged_rows) ->
  generate_vega_lite_spec json_loads ragged_description data_sample
  = Raise KeyError.
Proof.
  intros Hb Hj. unfold generate_vega_lite_spec, prepare, parse_data_values.
  rewrite Hb, Hj. vm_compute. reflexivity.
Qed.

End EnhancedFacts.

(* ================================================================== *)
(** * Properties of process_structured_data.py and of both entry points *)
(* ================================================================== *)

Module ProcessorFacts.

Import Processor.

Section Facts.

Variable json_loads : string -> result value.
Variable repr_value : value -> string.
Variable set_list : list string -> list string.
Variable float_sum : list spec_float -> spec_float.


Lemma parse_undecodable (data_sample : string) (e : exn) :
  json_loads data_sample = Raise e -> decode_error e = true ->
  parse_input_data json_loads data_sample = Ok [].
Proof.
  intros H He. unfold parse_input_data. rewrite H, He.
  destruct (blank data_sample); reflexivity.
Qed.

(** The inputs for which [parse_input_data] returns the empty list. *)
Lemma parse_empty_iff (data_sample : string) :
  blank data_sample = false ->
  (parse_input_data json_loads data_sample = Ok [] <->
   (exists e, json_loads data_sample = Raise e /\ decode_error e = true) \/
   json_loads data_sample = Ok (VList []) \/
   (exists v, json_loads data_sample = Ok v /\ unparsed v = true)).
Proof.
  intros Hb. unfold parse_input_data, unparsed. rewrite Hb.
  destruct (json_loads data_sample) as [v | e]; split.
  - intros H.
    destruct v;
      try (right; right; eexists; split; [reflexivity | ]; reflexivity).
    + right. left. congruence.
    + right. right. exists (VDict d). split; [reflexivity | ].
      destruct (dict_has (VStr "columns") d && dict_has (VStr "rows") d);
        [ | discriminate H].
      destruct (and_then _ _) as [[ | r rs] | ]; [reflexivity | | reflexivity].
      discriminate H.
  - intros [[e [H _]] | [H | [w [H Hw]]]]; [discriminate H | | ].
    + inversion H. reflexivity.
    + inversion H; subst w; clear H. destruct v; try reflexivity.
      * discriminate Hw.
      * destruct (dict_has (VStr "columns") d && dict_has (VStr "rows") d);
          [ | discriminate Hw].
        destruct (and_then _ _) as [[ | r rs] | ]; [reflexivity | | reflexivity].
        discriminate Hw.
  - destruct (decode_error e) eqn:He; [ | discriminate].
    intros _. left. eauto.
  - intros [[e' [H He]] | [H | [w [H _]]]]; try discriminate H.
    inversion H; subst. rewrite He. reflexivity.
Qed.

Lemma process_blank (data_sample instruction : string) :
  blank data_sample = true ->
  process_structured_data json_loads repr_value set_list float_sum
    data_sample instruction = Ok empty_error.
Proof. intros H. unfold process_structured_data. rewrite H. reflexivity. Qed.

Lemma process_unparsed (data_sample instruction : string) :
  blank data_sample = false ->
  parse_input_data json_loads data_sample = Ok [] ->
  process_structured_data json_loads repr_value set_list float_sum
    data_sample instruction = Ok parse_error.
Proof.
  intros Hb Hp. unfold process_structured_data. rewrite Hb, Hp. reflexivity.
Qed.

(** An exception of [json.loads] that the handler does not catch
    propagates. *)
Lemma process_raises (data_sample instruction : string) (e : exn) :
  blank data_sample = false ->
  json_loads data_sample = Raise e -> decode_error e = false ->
  process_structured_data json_loads repr_value set_list float_sum
    data_sample instruction = Raise e.
Proof.
  intros Hb H He. unfold process_structured_data, parse_input_data.
  rewrite Hb, H, He. reflexivity.
Qed.

Lemma process_non_dict (data_sample instruction : string) (x : value)
    (rest : list value) :
  blank data_sample = false ->
  json_loads data_sample = Ok (VList (x :: rest)) ->
  is_dict x = false ->
  process_structured_data json_loads repr_value set_list float_sum
    data_sample instruction = Raise AttributeError.
Proof.
  intros Hb Hj Hx. unfold process_structured_data, parse_input_data.
  rewrite Hb, Hj. destruct x; try discriminate Hx; reflexivity.
Qed.

(** Every document built from parsed data has the status "success". *)
Lemma process_parsed_status (data_sample instruction : string)
    (x : value) (rest : list value) (doc : value) :
  blank data_sample = false ->
  parse_input_data json_loads data_sample = Ok (x :: rest) ->
  process_structured_data json_loads repr_value set_list float_sum
    data_sample instruction = Ok doc ->
  field_of "status" doc = Some (VStr "success").
Proof.
  unfold process_structured_data. intros Hb Hp H. rewrite Hb, Hp in H.
  cbn [bind] in H.
  apply bind_ok in H. destruct H as [a [Ha H]].
  destruct (String.prefix _ _).
  { invert_ok. reflexivity. }
  destruct (_ =? "summarize").
  { invert_ok. reflexivity. }
  destruct (_ =? "format").
  { invert_ok. reflexivity. }
  cbv zeta in H.
  destruct (name_truthy (recommended_viz a) && _); destruct (recommended_viz a);
    invert_ok; reflexivity.
Qed.

Lemma process_status (data_sample instruction : string) (doc : value) :
  process_structured_data json_loads repr_value set_list float_sum
    data_sample instruction = Ok doc ->
  field_of "status" doc = Some (VStr "success") \/
  field_of "status" doc = Some (VStr "failed").
Proof.
  intros H. destruct (blank data_sample) eqn:Hb.
  { rewrite (process_blank _ _ Hb) in H. inversion H. right. reflexivity. }
  destruct (parse_input_data json_loads data_sample) as [[ | x rest] | e] eqn:Hp.
  - rewrite (process_unparsed _ _ Hb Hp) in H. inversion H. right. reflexivity.
  - left. eapply process_parsed_status; eauto.
  - unfold process_structured_data in H. rewrite Hb, Hp in H. discriminate H.
Qed.

(** The parse-error document is returned for the inputs without a parsed
    row, and for no other. *)
Lemma process_parse_error_iff (data_sample instruction : string) :
  blank data_sample = false ->
  (process_structured_data json_loads repr_value set_list float_sum
     data_sample instruction = Ok parse_error <->
   parse_input_data json_loads data_sample = Ok []).
Proof.
  intros Hb. split; [ | apply process_unparsed; exact Hb].
  intros H.
  destruct (parse_input_data json_loads data_sample) as [[ | x rest] | e] eqn:Hp.
  - reflexivity.
  - pose proof (process_parsed_status _ _ _ _ _ Hb Hp H) as Hs.
    discriminate Hs.
  - unfold process_structured_data in H. rewrite Hb, Hp in H. discriminate H.
Qed.

(** *** Datasets of records: the analysis returns, and the statistics can
    only raise [OverflowError] *)












End Facts.

(** C7, as amended: for a data sample that is empty or only whitespace,
    [process_structured_data] returns the document with status "failed" and
    the error "data_sample cannot be empty", which has no "hint" key.  For
    any other data sample it returns the document with status "failed", the
    error "Could not parse data_sample" and a "hint" key exactly when
    [parse_input_data] returns no row, that is when [json.loads] rejects
    the sample with [json.JSONDecodeError], or decodes it to an empty
    array, to an object that is neither an array nor a dictionary, or to a
    dictionary with "columns" and "rows" that give no row.  Neither
    document carries data: no fallback dataset is substituted.  An
    exception of [json.loads] that the handler does not catch is raised to
    the caller. *)
Theorem strict_error_envelopes :
  forall json_loads repr_value set_list float_sum data_sample instruction,
    (blank data_sample = true ->
     process_structured_data json_loads repr_value set_list float_sum
       data_sample instruction =
     Ok (VDict ["error" ~> VStr "data_sample cannot be empty";
                "status" ~> VStr "failed"])) /\
    (blank data_sample = false ->
     (process_structured_data json_loads repr_value set_list float_sum
        data_sample instruction =
      Ok (VDict ["error" ~> VStr "Could not parse data_sample";
                 "status" ~> VStr "failed";
                 "hint" ~>
                   VStr "Expected JSON array of objects or SQL result format"])
      <-> parse_input_data json_loads data_sample = Ok [])) /\
    (blank data_sample = false ->
     (parse_input_data json_loads data_sample = Ok [] <->
      (exists e, json_loads data_sample = Raise e /\ decode_error e = true) \/
      json_loads data_sample = Ok (VList []) \/
      (exists v, json_loads data_sample = Ok v /\ unparsed v = true))) /\
    (forall e,
       blank data_sample = false ->
       json_loads data_sample = Raise e -> decode_error e = false ->
       process_structured_data json_loads repr_value set_list float_sum
         data_sample instruction = Raise e).
Proof.
  intros json_loads repr_value set_list float_sum data_sample instruction.
  split; [apply process_blank | ].
  split; [apply process_parse_error_iff | ].
  split; [apply parse_empty_iff | ].
  intros e. apply process_raises.
Qed.

Lemma strict_error_envelopes_witness :
  process_structured_data decode_fails plain_repr first_seen plain_sum
    "   " "auto" = Ok empty_error /\
  process_structured_data decode_fails plain_repr first_seen plain_sum
    "{oops" "auto" = Ok parse_error.
Proof.
  split.
  - apply (proj1 (strict_error_envelopes decode_fails plain_repr first_seen
                    plain_sum "   " "auto")). reflexivity.
  - apply (proj1 (proj2 (strict_error_envelopes decode_fails plain_repr
                           first_seen plain_sum "{oops" "auto")));
      reflexivity.
Defined.

(** C7 as stated fails on the empty data sample: the document returned
    for it has no "hint" key. *)
Lemma empty_input_has_no_hint :
  process_structured_data decode_fails plain_repr first_seen plain_sum
    EmptyString "auto" = Ok empty_error /\
  field_of "hint" empty_error = None /\
  field_of "status" empty_error = Some (VStr "failed").
Proof. repeat split. Qed.




(** C2, as amended: every document returned by [process_structured_data]
    has a top-level "status" key whose value is "success" or "failed";
    [generate_vega_lite_spec] returns a document with "status": "failed"
    when the description is empty or only whitespace, and every other
    document it returns is a chart document without a top-level "status"
    key. *)
Theorem status_key_of_returned_documents :
  (forall json_loads repr_value set_list float_sum data_sample instruction doc,
      process_structured_data json_loads repr_value set_list float_sum
        data_sample instruction = Ok doc ->
      field_of "status" doc = Some (VStr "success") \/
      field_of "status" doc = Some (VStr "failed")) /\
  (forall json_loads chart_description data_sample doc,
      Enhanced.generate_vega_lite_spec json_loads chart_description data_sample
        = Ok doc ->
      field_of "status" doc =
        if blank chart_description then Some (VStr "failed") else None).
Proof.
  split.
  - exact process_status.
  - exact EnhancedFacts.generate_status.
Qed.

Lemma status_key_of_returned_documents_witness :
  (field_of "status" parse_error = Some (VStr "success") \/
   field_of "status" parse_error = Some (VStr "failed")) /\
  field_of "status"
    (Enhanced.single_bar_chart "bar chart" Enhanced.default_rows
       (Enhanced.mk_roles None (Some "category") ["value"]) "category" "value")
  = None.
Proof.
  split.
  - apply (proj1 status_key_of_returned_documents decode_fails plain_repr
             first_seen plain_sum "{oops" "auto"). reflexivity.
  - apply (proj2 status_key_of_returned_documents decode_fails "bar chart"
             EmptyString). reflexivity.
Defined.

(** C2 as stated fails on every chart that [generate_vega_lite_spec]
    returns: the document for the description "bar chart" and no data has
    no "status" key. *)
Lemma chart_document_has_no_status :
  Enhanced.generate_vega_lite_spec decode_fails "bar chart" EmptyString =
    Ok (Enhanced.single_bar_chart "bar chart" Enhanced.default_rows
          (Enhanced.mk_roles None (Some "category") ["value"])
          "category" "value") /\
  field_of "status"
    (Enhanced.single_bar_chart "bar chart" Enhanced.default_rows
       (Enhanced.mk_roles None (Some "category") ["value"]) "category" "value")
  = None.
Proof. split; reflexivity. Qed.

(** C1: the claim says that neither entry point ever raises.  In the code,
    [process_structured_data] calls [keys] on the first parsed element
    without testing that it is a dictionary (the sibling generator does
    test), so every non-empty array whose first element is not an object
    raises [AttributeError]; and the grouped-bar branch of
    [generate_vega_lite_spec] reads [row[value_field]] from every record,
    so a later record that lacks a measure raises [KeyError]. *)
Theorem unexpected_shapes_raise :
  (forall json_loads repr_value set_list float_sum data_sample instruction
          x rest,
      blank data_sample = false ->
      json_loads data_sample = Ok (VList (x :: rest)) ->
      is_dict x = false ->
      process_structured_data json_loads repr_value set_list float_sum
        data_sample instruction = Raise AttributeError) /\
  (forall json_loads data_sample,
      blank data_sample = false ->
      json_loads data_sample = Ok (VList ragged_rows) ->
      Enhanced.generate_vega_lite_spec json_loads ragged_description data_sample
      = Raise KeyError).
Proof.
  split.
  - exact process_non_dict.
  - exact EnhancedFacts.generate_ragged.
Qed.

Lemma unexpected_shapes_raise_witness :
  process_structured_data (decode_as (VList [VInt 1])) plain_repr first_seen
    plain_sum "[1]" "auto" = Raise AttributeError /\
  Enhanced.generate_vega_lite_spec (decode_as (VList ragged_rows))
    ragged_description ragged_text = Raise KeyError.
Proof.
  split.
  - apply (proj1 unexpected_shapes_raise (decode_as (VList [VInt 1])) plain_repr
             first_seen plain_sum "[1]" "auto" (VInt 1) []); reflexivity.
  - apply (proj2 unexpected_shapes_raise (decode_as (VList ragged_rows))
             ragged_text); reflexivity.
Defined.

End ProcessorFacts.

(* ================================================================== *)
(** * Further properties of generate_vega_lite_spec_enhanced.py         *)
(* ================================================================== *)

Module EnhancedMore.

Import Enhanced EnhancedFacts.

Lemma Ok_inj {A : Type} (a b : A) : Ok a = Ok b -> a = b.
Proof. intros H. injection H. auto. Qed.

(** ** Dictionaries: what is stored under a string key is what is read *)

Lemma key_eqb_str (s : string) (k : value) :
  key_eqb (VStr s) k = true -> k = VStr s.
Proof.
  destruct k; simpl; try discriminate.
  intros H. apply String.eqb_eq in H. subst. reflexivity.
Qed.

Lemma key_eqb_str_refl (s : string) : key_eqb (VStr s) (VStr s) = true.
Proof. simpl. apply String.eqb_refl. Qed.

Lemma dict_get_set_same (s : string) (v : value) (d : list (value * value)) :
  dict_get (VStr s) (dict_set (VStr s) v d) = Some v.
Proof.
  induction d as [ | [k w] r IH]; cbn [dict_set dict_get].
  - rewrite key_eqb_str_refl. reflexivity.
  - destruct (key_eqb (VStr s) k) eqn:E; cbn [dict_get]; rewrite E; auto.
Qed.

Lemma dict_get_set_other (s t : string) (v : value) (d : list (value * value)) :
  s <> t ->
  dict_get (VStr s) (dict_set (VStr t) v d) = dict_get (VStr s) d.
Proof.
  intros Hne. induction d as [ | [k w] r IH]; cbn [dict_set dict_get].
  - assert (E : key_eqb (VStr s) (VStr t) = false)
      by (simpl; apply String.eqb_neq; exact Hne).
    rewrite E. reflexivity.
  - destruct (key_eqb (VStr t) k) eqn:Et; cbn [dict_get].
    + apply key_eqb_str in Et. subst k.
      assert (E : key_eqb (VStr s) (VStr t) = false)
        by (simpl; apply String.eqb_neq; exact Hne).
      rewrite E. reflexivity.
    + destruct (key_eqb (VStr s) k); auto.
Qed.

(** ** The data and the fields that reach the classifier *)

Lemma mapM_as_field (l : list value) (fields : list string) :
  mapM as_field l = Ok fields -> l = map VStr fields.
Proof.
  revert fields. induction l as [ | k r IH]; simpl; intros fields H.
  - inversion H. reflexivity.
  - invert_ok. destruct k; try discriminate. simpl in *. inversion Ha; subst.
    f_equal. apply IH. assumption.
Qed.

Lemma mapM_as_field_strings (fields : list string) :
  mapM as_field (map VStr fields) = Ok fields.
Proof.
  induction fields as [ | f r IH]; simpl; [reflexivity | ].
  rewrite IH. reflexivity.
Qed.

Lemma field_names_shape (dv dv' : list value) (fields : list string) :
  dv <> [] ->
  field_names dv = Ok (dv', fields) ->
  exists d rest, dv' = VDict d :: rest /\ map fst d = map VStr fields /\
                 (2 <= length fields)%nat.
Proof.
  unfold field_names. intros Hne H.
  destruct dv as [ | x r]; [congruence | ].
  destruct (negb (truthy x) || negb (is_dict x) ||
            (length (keys_of x) <? 2)%nat) eqn:E.
  - inversion H; subst.
    exists ["category" ~> VStr "A"; "value" ~> VInt 28], [].
    repeat split. simpl. lia.
  - invert_ok.
    apply orb_false_iff in E. destruct E as [E1 E2].
    apply orb_false_iff in E1. destruct E1 as [_ E1].
    apply negb_false_iff in E1. apply Nat.ltb_ge in E2.
    destruct x; try discriminate E1. simpl in *.
    exists d, r. pose proof (mapM_length _ _ _ Ha) as Hl.
    apply mapM_as_field in Ha. rewrite length_map in Hl, E2.
    repeat split; [exact Ha | lia].
Qed.

Lemma prepare_shape json_loads data_sample dv fields :
  prepare json_loads data_sample = Ok (dv, fields) ->
  exists d rest, dv = VDict d :: rest /\ map fst d = map VStr fields /\
                 (2 <= length fields)%nat.
Proof.
  unfold prepare. intros H. apply bind_ok in H. destruct H as [dv0 [_ H]].
  eapply field_names_shape; [ | exact H].
  destruct dv0; discriminate.
Qed.

(** X2: a data sample that decodes to a non-empty array whose first
    element is an object with at least two (string) keys reaches the
    classifier unchanged, with the keys of that object, in order, as the
    field names. *)
Theorem valid_data_passes_through json_loads data_sample d rest fields :
  blank data_sample = false ->
  json_loads data_sample = Ok (VList (VDict d :: rest)) ->
  map fst d = map VStr fields ->
  (2 <= length fields)%nat ->
  prepare json_loads data_sample = Ok (VDict d :: rest, fields).
Proof.
  intros Hb Hj Hk Hl. unfold prepare, parse_data_values. rewrite Hb, Hj. simpl.
  assert (Hd : length d = length fields).
  { rewrite <- (length_map fst d), Hk, length_map. reflexivity. }
  destruct d as [ | kv d']; [simpl in Hd; lia | ].
  rewrite length_map. 
  assert (E : (length (kv :: d') <? 2)%nat = false) by (apply Nat.ltb_ge; lia).
  rewrite E. simpl negb. cbn [orb].
  rewrite Hk, mapM_as_field_strings. reflexivity.
Qed.

Lemma valid_data_passes_through_witness :
  prepare (decode_as (VList vodka_rows)) vodka_text =
  Ok (vodka_rows, ["region"; "sales_usd"; "volume"]).
Proof.
  unfold vodka_rows.
  apply (valid_data_passes_through (decode_as (VList vodka_rows)) vodka_text);
    [reflexivity | reflexivity | reflexivity | simpl; lia].
Defined.


Ltac within_tac :=
  repeat split; simpl; auto;
  try (intros ? Hin; inversion Hin; subst; auto; fail).

Lemma value_or_category_within fields st f fl n s :
  In f fields -> roles_within fields st ->
  roles_within fields (value_or_category st f fl n s).
Proof.
  intros Hf Hst. unfold value_or_category.
  destruct (n && _).
  - destruct Hst as [Ht [Hc Hv]].
    repeat split; simpl; auto. intros v Hin. apply in_app_or in Hin.
    destruct Hin as [Hin | [<- | []]]; auto.
  - destruct s; [ | exact Hst].
    destruct (category_field st) eqn:E; [exact Hst | ].
    destruct Hst as [Ht [Hc Hv]].
    destruct (any_in category_keywords fl); within_tac.
Qed.

Lemma with_time_within fields st f :
  In f fields -> roles_within fields st -> roles_within fields (with_time st f).
Proof.
  intros Hf [Ht [Hc Hv]]. repeat split; simpl; auto.
  intros t Ht'. inversion Ht'; subst; auto.
Qed.

Lemma classify_field_within fields dv st f :
  In f fields -> roles_within fields st ->
  roles_within fields (classify_field dv st f).
Proof.
  intros Hf Hst. unfold classify_field.
  destruct (take_sample dv f) as [[sv n] s].
  destruct (any_in time_keywords (lower f)).
  - destruct (n || s); [apply with_time_within | apply value_or_category_within]; auto.
  - destruct (s && truthy sv && re_year (text sv)).
    + destruct (time_field st); [apply value_or_category_within | apply with_time_within]; auto.
    + apply value_or_category_within; auto.
Qed.

Lemma main_pass_within dv fields :
  roles_within fields (fold_left (classify_field dv) fields no_roles).
Proof.
  assert (H : forall l st, incl l fields -> roles_within fields st ->
                roles_within fields (fold_left (classify_field dv) l st)).
  { induction l as [ | f r IH]; intros st Hincl Hst; simpl; [exact Hst | ].
    apply IH.
    - intros x Hx. apply Hincl. right. exact Hx.
    - apply classify_field_within; [apply Hincl; left; reflexivity | exact Hst]. }
  apply H; [apply incl_refl | ].
  repeat split; simpl; intros; try discriminate; contradiction.
Qed.

Lemma first_numeric_in dv l f : first_numeric dv l = Some f -> In f l.
Proof.
  induction l as [ | x r IH]; simpl; [discriminate | ].
  destruct (try_except _ _); intros H; [inversion H; auto | auto].
Qed.

Lemma first_non_numeric_in dv l f : first_non_numeric dv l = Some f -> In f l.
Proof.
  induction l as [ | x r IH]; simpl; [discriminate | ].
  destruct (try_except _ _); intros H; [inversion H; auto | auto].
Qed.

Lemma first_field_in l f : first_field l = Ok f -> In f l.
Proof. destruct l; simpl; intros H; inversion H; auto. Qed.

Lemma last_field_in l f : last_field l = Ok f -> In f l.
Proof. unfold last_field. intros H. apply first_field_in in H. apply in_rev. exact H. Qed.

Lemma detect_within fields dv st :
  detect_field_types fields dv = Ok st -> roles_within fields st.
Proof.
  unfold detect_field_types. intros H.
  apply bind_ok in H. destruct H as [st1 [H1 H2]].
  pose proof (main_pass_within dv fields) as Hm.
  assert (Hst1 : roles_within fields st1).
  { unfold value_fallback in H1.
    destruct Hm as [Ht [Hc Hv]].
    destruct (value_fields (fold_left (classify_field dv) fields no_roles)) eqn:E.
    - destruct (first_numeric dv (rev fields)) eqn:Ef.
      + inversion H1; subst. repeat split; simpl; auto.
        intros v [<- | []]. apply first_numeric_in in Ef. apply in_rev. exact Ef.
      + invert_ok. repeat split; simpl; auto.
        intros v [<- | []]. apply last_field_in. assumption.
    - inversion H1; subst. repeat split; auto. rewrite E. exact Hv. }
  unfold category_fallback in H2. destruct Hst1 as [Ht [Hc Hv]].
  destruct (negb (name_truthy (category_field st1)) && _); [ | inversion H2; subst; repeat split; auto].
  destruct (first_non_numeric dv fields) as [g | ] eqn:Eg.
  - apply first_non_numeric_in in Eg.
    destruct (negb (name_truthy (category_field (with_category st1 g)))).
    + invert_ok. repeat split; simpl; auto.
      intros c Hc'. inversion Hc'; subst. apply first_field_in. assumption.
    + inversion H2; subst. repeat split; simpl; auto.
      intros c Hc'. inversion Hc'; subst. exact Eg.
  - destruct (negb (name_truthy (category_field st1))).
    + invert_ok. repeat split; simpl; auto.
      intros c Hc'. inversion Hc'; subst. apply first_field_in. assumption.
    + inversion H2; subst. repeat split; auto.
Qed.

Lemma category_fallback_axis fields dv st1 st :
  category_fallback fields dv st1 = Ok st ->
  name_truthy (time_field st) = true \/ exists c, category_field st = Some c.
Proof.
  unfold category_fallback. intros H.
  destruct (name_truthy (category_field st1)) eqn:Ec.
  - simpl in H. inversion H; subst. right.
    destruct (category_field st); [eauto | discriminate].
  - destruct (name_truthy (time_field st1)) eqn:Et.
    + simpl in H. inversion H; subst. auto.
    + simpl in H.
      destruct (first_non_numeric dv fields); simpl in H;
        match type of H with
        | (if ?b then _ else _) = _ => destruct b eqn:Eb
        end; invert_ok; simpl; eauto.
      rewrite Ec in Eb. discriminate Eb.
Qed.

(** X4: after the classification there is always a field for the x axis:
    the time field is a non-empty name, or a category field is assigned
    (the fallback assigns the first non-numeric field, else the first
    field). *)
Theorem axis_always_assigned fields dv st :
  detect_field_types fields dv = Ok st ->
  name_truthy (time_field st) = true \/ exists c, category_field st = Some c.
Proof.
  unfold detect_field_types. intros H.
  apply bind_ok in H. destruct H as [st1 [H1 H2]].
  eapply category_fallback_axis; eauto.
Qed.

Lemma axis_always_assigned_witness :
  name_truthy (time_field (mk_roles None (Some "region") ["sales_usd"; "volume"]))
    = true \/
  exists c,
    category_field (mk_roles None (Some "region") ["sales_usd"; "volume"]) = Some c.
Proof.
  apply (axis_always_assigned ["region"; "sales_usd"; "volume"] vodka_rows).
  reflexivity.
Defined.


Lemma value_or_category_time st f fl n s :
  time_field (value_or_category st f fl n s) = time_field st.
Proof.
  unfold value_or_category.
  destruct (n && _); [reflexivity | ].
  destruct s; [ | reflexivity].
  destruct (category_field st); [reflexivity | ].
  destruct (any_in category_keywords fl); reflexivity.
Qed.

Lemma take_sample_year_like dv f :
  (let '(sv, n, s) := take_sample dv f in s && truthy sv && re_year (text sv))
  = year_like dv f.
Proof.
  unfold take_sample, year_like.
  destruct (first_row_item dv f) as [v | e]; [ | reflexivity].
  destruct v; reflexivity.
Qed.

Lemma classify_plain_time dv st f :
  any_in time_keywords (lower f) = false ->
  time_field (classify_field dv st f) =
    match time_field st with
    | Some t => Some t
    | None => if year_like dv f then Some f else None
    end.
Proof.
  intros Hk. unfold classify_field.
  pose proof (take_sample_year_like dv f) as Hy.
  destruct (take_sample dv f) as [[sv n] s]. rewrite Hk, Hy.
  destruct (year_like dv f).
  - destruct (time_field st) eqn:E.
    + rewrite value_or_category_time. exact E.
    + reflexivity.
  - rewrite value_or_category_time. destruct (time_field st); reflexivity.
Qed.

Lemma main_pass_plain_time dv fields :
  (forall f, In f fields -> any_in time_keywords (lower f) = false) ->
  time_field (fold_left (classify_field dv) fields no_roles) =
  find (year_like dv) fields.
Proof.
  assert (H : forall l st,
            (forall f, In f l -> any_in time_keywords (lower f) = false) ->
            time_field (fold_left (classify_field dv) l st) =
            match time_field st with
            | Some t => Some t
            | None => find (year_like dv) l
            end).
  { induction l as [ | f r IH]; intros st Hl; simpl.
    - destruct (time_field st); reflexivity.
    - rewrite IH by (intros g Hg; apply Hl; right; exact Hg).
      rewrite classify_plain_time by (apply Hl; left; reflexivity).
      destruct (time_field st); [reflexivity | ].
      destruct (year_like dv f); reflexivity. }
  intros Hl. rewrite (H fields no_roles Hl). reflexivity.
Qed.

Lemma fallbacks_keep_time fields dv st0 st :
  (st1 <- value_fallback fields dv st0 ;; category_fallback fields dv st1) = Ok st ->
  time_field st = time_field st0.
Proof.
  intros H. apply bind_ok in H. destruct H as [st1 [H1 H2]].
  assert (E1 : time_field st1 = time_field st0).
  { unfold value_fallback in H1.
    destruct (value_fields st0); [ | inversion H1; reflexivity].
    destruct (first_numeric dv (rev fields)); invert_ok; reflexivity. }
  rewrite <- E1. unfold category_fallback in H2.
  destruct (negb _ && negb _); [ | inversion H2; reflexivity].
  destruct (first_non_numeric dv fields); simpl in H2;
    match type of H2 with
    | (if ?b then _ else _) = _ => destruct b
    end; invert_ok; reflexivity.
Qed.

(** X5: when no field name contains a time keyword, the time field is the
    first field, in field order, whose first-record sample is a non-empty
    string starting with four digits ([None] when there is none): in the
    year-pattern branch the first match wins. *)
Theorem year_pattern_first_wins dv fields st :
  (forall f, In f fields -> any_in time_keywords (lower f) = false) ->
  detect_field_types fields dv = Ok st ->
  time_field st = find (year_like dv) fields.
Proof.
  intros Hl H. unfold detect_field_types in H.
  rewrite (fallbacks_keep_time _ _ _ _ H). apply main_pass_plain_time. exact Hl.
Qed.

Lemma year_pattern_first_wins_witness :
  time_field (mk_roles (Some "period") (Some "label") ["amount"]) =
  find (year_like period_rows) ["period"; "label"; "amount"].
Proof.
  apply (year_pattern_first_wins period_rows ["period"; "label"; "amount"]).
  - intros f [<- | [<- | [<- | []]]]; reflexivity.
  - reflexivity.
Defined.


(** ** What the scale comparison can raise *)

(** X6: [have_different_scales] returns or raises [OverflowError], and
    nothing else.  An exception while the range of a measure is computed
    is swallowed, the measure then has no entry; the two divisions are
    outside every [try], their divisors are tested positive, and they
    raise [OverflowError] when a quotient of [int]s, or an [int] next to a
    [float], is out of the range of a float.  With fewer than two computed
    ranges the answer is [(False, {})]; otherwise the computed ranges are
    returned with the flag.  On [[{"a": 0, "b": 1}, {"a": 10 ** 400,
    "b": 2}]] the call raises.  The flag depends on the order of the
    measures: on [[{"a": 0.0, "b": 0}, {"a": 0.29, "b": 29}]] it is true
    for the measures a, b (the reciprocal of [0.29 / 29] is
    100.00000000000001) and false for b, a ([29 / 0.29] is 100.0). *)
Theorem scales_return_or_overflow :
  (forall value_fields data_values,
      match have_different_scales value_fields data_values with
      | Ok (flag, ranges) =>
          if (length (compute_ranges value_fields data_values) <? 2)%nat
          then flag = false /\ ranges = []
          else ranges = compute_ranges value_fields data_values
      | Raise e =>
          e = OverflowError /\
          (2 <= length (compute_ranges value_fields data_values))%nat
      end) /\
  have_different_scales ["a"; "b"] huge_rows = Raise OverflowError /\
  (exists ranges,
      have_different_scales ["a"; "b"] order_rows = Ok (true, ranges)) /\
  (exists ranges,
      have_different_scales ["b"; "a"] order_rows = Ok (false, ranges)).
Proof.
  split; [ | split; [vm_compute; reflexivity | ];
             split; eexists; vm_compute; reflexivity].
  intros vfs dv. unfold have_different_scales.
  pose proof (compute_ranges_length vfs dv) as Hlen.
  destruct (length vfs <? 2)%nat eqn:E1.
  - apply Nat.ltb_lt in E1.
    assert (E2 : (length (compute_ranges vfs dv) <? 2)%nat = true)
      by (apply Nat.ltb_lt; lia).
    rewrite E2. auto.
  - destruct (length (compute_ranges vfs dv) <? 2)%nat eqn:E2; [auto | ].
    destruct (compare_scales_outcome (compute_ranges vfs dv) (VInt 1)
                (compute_ranges_numbers vfs dv)) as [[m Hm] | Hm];
      rewrite Hm; cbn [bind]; [reflexivity | ].
    apply Nat.ltb_ge in E2. auto.
Qed.

(** ** Grouped bars and the embedded data *)

Lemma transformed_row_fields x row vf r :
  transformed_row x row vf = Ok r ->
  exists v, getitem row vf = Ok v /\
            field_of "metric" r = Some (VStr (humanize vf)) /\
            field_of "value" r = Some v.
Proof.
  unfold transformed_row. intros H.
  apply bind_ok in H. destruct H as [a [Ha H]].
  apply bind_ok in H. destruct H as [v [Hv H]].
  apply Ok_inj in H. subst r. exists v. split; [assumption | ].
  assert (E : dict_update [] [x ~> a; "metric" ~> VStr (humanize vf); "value" ~> v]
              = dict_set (VStr "value") v
                  (dict_set (VStr "metric") (VStr (humanize vf))
                     (dict_set (VStr x) a []))) by reflexivity.
  rewrite E. unfold field_of. split.
  - rewrite dict_get_set_other by discriminate. apply dict_get_set_same.
  - apply dict_get_set_same.
Qed.

Lemma mapM_in {A B} (f : A -> result B) l l' y :
  mapM f l = Ok l' -> In y l' -> exists x, In x l /\ f x = Ok y.
Proof.
  revert l'. induction l as [ | x r IH]; simpl; intros l' H Hy.
  - inversion H; subst. contradiction.
  - invert_ok. destruct Hy as [<- | Hy].
    + exists x. auto.
    + destruct (IH _ Ha0 Hy) as [x' [Hx' Hf]]. exists x'. auto.
Qed.


(** X8: when the reshaping of the grouped-bar branch returns, it yields
    one record per input record and measure (rows times measures), and each
    record carries the humanized measure name under "metric" and the value
    of that measure in its input record under "value", whatever the x
    field is called. *)
Theorem transformed_data_shape x vfs dv rows :
  transformed_data x vfs dv = Ok rows ->
  length rows = (length dv * length vfs)%nat /\
  forall r, In r rows ->
    exists row vf v, In row dv /\ In vf vfs /\ getitem row vf = Ok v /\
      field_of "metric" r = Some (VStr (humanize vf)) /\
      field_of "value" r = Some v.
Proof.
  unfold transformed_data. intros H. apply bind_ok in H.
  destruct H as [groups [Hg H]]. inversion H; subst; clear H. split.
  - revert groups Hg. induction dv as [ | row rest IH]; simpl; intros groups Hg.
    + inversion Hg. reflexivity.
    + invert_ok. simpl. rewrite length_app, (IH _ Ha0).
      apply mapM_length in Ha. lia.
  - intros r Hr. apply in_concat in Hr. destruct Hr as [g [Hgin Hrg]].
    destruct (mapM_in _ _ _ _ Hg Hgin) as [row [Hrow Hm]].
    destruct (mapM_in _ _ _ _ Hm Hrg) as [vf [Hvf Ht]].
    destruct (transformed_row_fields _ _ _ _ Ht) as [v [Hv [H1 H2]]].
    exists row, vf, v. auto.
Qed.

Lemma transformed_data_shape_witness :
  length vodka_long = 4%nat.
Proof.
  apply (proj1 (transformed_data_shape "region" ["sales_usd"; "volume"]
                  vodka_rows vodka_long eq_refl)).
Defined.



Lemma line_chart_data desc dv fields st pv doc :
  line_chart desc dv fields st pv = Ok doc -> embedded_data doc = Some (VList dv).
Proof. unfold line_chart. intros H. invert_ok; reflexivity. Qed.

Lemma bar_family_data desc dl dv fields st pv ds doc :
  bar_family desc dl dv fields st pv ds = Ok doc ->
  embedded_data doc = Some (VList dv) \/
  exists x rows, transformed_data x (value_fields st) dv = Ok rows /\
                 embedded_data doc = Some (VList rows).
Proof.
  unfold bar_family, grouped_bars_chart. intros H.
  invert_ok; try (left; reflexivity).
  all: right; eexists; eexists; split; [eassumption | reflexivity].
Qed.

Lemma select_chart_data desc dv fields st doc :
  select_chart desc dv fields st = Ok doc ->
  embedded_data doc = Some (VList dv) \/
  exists x rows, transformed_data x (value_fields st) dv = Ok rows /\
                 embedded_data doc = Some (VList rows).
Proof.
  unfold select_chart. intros H.
  apply bind_ok in H. destruct H as [pv [Hpv H]].
  apply bind_ok in H. destruct H as [scales [Hsc H]].
  destruct (any_in _ _); [left; eapply line_chart_data; eauto | ].
  destruct (any_in _ _); [eapply bar_family_data; eauto | ].
  destruct (any_in _ _); [inversion H; left; reflexivity | ].
  destruct (any_in _ _); invert_ok; left; reflexivity.
Qed.

(** ** Layouts and totality *)

Lemma line_chart_layer desc dv fields st pv doc :
  line_chart desc dv fields st pv = Ok doc -> field_of "layer" doc = None.
Proof. unfold line_chart. intros H. invert_ok; reflexivity. Qed.

Lemma bar_family_layout desc dl dv fields st pv ds doc :
  bar_family desc dl dv fields st pv ds = Ok doc ->
  let dual := negb (is_year_comparison dl st) && wants_multi_metric dl st &&
              ds && (length (value_fields st) =? 2)%nat in
  (dual = true ->
     exists x v0 v1, value_fields st = [v0; v1] /\
                     doc = dual_axis_chart desc dv st x v0 v1) /\
  (dual = false -> field_of "layer" doc = None).
Proof.
  unfold bar_family. intros H.
  apply bind_ok in H. destruct H as [x [Hx H]].
  fold (is_year_comparison dl st) in H. fold (wants_multi_metric dl st) in H.
  cbv zeta.
  destruct (is_year_comparison dl st) eqn:Ey.
  - cbn [negb andb]. split; [discriminate | intros _].
    destruct (time_field st) eqn:Et.
    + invert_ok; reflexivity.
    + unfold is_year_comparison in Ey. rewrite Et in Ey. discriminate Ey.
  - cbn [negb andb].
    assert (H' : (if wants_multi_metric dl st
                  then match ds, value_fields st with
                       | true, [v0; v1] => Ok (dual_axis_chart desc dv st x v0 v1)
                       | _, _ =>
                           if ds || (2 <? length (value_fields st))%nat
                           then Ok (subplots_chart desc dv st x)
                           else grouped_bars_chart desc dv st x
                       end
                  else Ok (single_bar_chart desc dv st x pv)) = Ok doc).
    { destruct (time_field st); exact H. }
    clear H. destruct (wants_multi_metric dl st).
    + destruct ds.
      * destruct (value_fields st) as [ | v0 [ | v1 [ | v2 r]]]; cbn [length Nat.eqb andb];
          cbn [orb] in H'.
        -- split; [discriminate | intros _]. apply Ok_inj in H'. subst. reflexivity.
        -- split; [discriminate | intros _]. apply Ok_inj in H'. subst. reflexivity.
        -- split; [intros _ | discriminate]. apply Ok_inj in H'. subst. eauto.
        -- split; [discriminate | intros _]. apply Ok_inj in H'. subst. reflexivity.
      * cbn [andb]. split; [discriminate | intros _].
        cbn [orb] in H'.
        assert (H'' : (if (2 <? length (value_fields st))%nat
                       then Ok (subplots_chart desc dv st x)
                       else grouped_bars_chart desc dv st x) = Ok doc).
        { destruct (value_fields st) as [ | v0 [ | v1 [ | v2 r]]]; exact H'. }
        clear H'. destruct (2 <? length (value_fields st))%nat.
        -- apply Ok_inj in H''. subst. reflexivity.
        -- unfold grouped_bars_chart in H''. apply bind_ok in H''.
           destruct H'' as [rows [Hr H'']]. apply Ok_inj in H''. subst. reflexivity.
    + cbn [andb]. split; [discriminate | intros _].
      apply Ok_inj in H'. subst. reflexivity.
Qed.

Lemma select_chart_layout desc dv fields st doc :
  select_chart desc dv fields st = Ok doc ->
  (dual_axis_case desc dv st = true ->
     exists x v0 v1, value_fields st = [v0; v1] /\
                     doc = dual_axis_chart desc dv st x v0 v1) /\
  (dual_axis_case desc dv st = false -> field_of "layer" doc = None).
Proof.
  unfold select_chart, dual_axis_case. intros H.
  apply bind_ok in H. destruct H as [pv [Hpv H]].
  apply bind_ok in H. destruct H as [[ds ranges] [Hsc H]].
  rewrite Hsc. cbv zeta. cbn [fst] in H.
  destruct (any_in ["line"; "trend"; "time series"] (lower desc)).
  { cbn [negb andb]. split; [discriminate | intros _].
    eapply line_chart_layer; eauto. }
  destruct (any_in ["bar"; "column"; "histogram"] (lower desc)).
  { cbn [negb andb]. pose proof (bar_family_layout _ _ _ _ _ _ _ _ H) as Hl.
    cbv zeta in Hl. rewrite <- !andb_assoc in *. exact Hl. }
  cbn [negb andb]. split; [discriminate | intros _].
  destruct (any_in _ _); [apply Ok_inj in H; subst; reflexivity | ].
  destruct (any_in _ _); invert_ok; reflexivity.
Qed.











Lemma generate_ok_inv json_loads desc data_sample doc :
  blank desc = false ->
  generate_vega_lite_spec json_loads desc data_sample = Ok doc ->
  exists dv fields st,
    prepare json_loads data_sample = Ok (dv, fields) /\
    detect_field_types fields dv = Ok st /\
    select_chart desc dv fields st = Ok doc.
Proof.
  intros Hb H. unfold generate_vega_lite_spec in H. rewrite Hb in H.
  apply bind_ok in H. destruct H as [[dv fields] [Hp H]].
  apply bind_ok in H. destruct H as [st [Hst H]].
  exists dv, fields, st. auto.
Qed.

(** X1: whatever the data sample is, the data that reaches the classifier
    starts with a dictionary whose keys, in order, are the field names, and
    there are at least two fields (so the scatter branch never falls back
    to its placeholder names). *)
Theorem prepared_data_shape :
  forall json_loads data_sample data_values fields,
    prepare json_loads data_sample = Ok (data_values, fields) ->
    exists d rest,
      data_values = VDict d :: rest /\ map fst d = map VStr fields /\
      (2 <= length fields)%nat.
Proof. exact prepare_shape. Qed.

Lemma prepared_data_shape_witness :
  exists d rest,
    vodka_rows = VDict d :: rest /\
    map fst d = map VStr ["region"; "sales_usd"; "volume"] /\
    (2 <= length ["region"; "sales_usd"; "volume"])%nat.
Proof.
  exact (prepared_data_shape (decode_as (VList vodka_rows)) vodka_text
           vodka_rows ["region"; "sales_usd"; "volume"] eq_refl).
Defined.

(** X3: every role that [detect_field_types] returns names a field of the
    field list: the time field, the category field and every measure,
    fallbacks included. *)
Theorem roles_name_fields :
  forall fields data_values st,
    detect_field_types fields data_values = Ok st ->
    roles_within fields st.
Proof. exact detect_within. Qed.

Lemma roles_name_fields_witness :
  roles_within ["region"; "sales_usd"; "volume"]
    (mk_roles None (Some "region") ["sales_usd"; "volume"]).
Proof.
  exact (roles_name_fields ["region"; "sales_usd"; "volume"] vodka_rows
           (mk_roles None (Some "region") ["sales_usd"; "volume"]) eq_refl).
Defined.

(** X7: for a description that passes validation, the layered dual-axis
    document is returned in exactly one situation: the description has a
    bar word and no line word, there is no year comparison, it has a
    multi-metric word, there are exactly two measures and their scales
    diverge.  In every other situation the returned document has no
    "layer" key. *)
Theorem dual_axis_exactly :
  forall json_loads chart_description data_sample doc,
    blank chart_description = false ->
    generate_vega_lite_spec json_loads chart_description data_sample = Ok doc ->
    exists data_values fields st,
      prepare json_loads data_sample = Ok (data_values, fields) /\
      detect_field_types fields data_values = Ok st /\
      (dual_axis_case chart_description data_values st = true ->
       exists x v0 v1,
         value_fields st = [v0; v1] /\
         doc = dual_axis_chart chart_description data_values st x v0 v1) /\
      (dual_axis_case chart_description data_values st = false ->
       field_of "layer" doc = None).
Proof.
  intros json_loads desc data_sample doc Hb H.
  destruct (generate_ok_inv _ _ _ _ Hb H) as [dv [fields [st [Hp [Hst Hs]]]]].
  exists dv, fields, st. split; [exact Hp | ]. split; [exact Hst | ].
  exact (select_chart_layout _ _ _ _ _ Hs).
Qed.

Lemma dual_axis_exactly_witness :
  exists data_values fields st,
    prepare (decode_as (VList vodka_rows)) vodka_text = Ok (data_values, fields) /\
    detect_field_types fields data_values = Ok st /\
    (dual_axis_case bar_compare_description data_values st = true ->
     exists x v0 v1,
       value_fields st = [v0; v1] /\
       dual_axis_chart bar_compare_description vodka_rows
         (mk_roles None (Some "region") ["sales_usd"; "volume"])
         "region" "sales_usd" "volume" =
       dual_axis_chart bar_compare_description data_values st x v0 v1) /\
    (dual_axis_case bar_compare_description data_values st = false ->
     field_of "layer"
       (dual_axis_chart bar_compare_description vodka_rows
          (mk_roles None (Some "region") ["sales_usd"; "volume"])
          "region" "sales_usd" "volume") = None).
Proof.
  apply (dual_axis_exactly (decode_as (VList vodka_rows))
           bar_compare_description vodka_text); reflexivity.
Defined.

(** X9: the dataset embedded in a returned chart is the prepared data
    itself, or, in the grouped-bar layout only, its reshaping into one
    record per input record and measure. *)
Theorem embedded_data_origin :
  forall json_loads chart_description data_sample doc,
    blank chart_description = false ->
    generate_vega_lite_spec json_loads chart_description data_sample = Ok doc ->
    exists data_values fields st,
      prepare json_loads data_sample = Ok (data_values, fields) /\
      detect_field_types fields data_values = Ok st /\
      (embedded_data doc = Some (VList data_values) \/
       exists x rows,
         transformed_data x (value_fields st) data_values = Ok rows /\
         embedded_data doc = Some (VList rows)).
Proof.
  intros json_loads desc data_sample doc Hb H.
  destruct (generate_ok_inv _ _ _ _ Hb H) as [dv [fields [st [Hp [Hst Hs]]]]].
  exists dv, fields, st. split; [exact Hp | ]. split; [exact Hst | ].
  exact (select_chart_data _ _ _ _ _ Hs).
Qed.

Lemma embedded_data_origin_witness :
  exists data_values fields st,
    prepare (decode_as (VList vodka_rows)) vodka_text = Ok (data_values, fields) /\
    detect_field_types fields data_values = Ok st /\
    (embedded_data
       (default_bar_chart vodka_description vodka_rows "region" "sales_usd")
     = Some (VList data_values) \/
     exists x rows,
       transformed_data x (value_fields st) data_values = Ok rows /\
       embedded_data
         (default_bar_chart vodka_description vodka_rows "region" "sales_usd")
       = Some (VList rows)).
Proof.
  apply (embedded_data_origin (decode_as (VList vodka_rows)) vodka_description
           vodka_text); reflexivity.
Defined.

End EnhancedMore.


(* ================================================================== *)
(** * Further properties of process_structured_data.py                  *)
(* ================================================================== *)

Module ProcessorMore.

Import EnhancedFacts EnhancedMore.
Import Processor ProcessorFacts.

(** ** The columns and rows form *)

Lemma dict_set_fresh (s : string) (v : value) (d : list (value * value)) :
  (forall k, In k (map fst d) -> key_eqb (VStr s) k = false) ->
  dict_set (VStr s) v d = d ++ [(VStr s, v)].
Proof.
  induction d as [ | [k w] r IH]; cbn [dict_set map fst]; intros H; [reflexivity | ].
  rewrite (H k (or_introl eq_refl)). cbn [app]. f_equal.
  apply IH. intros k' Hk'. apply H. right. exact Hk'.
Qed.

Lemma dict_of_pairs_fresh (columns : list string) (row : list value)
    (d : list (value * value)) :
  NoDup columns ->
  (forall c k, In c columns -> In k (map fst d) -> key_eqb (VStr c) k = false) ->
  dict_of_pairs (combine (map VStr columns) row) d =
  Some (d ++ combine (map VStr columns) row).
Proof.
  revert row d. induction columns as [ | c cs IH]; intros row d Hnd Hfresh.
  - simpl. rewrite app_nil_r. reflexivity.
  - destruct row as [ | x xs]; [simpl; rewrite app_nil_r; reflexivity | ].
    cbn [map combine dict_of_pairs hashable].
    rewrite dict_set_fresh
      by (intros k Hk; apply Hfresh; [left; reflexivity | exact Hk]).
    inversion Hnd as [ | c' cs' Hnotin Hnd']; subst.
    rewrite IH; [rewrite <- app_assoc; reflexivity | exact Hnd' | ].
    intros c' k Hc' Hk. rewrite map_app, in_app_iff in Hk.
    destruct Hk as [Hk | [<- | []]].
    + apply Hfresh; [right; exact Hc' | exact Hk].
    + simpl. apply String.eqb_neq. intros ->. contradiction.
Qed.

Lemma zip_row_strings (columns : list string) (row : list value) :
  NoDup columns ->
  zip_row (VList (map VStr columns)) (VList row) =
  Some (VDict (combine (map VStr columns) row)).
Proof.
  intros Hnd. unfold zip_row. cbn [iter_value and_then].
  rewrite dict_of_pairs_fresh; [reflexivity | exact Hnd | ].
  intros c k _ [].
Qed.

Lemma sql_rows_zip (columns : list string) (rows : list (list value)) :
  NoDup columns ->
  sql_rows (VList (map VStr columns)) (VList (map VList rows)) =
  Some (map (fun row => VDict (combine (map VStr columns) row)) rows).
Proof.
  intros Hnd. unfold sql_rows. cbn [iter_value and_then].
  induction rows as [ | row rest IH]; [reflexivity | ].
  cbn [map map_option]. rewrite zip_row_strings by exact Hnd.
  cbn [and_then]. rewrite IH. reflexivity.
Qed.

(** X11: a data sample that decodes to an object with a "columns" list of
    distinct names and a "rows" list of lists is parsed into one record per
    row, pairing the columns with the row's values position by position
    (up to the shorter of the two). *)
Theorem parse_sql_format json_loads data_sample d columns rows :
  blank data_sample = false ->
  json_loads data_sample = Ok (VDict d) ->
  dict_get (VStr "columns") d = Some (VList (map VStr columns)) ->
  dict_get (VStr "rows") d = Some (VList (map VList rows)) ->
  NoDup columns ->
  parse_input_data json_loads data_sample =
  Ok (map (fun row => VDict (combine (map VStr columns) row)) rows).
Proof.
  intros Hb Hj Hc Hr Hnd. unfold parse_input_data. rewrite Hb, Hj.
  unfold dict_has. rewrite Hc, Hr. cbn [matched andb and_then].
  rewrite sql_rows_zip by exact Hnd. reflexivity.
Qed.

Lemma parse_sql_format_witness :
  parse_input_data (decode_as (VDict sql_object)) sql_text =
  Ok [VDict ["Category" ~> VStr "A"; "Value" ~> VInt 100];
      VDict ["Category" ~> VStr "B"; "Value" ~> VInt 150]].
Proof.
  apply (parse_sql_format (decode_as (VDict sql_object)) sql_text sql_object
           sql_columns sql_rows_sample); try reflexivity.
  repeat constructor; simpl; intuition discriminate.
Defined.


Lemma prefix_app (p s : string) :
  String.prefix p s = true -> exists t, s = (p ++ t)%string.
Proof.
  revert s. induction p as [ | a p IH]; intros s H.
  - exists s. reflexivity.
  - destruct s as [ | b s]; [discriminate H | ]. simpl in H.
    destruct (ascii_dec a b) as [-> | ]; [ | discriminate H].
    destruct (IH s H) as [t Ht]. exists t. simpl. rewrite Ht. reflexivity.
Qed.

(** X12: under the guard [startswith("chart:")] the subscript [[1]] of the
    split is always in range: the chart type is exactly the text that
    follows the prefix. *)
Theorem chart_prefix_split (instruction_lower : string) :
  String.prefix "chart:" instruction_lower = true ->
  exists chart_type,
    instruction_lower = ("chart:" ++ chart_type)%string /\
    after_colon instruction_lower = Ok chart_type.
Proof.
  intros H. destruct (prefix_app _ _ H) as [t Ht]. exists t.
  split; [exact Ht | ]. rewrite Ht. reflexivity.
Qed.

Lemma chart_prefix_split_witness :
  exists chart_type,
    "chart:pie" = ("chart:" ++ chart_type)%string /\
    after_colon "chart:pie" = Ok chart_type.
Proof. exact (chart_prefix_split "chart:pie" eq_refl). Defined.


(** ** The analysis *)

Section Analysis.
Variable repr_value : value -> string.

Lemma by_sample_numeric data st f :
  l_numeric (by_sample repr_value data st f) =
  l_numeric st ++ (if sampled is_number data f then [f] else []).
Proof.
  unfold by_sample, sampled.
  destruct (first_row_item data f) as [v | e]; [ | rewrite app_nil_r; reflexivity].
  destruct (is_number v) eqn:En; [reflexivity | ].
  rewrite app_nil_r.
  destruct (is_str v); [ | reflexivity].
  destruct (re_date_like (py_str repr_value v)).
  - destruct (negb _); reflexivity.
  - destruct (few_values repr_value data f) as [[ | ] | e];
      [ | reflexivity | reflexivity].
    destruct (negb _); reflexivity.
Qed.

Lemma by_sample_text data st f :
  l_text (by_sample repr_value data st f) =
  l_text st ++ (if sampled plain_text data f then [f] else []).
Proof.
  unfold by_sample, sampled.
  destruct (first_row_item data f) as [v | e]; [ | rewrite app_nil_r; reflexivity].
  destruct v; cbn [is_number is_str plain_text py_str];
    try (rewrite app_nil_r; reflexivity).
  destruct (re_date_like s); cbn [negb].
  - rewrite app_nil_r. destruct (negb _); reflexivity.
  - destruct (few_values repr_value data f) as [[ | ] | e];
      [ | reflexivity | reflexivity].
    destruct (negb _); reflexivity.
Qed.

Lemma name_in_iff f l : name_in f l = true <-> In f l.
Proof.
  unfold name_in. rewrite existsb_exists. split.
  - intros [x [Hx E]]. apply String.eqb_eq in E. subst. exact Hx.
  - intros H. exists f. split; [exact H | apply String.eqb_refl].
Qed.

Lemma by_sample_date data st f g :
  In g (l_date (by_sample repr_value data st f)) <->
  In g (l_date st) \/ (g = f /\ sampled date_text data f = true).
Proof.
  unfold by_sample, sampled.
  destruct (first_row_item data f) as [v | e];
    [ | split; [auto | intros [H | [_ H]]; [exact H | discriminate H]]].
  destruct v; cbn [is_number is_str date_text py_str];
    try (split; [auto | intros [H | [_ H]]; [exact H | discriminate H]]).
  destruct (re_date_like s).
  - destruct (negb (name_in f (l_date st))) eqn:E.
    + cbn [l_date add_date]. rewrite in_app_iff. simpl. intuition.
    + apply negb_false_iff, name_in_iff in E.
      split; [auto | intros [H | [-> _]]; assumption].
  - assert (Hd : forall st', l_date st' = l_date st ->
               (In g (l_date st') <-> In g (l_date st) \/ g = f /\ false = true)).
    { intros st' ->. split; [auto | intros [H | [_ H]]; [exact H | discriminate H]]. }
    destruct (few_values repr_value data f) as [[ | ] | e];
      [ | apply Hd; reflexivity | apply Hd; reflexivity].
    destruct (negb _); apply Hd; reflexivity.
Qed.

Lemma by_sample_category data st f g :
  In g (l_category (by_sample repr_value data st f)) ->
  In g (l_category st) \/ g = f.
Proof.
  unfold by_sample.
  destruct (first_row_item data f) as [v | e]; [ | auto].
  destruct (is_number v); [auto | ].
  destruct (is_str v); [ | auto].
  destruct (re_date_like _).
  - destruct (negb _); auto.
  - destruct (few_values repr_value data f) as [[ | ] | e];
      [ | auto | auto].
    destruct (negb _); [ | auto].
    cbn [l_category add_category add_text]. rewrite in_app_iff. simpl. intuition.
Qed.

Lemma analyze_field_numeric data st f :
  l_numeric (analyze_field repr_value data st f) =
  l_numeric st ++ (if sampled is_number data f then [f] else []).
Proof.
  unfold analyze_field. rewrite by_sample_numeric.
  destruct (any_in date_keywords _); [reflexivity | ].
  destruct (any_in category_keywords _); reflexivity.
Qed.

Lemma analyze_field_text data st f :
  l_text (analyze_field repr_value data st f) =
  l_text st ++ (if sampled plain_text data f then [f] else []).
Proof.
  unfold analyze_field. rewrite by_sample_text.
  destruct (any_in date_keywords _); [reflexivity | ].
  destruct (any_in category_keywords _); reflexivity.
Qed.

Lemma analyze_field_date data st f g :
  In g (l_date (analyze_field repr_value data st f)) <->
  In g (l_date st) \/
  (g = f /\ (date_by_name f || sampled date_text data f = true)).
Proof.
  unfold analyze_field, date_by_name. rewrite by_sample_date.
  destruct (any_in date_keywords (lower f)).
  - cbn [l_date add_date orb]. rewrite in_app_iff. simpl. intuition.
  - cbn [orb]. destruct (any_in category_keywords _); reflexivity.
Qed.

Lemma analyze_field_category data st f g :
  In g (l_category (analyze_field repr_value data st f)) ->
  In g (l_category st) \/ g = f.
Proof.
  unfold analyze_field. intros H. apply by_sample_category in H.
  destruct H as [H | H]; [ | auto].
  destruct (any_in date_keywords _); [auto | ].
  destruct (any_in category_keywords _); [ | auto].
  cbn [l_category add_category] in H. rewrite in_app_iff in H. simpl in H.
  intuition.
Qed.

Lemma fold_numeric data l st :
  l_numeric (fold_left (analyze_field repr_value data) l st) =
  l_numeric st ++ filter (sampled is_number data) l.
Proof.
  revert st. induction l as [ | f r IH]; intros st; simpl.
  - rewrite app_nil_r. reflexivity.
  - rewrite IH, analyze_field_numeric, <- app_assoc.
    destruct (sampled is_number data f); reflexivity.
Qed.

Lemma fold_text data l st :
  l_text (fold_left (analyze_field repr_value data) l st) =
  l_text st ++ filter (sampled plain_text data) l.
Proof.
  revert st. induction l as [ | f r IH]; intros st; simpl.
  - rewrite app_nil_r. reflexivity.
  - rewrite IH, analyze_field_text, <- app_assoc.
    destruct (sampled plain_text data f); reflexivity.
Qed.

Lemma fold_date data l st g :
  In g (l_date (fold_left (analyze_field repr_value data) l st)) <->
  In g (l_date st) \/
  (In g l /\ (date_by_name g || sampled date_text data g = true)).
Proof.
  revert st. induction l as [ | f r IH]; intros st; simpl.
  - intuition.
  - rewrite IH, analyze_field_date. split.
    + intros [[H | [-> H]] | [H1 H2]]; auto.
    + intros [H | [[<- | H1] H2]]; auto.
Qed.

Lemma fold_category data l st g :
  In g (l_category (fold_left (analyze_field repr_value data) l st)) ->
  In g (l_category st) \/ In g l.
Proof.
  revert st. induction l as [ | f r IH]; intros st; simpl; [auto | ].
  intros H. apply IH in H. destruct H as [H | H]; [ | auto].
  apply analyze_field_category in H. intuition.
Qed.

(** X13: in the analysis, [numeric_fields] is exactly the fields whose
    first-record sample is an [int] or [float] (not a [bool]), in field
    order; [text_fields] is exactly the fields whose sample is a string
    that the date pattern does not match; a field is a date field exactly
    when its name has a date keyword or its sample is a string the date
    pattern matches; category fields are fields; and no field is both
    numeric and text. *)
Theorem analysis_lists data a :
  analyze_data_structure repr_value data = Ok a ->
  numeric_fields a = filter (sampled is_number data) (fields a) /\
  text_fields a = filter (sampled plain_text data) (fields a) /\
  (forall f, In f (date_fields a) <->
             In f (fields a) /\
             (date_by_name f || sampled date_text data f = true)) /\
  (forall f, In f (category_fields a) -> In f (fields a)) /\
  (forall f, In f (numeric_fields a) -> ~ In f (text_fields a)).
Proof.
  unfold analyze_data_structure. intros H.
  destruct data as [ | first_item rest].
  { apply Ok_inj in H. subst a. simpl. repeat split; auto; try tauto. }
  destruct first_item; try discriminate H.
  apply bind_ok in H. destruct H as [fs [Hfs H]]. apply Ok_inj in H. subst a.
  cbn [numeric_fields text_fields date_fields category_fields fields].
  rewrite fold_numeric, fold_text. cbn [l_numeric l_text app].
  split; [reflexivity | ]. split; [reflexivity | ]. split.
  - intros f. rewrite fold_date. simpl. tauto.
  - split.
    + intros f Hf. apply fold_category in Hf. simpl in Hf. tauto.
    + intros f Hn Ht. apply filter_In in Hn, Ht.
      destruct Hn as [_ Hn]. destruct Ht as [_ Ht].
      unfold sampled in Hn, Ht.
      destruct (first_row_item _ f) as [v | e]; [ | discriminate].
      destruct v; discriminate.
Qed.

Lemma recommend_spec (t c n : bool) (rows k : nat) :
  (recommend t c n rows k = None <->
     n = false \/ (t = false /\ c = false /\ (k < 2)%nat)) /\
  (recommend t c n rows k = Some "line" <-> t = true /\ n = true) /\
  (recommend t c n rows k = None \/ recommend t c n rows k = Some "line" \/
   recommend t c n rows k = Some "bar" \/ recommend t c n rows k = Some "scatter").
Proof.
  unfold recommend.
  destruct t, c, n; cbn [andb];
    destruct (rows <=? 20)%nat;
    (destruct (2 <=? k)%nat eqn:Ek;
     [apply Nat.leb_le in Ek | apply Nat.leb_gt in Ek]);
    (split; [ | split; [ | auto 6]]);
    (split; intros H; try discriminate H; try reflexivity;
     intuition (try discriminate; try lia)).
Qed.

Lemma nonempty_ltb {A : Type} (l : list A) : (0 <? length l)%nat = false <-> l = [].
Proof. destruct l; simpl; split; intros H; try reflexivity; discriminate. Qed.

Lemma analyze_recommended data a :
  analyze_data_structure repr_value data = Ok a ->
  data <> [] ->
  recommended_viz a =
    recommend (0 <? length (date_fields a))%nat
      (0 <? length (category_fields a))%nat
      (0 <? length (numeric_fields a))%nat
      (length data) (length (numeric_fields a)).
Proof.
  unfold analyze_data_structure. intros H Hne.
  destruct data as [ | first_item rest]; [congruence | ].
  destruct first_item; try discriminate H.
  apply bind_ok in H. destruct H as [fs [Hfs H]]. apply Ok_inj in H. subst a.
  reflexivity.
Qed.

(** X14: the analysis recommends no chart exactly when there is no numeric
    field, or there is neither a date field, nor a category field, nor a
    second numeric field; it recommends a line chart exactly when there
    are a date field and a numeric field; and it never recommends anything
    but line, bar or scatter (never pie). *)
Theorem recommendation data a :
  analyze_data_structure repr_value data = Ok a ->
  data <> [] ->
  (recommended_viz a = None <->
     numeric_fields a = [] \/
     (date_fields a = [] /\ category_fields a = [] /\
      (length (numeric_fields a) < 2)%nat)) /\
  (recommended_viz a = Some "line" <->
     date_fields a <> [] /\ numeric_fields a <> []) /\
  (recommended_viz a = None \/ recommended_viz a = Some "line" \/
   recommended_viz a = Some "bar" \/ recommended_viz a = Some "scatter").
Proof.
  intros H Hne. rewrite (analyze_recommended _ _ H Hne).
  match goal with
  | |- context [recommend ?t ?c ?n ?rows ?k] =>
      destruct (recommend_spec t c n rows k) as [H1 [H2 H3]]
  end.
  split; [rewrite H1, !nonempty_ltb; tauto | ]. split; [ | exact H3].
  rewrite H2. destruct (date_fields a), (numeric_fields a); simpl;
    intuition (try discriminate; try congruence).
Qed.

End Analysis.

Lemma analysis_lists_witness :
  numeric_fields id_analysis =
  filter (sampled is_number id_rows) (fields id_analysis).
Proof.
  exact (proj1 (analysis_lists plain_repr id_rows id_analysis eq_refl)).
Defined.

Lemma recommendation_witness :
  recommended_viz id_analysis = Some "line" <->
  date_fields id_analysis <> [] /\ numeric_fields id_analysis <> [].
Proof.
  apply (proj1 (proj2 (recommendation plain_repr id_rows id_analysis eq_refl
                         ltac:(discriminate)))).
Defined.


(** ** The statistics *)

Section Stats.
Variable repr_value : value -> string.
Variable set_list : list string -> list string.
Variable float_sum : list spec_float -> spec_float.

Lemma add_category_stats_entry data fs f fs' :
  add_category_stats repr_value set_list data fs f = Ok fs' ->
  (exists entry, dict_get (VStr f) fs' = Some entry /\
                 field_of "type" entry = Some (VStr "categorical")) /\
  (forall g, g <> f -> dict_get (VStr g) fs' = dict_get (VStr g) fs).
Proof.
  unfold add_category_stats. intros H.
  apply bind_ok in H. destruct H as [values [Hv H]]. apply Ok_inj in H. subst fs'.
  split.
  - eexists. split; [apply dict_get_set_same | reflexivity].
  - intros g Hg. apply dict_get_set_other. exact Hg.
Qed.

Lemma category_stats_fold data l : forall fs fs',
  foldM (add_category_stats repr_value set_list data) l fs = Ok fs' ->
  forall f,
    (In f l \/ exists entry, dict_get (VStr f) fs = Some entry /\
                field_of "type" entry = Some (VStr "categorical")) ->
    exists entry, dict_get (VStr f) fs' = Some entry /\
                  field_of "type" entry = Some (VStr "categorical").
Proof.
  induction l as [ | g r IH]; intros fs fs' H f Hf; simpl in H.
  - apply Ok_inj in H. subst. destruct Hf as [[] | Hf]. exact Hf.
  - apply bind_ok in H. destruct H as [fs1 [H1 H2]].
    destruct (add_category_stats_entry _ _ _ _ H1) as [Hnew Hold].
    apply (IH _ _ H2). destruct (string_dec f g) as [-> | Hne].
    + right. exact Hnew.
    + destruct Hf as [[Hf | Hf] | Hf]; [congruence | left; exact Hf | ].
      right. rewrite (Hold f Hne). exact Hf.
Qed.

(** The second loop leaves the entries of the other fields as they are. *)
Lemma category_stats_keep data l : forall fs fs',
  foldM (add_category_stats repr_value set_list data) l fs = Ok fs' ->
  forall f, ~ In f l -> dict_get (VStr f) fs' = dict_get (VStr f) fs.
Proof.
  induction l as [ | g r IH]; intros fs fs' H f Hf; simpl in H.
  - apply Ok_inj in H. subst. reflexivity.
  - apply bind_ok in H. destruct H as [fs1 [H1 H2]].
    destruct (add_category_stats_entry _ _ _ _ H1) as [_ Hold].
    rewrite (IH _ _ H2 f) by (intros Hin; apply Hf; right; exact Hin).
    apply Hold. intros ->. apply Hf. left. reflexivity.
Qed.

(** X15: for every category field, the entry of "field_stats" is the
    categorical one, also when the field is numeric as well: the numeric
    statistics written first are overwritten. *)
Theorem categorical_stats_win data a stats f :
  generate_summary_stats repr_value set_list float_sum data a = Ok stats ->
  In f (category_fields a) ->
  exists entry, stats_entry f stats = Some entry /\
                field_of "type" entry = Some (VStr "categorical").
Proof.
  unfold generate_summary_stats. intros H Hf.
  apply bind_ok in H. destruct H as [fs1 [H1 H]].
  apply bind_ok in H. destruct H as [fs2 [H2 H]]. apply Ok_inj in H. subst stats.
  destruct (category_stats_fold _ _ _ _ H2 f (or_introl Hf)) as [entry [He Ht]].
  exists entry. split; [ | exact Ht]. exact He.
Qed.

(** The entry that the first loop writes for a field with the values
    [x :: xs]. *)
Lemma add_numeric_stats_entry data fs f fs' :
  add_numeric_stats float_sum data fs f = Ok fs' ->
  (forall g, g <> f -> dict_get (VStr g) fs' = dict_get (VStr g) fs) /\
  (forall x xs, numeric_objects f data = Ok (x :: xs) ->
     numeric_entry x xs (dict_get (VStr f) fs')).
Proof.
  unfold add_numeric_stats. intros H.
  apply bind_ok in H. destruct H as [values [Hv H]].
  destruct values as [ | y ys].
  - apply Ok_inj in H. subst fs'. split; [reflexivity | ].
    intros x xs Hx. congruence.
  - apply bind_ok in H. destruct H as [entry [He H]].
    apply Ok_inj in H. subst fs'. split.
    + intros g Hg. apply dict_get_set_other. exact Hg.
    + intros x xs Hx. rewrite Hv in Hx. apply Ok_inj in Hx.
      inversion Hx; subst y ys; clear Hx.
      rewrite dict_get_set_same. unfold numeric_stats in He.
      apply bind_ok in He. destruct He as [avg [_ He]].
      apply Ok_inj in He. subst entry. exists avg. reflexivity.
Qed.

Lemma numeric_stats_fold data l : forall fs fs',
  foldM (add_numeric_stats float_sum data) l fs = Ok fs' ->
  forall f x xs,
    numeric_objects f data = Ok (x :: xs) ->
    In f l \/ numeric_entry x xs (dict_get (VStr f) fs) ->
    numeric_entry x xs (dict_get (VStr f) fs').
Proof.
  induction l as [ | g r IH]; intros fs fs' H f x xs Hx Hf; simpl in H.
  - apply Ok_inj in H. subst. destruct Hf as [[] | Hf]. exact Hf.
  - apply bind_ok in H. destruct H as [fs1 [H1 H2]].
    destruct (add_numeric_stats_entry _ _ _ _ H1) as [Hold Hnew].
    apply (IH _ _ H2 f x xs Hx). destruct (string_dec f g) as [-> | Hne].
    + right. apply Hnew. exact Hx.
    + destruct Hf as [[Hf | Hf] | Hf]; [congruence | left; exact Hf | ].
      right. rewrite (Hold f Hne). exact Hf.
Qed.

(** X16: in the statistics that [generate_summary_stats] returns, the
    entry of a numeric field that is not a category field as well, and
    that has at least one numeric value, has the type "numeric", the
    number of these values as "count", and as "min" and "max" two of
    these values (the first smallest and the first largest that [min] and
    [max] keep); when no value is NaN, they bound all the values. *)
Theorem numeric_stats_bounds data a stats f x xs :
  generate_summary_stats repr_value set_list float_sum data a = Ok stats ->
  In f (numeric_fields a) -> ~ In f (category_fields a) ->
  numeric_objects f data = Ok (x :: xs) ->
  exists entry lo hi,
    stats_entry f stats = Some entry /\
    field_of "type" entry = Some (VStr "numeric") /\
    field_of "min" entry = Some lo /\ field_of "max" entry = Some hi /\
    field_of "count" entry = Some (nat_value (length (x :: xs))) /\
    In lo (x :: xs) /\ In hi (x :: xs) /\
    (Forall (fun v => ordered v = true) (x :: xs) ->
     forall v, In v (x :: xs) -> py_leb lo v = true /\ py_leb v hi = true).
Proof.
  unfold generate_summary_stats. intros H Hn Hc Hx.
  apply bind_ok in H. destruct H as [fs1 [H1 H]].
  apply bind_ok in H. destruct H as [fs2 [H2 H]]. apply Ok_inj in H. subst stats.
  pose proof (numeric_stats_fold _ _ _ _ H1 f x xs Hx (or_introl Hn)) as He.
  rewrite <- (category_stats_keep _ _ _ _ H2 f Hc) in He.
  destruct He as [avg He].
  exists (VDict ["type" ~> VStr "numeric"; "min" ~> py_min x xs;
                 "max" ~> py_max x xs; "avg" ~> avg;
                 "count" ~> nat_value (length (x :: xs))]),
         (py_min x xs), (py_max x xs).
  split; [exact He | ].
  split; [reflexivity | ]. split; [reflexivity | ]. split; [reflexivity | ].
  split; [reflexivity | ].
  split; [apply py_min_in | ]. split; [apply py_max_in | ].
  intros Hall v Hv. split.
  - apply (proj2 (py_min_spec x xs Hall)). exact Hv.
  - apply (proj2 (py_max_spec x xs Hall)). exact Hv.
Qed.

Lemma py_in_scalar f row : scalar row = true -> py_in f row = Raise TypeError.
Proof. destruct row; simpl; intros H; try discriminate H; reflexivity. Qed.

Lemma numeric_objects_scalar f data row :
  In row data -> scalar row = true ->
  numeric_objects f data = Raise TypeError.
Proof.
  induction data as [ | r rest IH]; intros Hin Hs; [contradiction | ].
  cbn [numeric_objects].
  destruct r; try (reflexivity).
  all: try (destruct Hin as [<- | Hin]; [discriminate Hs | ]).
  - cbn [py_in bind]. destruct (contains f s); [reflexivity | auto].
  - cbn [py_in bind]. destruct (existsb _ _); [reflexivity | auto].
  - cbn [py_in bind getitem]. unfold dict_has.
    destruct (dict_get (VStr f) d) as [v | ]; cbn [matched bind]; [ | auto].
    destruct (is_int_or_float v); [rewrite (IH Hin Hs); reflexivity | auto].
Qed.

Lemma category_values_scalar f data row :
  In row data -> scalar row = true ->
  category_values repr_value f data = Raise TypeError.
Proof.
  induction data as [ | r rest IH]; intros Hin Hs; [contradiction | ].
  cbn [category_values].
  destruct r; try (reflexivity).
  all: try (destruct Hin as [<- | Hin]; [discriminate Hs | ]).
  - cbn [py_in bind]. destruct (contains f s); [reflexivity | auto].
  - cbn [py_in bind]. destruct (existsb _ _); [reflexivity | auto].
  - cbn [py_in bind getitem]. unfold dict_has.
    destruct (dict_get (VStr f) d) as [v | ]; cbn [matched bind]; [ | auto].
    rewrite (IH Hin Hs). reflexivity.
Qed.

(** X17: [generate_summary_stats] has no handler around [field in row]:
    when some row is [None], a boolean or a number, and the analysis has a
    numeric or a category field, it raises [TypeError]. *)
Theorem summary_stats_type_error data a row :
  In row data -> scalar row = true ->
  numeric_fields a <> [] \/ category_fields a <> [] ->
  generate_summary_stats repr_value set_list float_sum data a = Raise TypeError.
Proof.
  intros Hin Hs Hf. unfold generate_summary_stats.
  destruct (numeric_fields a) as [ | n ns].
  - destruct Hf as [Hf | Hf]; [congruence | ].
    cbn [foldM bind]. destruct (category_fields a) as [ | c cs]; [congruence | ].
    cbn [foldM]. unfold add_category_stats.
    rewrite (category_values_scalar c data row Hin Hs). reflexivity.
  - cbn [foldM]. unfold add_numeric_stats.
    rewrite (numeric_objects_scalar n data row Hin Hs). reflexivity.
Qed.

End Stats.

Lemma categorical_stats_win_witness :
  exists entry,
    stats_entry "id" id_stats = Some entry /\
    field_of "type" entry = Some (VStr "categorical").
Proof.
  apply (categorical_stats_win plain_repr first_seen plain_sum id_rows
           id_analysis id_stats "id" eq_refl).
  left. reflexivity.
Defined.

Lemma numeric_stats_bounds_witness :
  analyze_data_structure plain_repr city_rows = Ok city_analysis /\
  exists entry lo hi,
    stats_entry "n" city_stats = Some entry /\
    field_of "type" entry = Some (VStr "numeric") /\
    field_of "min" entry = Some lo /\ field_of "max" entry = Some hi /\
    field_of "count" entry = Some (nat_value (length city_numbers)) /\
    In lo city_numbers /\ In hi city_numbers /\
    (Forall (fun v => ordered v = true) city_numbers ->
     forall v, In v city_numbers -> py_leb lo v = true /\ py_leb v hi = true).
Proof.
  split; [reflexivity | ].
  apply (numeric_stats_bounds plain_repr first_seen plain_sum city_rows
           city_analysis city_stats "n" _ _ eq_refl).
  - left. reflexivity.
  - intros [H | []]. discriminate H.
  - reflexivity.
Defined.

Lemma summary_stats_type_error_witness :
  generate_summary_stats plain_repr first_seen plain_sum mixed_rows
    mixed_analysis = Raise TypeError.
Proof.
  apply (summary_stats_type_error plain_repr first_seen plain_sum mixed_rows
           mixed_analysis (VInt 5)).
  - right. left. reflexivity.
  - reflexivity.
  - left. discriminate.
Defined.

(** ** The inner chart builder and the main function *)

Lemma inner_chart_empty data a chart_type :
  data = [] \/ fields a = [] ->
  generate_vega_lite_spec data a chart_type =
  Ok (VDict ["error" ~> VStr "No data to visualize"]).
Proof.
  unfold generate_vega_lite_spec. intros [-> | ->]; [reflexivity | ].
  destruct data; reflexivity.
Qed.

Lemma inner_chart_cases data a chart_type :
  data <> [] -> fields a <> [] ->
  if no_y_for_line a chart_type
  then generate_vega_lite_spec data a chart_type = Raise AttributeError
  else exists doc, generate_vega_lite_spec data a chart_type = Ok doc /\
                   embedded_data doc = Some (VList data).
Proof.
  intros Hd Hf. unfold generate_vega_lite_spec, bindings, no_y_for_line.
  destruct data as [ | row rest]; [congruence | ].
  destruct (fields a) as [ | f0 fs]; [congruence | ].
  destruct (chart_type =? "line") eqn:El; cbn [andb].
  - destruct (numeric_fields a) as [ | n ns]; cbn [length Nat.eqb andb].
    + destruct fs as [ | f1 fs]; cbn [length Nat.eqb].
      * destruct (date_fields a), (category_fields a); reflexivity.
      * destruct (date_fields a) as [ | d ds], (category_fields a) as [ | c cs];
          cbn [method_on bind]; try destruct (name_truthy (Some c));
          eexists; split; reflexivity.
    + destruct (date_fields a) as [ | d ds], (category_fields a) as [ | c cs];
        cbn [method_on bind]; try destruct (name_truthy (Some c));
        eexists; split; reflexivity.
  - destruct (chart_type =? "bar");
      [destruct (date_fields a), (category_fields a); eexists; split; reflexivity | ].
    destruct (chart_type =? "scatter").
    { destruct (date_fields a), (category_fields a);
        destruct (numeric_fields a) as [ | n [ | n2 ns]]; destruct fs;
        cbn [item0 item1 bind]; eexists; split; reflexivity. }
    destruct (chart_type =? "pie").
    { destruct (date_fields a), (category_fields a);
        destruct (numeric_fields a) as [ | n ns]; destruct fs;
        cbn [item0 item1 bind]; eexists; split; reflexivity. }
    destruct (date_fields a), (category_fields a); eexists; split; reflexivity.
Qed.

(** X18: the inner chart builder answers with the error document when
    there is no data or no field.  Otherwise it raises [AttributeError]
    exactly for the chart type "line" on an analysis with no numeric field
    and a single field, where [y_field] is [None] and [y_field.replace] is
    called; in every other case it returns a chart in which the data are
    embedded unchanged. *)
Theorem inner_chart_outcomes :
  forall data a chart_type,
    (data = [] \/ fields a = [] ->
     generate_vega_lite_spec data a chart_type =
     Ok (VDict ["error" ~> VStr "No data to visualize"])) /\
    (data <> [] -> fields a <> [] ->
     if (chart_type =? "line") && (length (numeric_fields a) =? 0)%nat &&
        (length (fields a) =? 1)%nat
     then generate_vega_lite_spec data a chart_type = Raise AttributeError
     else exists doc,
            generate_vega_lite_spec data a chart_type = Ok doc /\
            embedded_data doc = Some (VList data)).
Proof.
  intros data a chart_type. split.
  - apply inner_chart_empty.
  - apply inner_chart_cases.
Qed.

Lemma inner_chart_outcomes_witness :
  generate_vega_lite_spec lone_rows lone_analysis "line" = Raise AttributeError.
Proof.
  apply (proj2 (inner_chart_outcomes lone_rows lone_analysis "line"));
    discriminate.
Defined.

Section Totality.
Variable json_loads : string -> result value.
Variable repr_value : value -> string.
Variable set_list : list string -> list string.
Variable float_sum : list spec_float -> spec_float.




End Totality.


End ProcessorMore.
